(** * SASAutodoc: the documentation assembly pipeline

    A shallow embedding of the text-analysis and rendering functions of
    [app.py] and [document_generator.py], and the properties of the
    specification that concern them.

    Python text is modelled by [string]; every [ascii] stands for the code
    point of the same number, so the model covers text whose code points are
    below 256.  The character classes below are the ones Python uses on
    that range. *)

From Stdlib Require Import String Ascii List Bool Arith ZArith Lia Permutation.
Import ListNotations.
Open Scope string_scope.
Open Scope list_scope.
Open Scope nat_scope.

(* ================================================================== *)
(** ** Python text primitives *)
(* ================================================================== *)

Module Py.

(** The line feed, ['\n']. *)
Definition nl : ascii := "010"%char.

(** [str.isspace] on one character; also the class [\s] of [re]. *)
Definition is_space (c : ascii) : bool :=
  let n := nat_of_ascii c in
  ((9 <=? n) && (n <=? 13)) || ((28 <=? n) && (n <=? 32))
  || (n =? 133) || (n =? 160).

(** The class [\d] of [re]. *)
Definition is_digit (c : ascii) : bool :=
  let n := nat_of_ascii c in (48 <=? n) && (n <=? 57).

(** The class [\w] of [re]: alphanumeric characters and the underscore. *)
Definition is_word (c : ascii) : bool :=
  let n := nat_of_ascii c in
  is_digit c
  || ((65 <=? n) && (n <=? 90)) || ((97 <=? n) && (n <=? 122)) || (n =? 95)
  || (n =? 170) || (n =? 178) || (n =? 179) || (n =? 181) || (n =? 185)
  || (n =? 186) || ((188 <=? n) && (n <=? 190))
  || ((192 <=? n) && (n <=? 214)) || ((216 <=? n) && (n <=? 246))
  || (248 <=? n).

(** The class [.] of [re] without DOTALL: anything but a line feed. *)
Definition is_dot (c : ascii) : bool := negb (Ascii.eqb c nl).

(** [str.lower] on one character. *)
Definition lower_char (c : ascii) : ascii :=
  let n := nat_of_ascii c in
  if ((65 <=? n) && (n <=? 90))
     || ((192 <=? n) && (n <=? 222) && negb (n =? 215))
  then ascii_of_nat (n + 32) else c.

Fixpoint lower (s : string) : string :=
  match s with
  | EmptyString => EmptyString
  | String c s' => String (lower_char c) (lower s')
  end.

Definition is_empty (s : string) : bool :=
  match s with EmptyString => true | _ => false end.

(** [s.lstrip()], [s.rstrip()] and [s.strip()] with no argument. *)
Fixpoint lstrip (s : string) : string :=
  match s with
  | EmptyString => EmptyString
  | String c s' => if is_space c then lstrip s' else s
  end.

Fixpoint rstrip_with (drop : ascii -> bool) (s : string) : string :=
  match s with
  | EmptyString => EmptyString
  | String c s' =>
      let r := rstrip_with drop s' in
      if drop c && is_empty r then EmptyString else String c r
  end.

Definition rstrip (s : string) : string := rstrip_with is_space s.

Definition strip (s : string) : string := rstrip (lstrip s).

(** [s.rstrip(':')]. *)
Definition rstrip_colon (s : string) : string :=
  rstrip_with (Ascii.eqb ":"%char) s.

(** [s.startswith(p)]. *)
Fixpoint startswith (p s : string) : bool :=
  match p, s with
  | EmptyString, _ => true
  | String a p', String b s' => Ascii.eqb a b && startswith p' s'
  | String _ _, EmptyString => false
  end.

(** [p in s] for two strings. *)
Fixpoint contains (p s : string) : bool :=
  startswith p s
  || match s with
     | EmptyString => false
     | String _ s' => contains p s'
     end.

(** [s.split(sep)] for a separator of one character. *)
Fixpoint split (sep : ascii) (s : string) : list string :=
  match s with
  | EmptyString => [EmptyString]
  | String c s' =>
      if Ascii.eqb c sep then EmptyString :: split sep s'
      else match split sep s' with
           | h :: t => String c h :: t
           | [] => [String c EmptyString]
           end
  end.

(** [sep.join(l)]. *)
Fixpoint join (sep : string) (l : list string) : string :=
  match l with
  | [] => EmptyString
  | [x] => x
  | x :: rest => (x ++ sep ++ join sep rest)%string
  end.

End Py.

(* ================================================================== *)
(** ** The fragment of [re] the program uses *)
(* ================================================================== *)

Module Re.

(** One-character matchers: a literal or a class. *)
Inductive atom : Type :=
| Lit (c : ascii)
| Cls (p : ascii -> bool).

(** Pattern items.  Every repetition in the program's patterns is over one
    character; groups enclose exactly one repetition. *)
Inductive item : Type :=
| One (a : atom)            (* a *)
| Plus (a : atom)           (* a+   greedy *)
| Star (a : atom)           (* a*   greedy *)
| GroupPlus (a : atom)      (* (a+) greedy, captured *)
| GroupLazyStar (a : atom). (* (a*?) lazy, captured *)

Definition pattern := list item.

(** [ic] is the flag [re.IGNORECASE]: literals are compared after
    lower-casing. *)
Definition atom_ok (ic : bool) (a : atom) (c : ascii) : bool :=
  match a with
  | Lit l => if ic then Ascii.eqb (Py.lower_char l) (Py.lower_char c)
             else Ascii.eqb l c
  | Cls p => p c
  end.

Section Backtracking.
Context {R : Type}.
Variable ok : ascii -> bool.

(** Greedy repetition: the longest run first, then shorter ones; [acc] is
    the text taken so far and [k] the rest of the pattern. *)
Fixpoint greedy_rep (acc s : string) (k : string -> string -> option R)
  : option R :=
  match s with
  | String c s' =>
      if ok c then
        match greedy_rep (acc ++ String c EmptyString)%string s' k with
        | Some r => Some r
        | None => k acc s
        end
      else k acc s
  | EmptyString => k acc s
  end.

(** Lazy repetition: the shortest run first. *)
Fixpoint lazy_rep (acc s : string) (k : string -> string -> option R)
  : option R :=
  match k acc s with
  | Some r => Some r
  | None =>
      match s with
      | String c s' =>
          if ok c then lazy_rep (acc ++ String c EmptyString)%string s' k
          else None
      | EmptyString => None
      end
  end.

Definition greedy1 (s : string) (k : string -> string -> option R)
  : option R :=
  match s with
  | String c s' => if ok c then greedy_rep (String c EmptyString) s' k else None
  | EmptyString => None
  end.
End Backtracking.

(** A match of [p] at the start of [s]: the captured groups, in order, and
    the text left after the match. *)
Fixpoint match_here (ic : bool) (p : pattern) (s : string)
  : option (list string * string) :=
  match p with
  | [] => Some ([], s)
  | One a :: p' =>
      match s with
      | String c s' => if atom_ok ic a c then match_here ic p' s' else None
      | EmptyString => None
      end
  | Plus a :: p' =>
      greedy1 (atom_ok ic a) s (fun _ rest => match_here ic p' rest)
  | Star a :: p' =>
      greedy_rep (atom_ok ic a) EmptyString s
        (fun _ rest => match_here ic p' rest)
  | GroupPlus a :: p' =>
      greedy1 (atom_ok ic a) s
        (fun cap rest =>
           match match_here ic p' rest with
           | Some (gs, r) => Some (cap :: gs, r)
           | None => None
           end)
  | GroupLazyStar a :: p' =>
      lazy_rep (atom_ok ic a) EmptyString s
        (fun cap rest =>
           match match_here ic p' rest with
           | Some (gs, r) => Some (cap :: gs, r)
           | None => None
           end)
  end.

(** [re.match(p, s)]: is there a match at the start of [s]? *)
Definition re_match (ic : bool) (p : pattern) (s : string) : bool :=
  match match_here ic p s with Some _ => true | None => false end.

(** [re.search(p, s)]: the groups of the leftmost match. *)
Fixpoint search (ic : bool) (p : pattern) (s : string)
  : option (list string) :=
  match match_here ic p s with
  | Some (gs, _) => Some gs
  | None =>
      match s with
      | EmptyString => None
      | String _ s' => search ic p s'
      end
  end.

(** [re.findall(p, s)]: the groups of the successive matches, none
    overlapping another; [skip] counts the characters of the last match
    still to be passed. *)
Fixpoint findall_from (ic : bool) (p : pattern) (skip : nat) (s : string)
  : list (list string) :=
  match skip with
  | S n =>
      match s with
      | EmptyString => []
      | String _ s' => findall_from ic p n s'
      end
  | O =>
      match match_here ic p s with
      | Some (gs, rest) =>
          gs :: match s with
                | EmptyString => []
                | String _ s' =>
                    findall_from ic p
                      (String.length s - String.length rest - 1) s'
                end
      | None =>
          match s with
          | EmptyString => []
          | String _ s' => findall_from ic p 0 s'
          end
      end
  end.

Definition findall (ic : bool) (p : pattern) (s : string)
  : list (list string) := findall_from ic p 0 s.

(** A literal word as a pattern. *)
Fixpoint lits (s : string) : pattern :=
  match s with
  | EmptyString => []
  | String c s' => One (Lit c) :: lits s'
  end.

End Re.

(* ================================================================== *)
(** ** Python values, mappings and exceptions *)
(* ================================================================== *)

Module PyVal.

(** The values a content mapping holds: what [json.loads] produces, floats
    left out.  A mapping keeps its keys in insertion order, which
    [_create_rtf] observes, so it is an association list. *)
#[warnings="-register-all"] Inductive value : Type :=
| VNone
| VBool (b : bool)
| VInt (n : Z)
| VStr (s : string)
| VList (l : list value)
| VDict (d : list (string * value)).

Definition dict := list (string * value).

(** Truth value of a Python object, as [if x] and [not x] take it. *)
Definition truthy (v : value) : bool :=
  match v with
  | VNone => false
  | VBool b => b
  | VInt n => negb (Z.eqb n 0)
  | VStr s => negb (Py.is_empty s)
  | VList l => match l with [] => false | _ => true end
  | VDict d => match d with [] => false | _ => true end
  end.

(** [d.get(k)] *)
Fixpoint dict_get (d : dict) (k : string) : option value :=
  match d with
  | [] => None
  | (k', v) :: d' => if String.eqb k' k then Some v else dict_get d' k
  end.

(** [k in d] *)
Definition dict_has (d : dict) (k : string) : bool :=
  match dict_get d k with Some _ => true | None => false end.

(** [d[k] = v]: an existing key keeps its place, a new one goes last. *)
Fixpoint dict_set (d : dict) (k : string) (v : value) : dict :=
  match d with
  | [] => [(k, v)]
  | (k', v') :: d' =>
      if String.eqb k' k then (k', v) :: d' else (k', v') :: dict_set d' k v
  end.

(** [list(d.keys())] *)
Definition dict_keys (d : dict) : list string := map fst d.

Inductive exn : Type :=
| KeyError (k : string)
| TypeError
| AttributeError
| IndexError
| UnboundLocalError
| ValueError (msg : string)
| Wrapped (msg : string) (cause : exn).

Inductive result (A : Type) : Type :=
| Ok (a : A)
| Raise (e : exn).
Arguments Ok {A} a.
Arguments Raise {A} e.

Definition bind {A B : Type} (m : result A) (f : A -> result B) : result B :=
  match m with
  | Ok a => f a
  | Raise e => Raise e
  end.

Notation "x <- m ;; k" := (bind m (fun x => k))
  (at level 61, m at next level, right associativity).

(** [for x in l: ...] where the body may raise: the first exception ends
    the loop. *)
Fixpoint for_each {A S : Type} (l : list A) (st : S)
  (body : S -> A -> result S) : result S :=
  match l with
  | [] => Ok st
  | x :: l' => st' <- body st x ;; for_each l' st' body
  end.

(** [v[k]] with a string [k]: defined on mappings only. *)
Definition getitem (v : value) (k : string) : result value :=
  match v with
  | VDict d =>
      match dict_get d k with
      | Some x => Ok x
      | None => Raise (KeyError k)
      end
  | _ => Raise TypeError
  end.

Fixpoint chars (s : string) : list value :=
  match s with
  | EmptyString => []
  | String c s' => VStr (String c EmptyString) :: chars s'
  end.

(** What [for x in v] ranges over. *)
Definition iter (v : value) : result (list value) :=
  match v with
  | VList l => Ok l
  | VStr s => Ok (chars s)
  | VDict d => Ok (map (fun kv => VStr (fst kv)) d)
  | _ => Raise TypeError
  end.

(** [len(v)] *)
Definition len (v : value) : result nat :=
  match v with
  | VList l => Ok (List.length l)
  | VStr s => Ok (String.length s)
  | VDict d => Ok (List.length d)
  | _ => Raise TypeError
  end.

End PyVal.

Import PyVal.

(* ================================================================== *)
(** ** document_generator.py: the content formatter *)
(* ================================================================== *)

Module DocGen.

Definition SECTION_ORDER : list string :=
  [ "Overview"; "Syntax"; "Parameters"; "Key Features and Functionalities";
    "Usage Examples"; "Return Values"; "Error Handling"; "Version History";
    "Summary" ].

(** [_process_section_name] *)
Definition _process_section_name (section : string) : string :=
  Py.lower (Py.rstrip_colon section).

(** The pattern [^\d+\.\s] given to [re.match], which anchors at the start
    of the text by itself. *)
Definition numbered_item : Re.pattern :=
  [ Re.Plus (Re.Cls Py.is_digit); Re.One (Re.Lit "."%char);
    Re.One (Re.Cls Py.is_space) ].

(** The local variables of the loop of [format_content]. *)
Record fstate : Type := mk_fstate {
  formatted_lines : list string;
  in_example : bool;
  in_numbered_list : bool;
  in_code_block : bool
}.

Definition fstate0 : fstate := mk_fstate [] false false false.

Definition append_line (st : fstate) (l : string) : fstate :=
  mk_fstate (formatted_lines st ++ [l]) (in_example st)
            (in_numbered_list st) (in_code_block st).

Definition set_example (st : fstate) (b : bool) : fstate :=
  mk_fstate (formatted_lines st) b (in_numbered_list st) (in_code_block st).

Definition set_numbered (st : fstate) (b : bool) : fstate :=
  mk_fstate (formatted_lines st) (in_example st) b (in_code_block st).

Definition set_code (st : fstate) (b : bool) : fstate :=
  mk_fstate (formatted_lines st) (in_example st) (in_numbered_list st) b.

(** A line that holds one of the two markers. *)
Definition has_marker (stripped_line : string) : bool :=
  Py.contains "Example:" stripped_line || Py.contains "Usage:" stripped_line.

(** One turn of the loop [for line in lines] of [format_content]. *)
Definition format_line (st : fstate) (line : string) : fstate :=
  let stripped_line := Py.strip line in
  if Py.is_empty stripped_line
     && match formatted_lines st with [] => true | _ => false end
  then st
  else if has_marker stripped_line then
    if negb (in_example st)
    then set_example
           (append_line st (String Py.nl EmptyString ++ stripped_line)%string)
           true
    else st
  else if Py.startswith "    " stripped_line then
    if negb (in_code_block st)
    then set_code (append_line st ("    " ++ stripped_line)%string) true
    else append_line st ("    " ++ stripped_line)%string
  else
    let st := set_code st false in
    if Py.startswith "- " stripped_line then append_line st stripped_line
    else if Re.re_match false numbered_item stripped_line
    then set_numbered (append_line st stripped_line) true
    else
      let st := set_numbered st false in
      if in_example st then append_line st stripped_line
      else append_line st stripped_line.

Definition format_lines (lines : list string) (st : fstate) : fstate :=
  fold_left format_line lines st.

(** The part of [format_content] that works on text: split, classify each
    line, join. *)
Definition format_text (text : string) : string :=
  let lines := Py.split Py.nl text in
  Py.join (String Py.nl EmptyString)
          (formatted_lines (format_lines lines fstate0)).

Section Formatter.

(** [str(v)] of a value that is not text: the program leaves it to
    Python. *)
Variable py_repr : value -> string.

Definition py_str (v : value) : string :=
  match v with
  | VStr s => s
  | _ => py_repr v
  end.

(** The branch of [format_content] for a mapping with subsections; any
    exception is caught by the caller. *)
Definition format_features (d : dict) : result string :=
  main_section <-
    match dict_get d "main_section" with
    | None => Ok EmptyString
    | Some (VStr s) => Ok (Py.strip s)
    | Some _ => Raise AttributeError
    end ;;
  subsections <- getitem (VDict d) "subsections" ;;
  items <- iter subsections ;;
  formatted_text <-
    for_each items (main_section ++ String Py.nl EmptyString)%string
      (fun acc subsection =>
         title <- getitem subsection "title" ;;
         let acc := (acc ++ "- " ++ py_str title
                         ++ String Py.nl EmptyString)%string in
         description <- getitem subsection "description" ;;
         Ok (acc ++ "  " ++ py_str description
                 ++ String Py.nl EmptyString)%string) ;;
  Ok (Py.strip formatted_text).

(** [format_content] *)
Definition format_content (text : value) : string :=
  match text with
  | VList l =>
      Py.join (String Py.nl (String Py.nl EmptyString))
              (map (fun example => Py.strip (py_str example)) l)
  | VDict d =>
      if dict_has d "subsections" then
        match format_features d with
        | Ok s => s
        | Raise _ => py_str text
        end
      else format_text (py_str text)
  | _ => format_text (py_str text)
  end.

(* ------------------------------------------------------------------ *)
(** *** Rendered documents *)

(** What a renderer hands to its library, in order.  A [Heading] is a
    section heading: a level-1 heading of the editable document, a
    paragraph in the heading style of the PDF, the title of a content slide,
    an [<h2>] of the HTML page.  Fonts, sizes and spacing are left out.

    The renderers below are the code of the repository with libraries
    that take what they are handed: a result [Ok doc] says that the code
    of the renderer raises nothing and hands [doc] over.  What the
    libraries themselves refuse is left out: reportlab raises a ValueError
    on paragraph markup it cannot parse, python-docx on a control
    character, and the file may fail to be written. *)
Inductive elem : Type :=
| Title (text : string)
| Subtitle (text : string)
| Heading (text : string)
| SubHeading (text : string)
| Normal (text : string)
| Code (text : string)
| Body (text : string)
| DataTable (data : list value)
| Grid (cells : list (list string))
| HtmlTable (headers : list string) (rows : list (list string))
| Spacer.

(** The section headings of a document, in order. *)
Fixpoint headings (doc : list elem) : list string :=
  match doc with
  | [] => []
  | Heading s :: rest => s :: headings rest
  | _ :: rest => headings rest
  end.

(** The table cells of python-docx and python-pptx: a grid with a fixed
    number of columns; a cell outside the grid cannot be addressed. *)
Definition grid := list (list string).

Definition empty_row (cols : nat) : list string := repeat EmptyString cols.

Fixpoint set_nth {A : Type} (l : list A) (i : nat) (x : A)
  : result (list A) :=
  match l, i with
  | [], _ => Raise IndexError
  | _ :: t, O => Ok (x :: t)
  | h :: t, S i' => t' <- set_nth t i' x ;; Ok (h :: t')
  end.

(** [for j, cell_data in enumerate(row_data): cells[j].text = ...] *)
Fixpoint fill_cells (cells : list string) (j : nat) (texts : list string)
  : result (list string) :=
  match texts with
  | [] => Ok cells
  | t :: rest => cells' <- set_nth cells j t ;; fill_cells cells' (S j) rest
  end.

(** A header cell is given the header as it is, [cell.text = header],
    and the libraries take text there.  A header that is no text is
    refused with the exception of the library: python-pptx raises an
    AttributeError, and python-docx is taken to raise a TypeError. *)
Definition header_text (refused : exn) (v : value) : result string :=
  match v with
  | VStr s => Ok s
  | _ => Raise refused
  end.

Fixpoint map_result {A B : Type} (f : A -> result B) (l : list A)
  : result (list B) :=
  match l with
  | [] => Ok []
  | x :: l' => y <- f x ;; ys <- map_result f l' ;; Ok (y :: ys)
  end.

Definition title_text (macro_name : value) : string :=
  if truthy macro_name then (py_str macro_name ++ " User Manual")%string
  else "SAS Macro Documentation".

(** The test [section not in content or not content[section]]. *)
Definition populated (content : dict) (section : string) : option value :=
  match dict_get content section with
  | Some v => if truthy v then Some v else None
  | None => None
  end.

(* ------------------------------------------------------------------ *)
(** *** create_presentation *)

(** The table of the Parameters slide. *)
Definition presentation_table (params : value) : result grid :=
  table_rows <- getitem params "table_rows" ;;
  n <- len table_rows ;;
  table_headers <- getitem params "table_headers" ;;
  cols <- len table_headers ;;
  hs <- iter table_headers ;;
  hs <- map_result (header_text AttributeError) hs ;;
  header_row <- fill_cells (empty_row cols) 0 hs ;;
  rs <- iter table_rows ;;
  body <- map_result
            (fun row_data =>
               cs <- iter row_data ;;
               fill_cells (empty_row cols) 0 (map py_str cs)) rs ;;
  Ok (header_row :: body).

Definition presentation_slide (content : dict) (section : string)
  : result (list elem) :=
  match populated content section with
  | None => Ok []
  | Some v =>
      if String.eqb section "Parameters" then
        match v with
        | VDict _ => g <- presentation_table v ;; Ok [Heading section; Grid g]
        | _ => Ok [Heading section]
        end
      else Ok [Heading section; Body (format_content v)]
  end.

Fixpoint concat_results {A : Type} (l : list (result (list A)))
  : result (list A) :=
  match l with
  | [] => Ok []
  | r :: l' => x <- r ;; xs <- concat_results l' ;; Ok (x ++ xs)
  end.

Definition create_presentation (content : dict) : result (list elem) :=
  let macro_name :=
    match dict_get content "macro_name" with Some v => v | None => VNone end in
  let title :=
    if truthy macro_name && negb (Py.is_empty (Py.strip (py_str macro_name)))
    then (py_str macro_name ++ " User Manual")%string
    else "SAS Macro Documentation" in
  slides <- concat_results (map (presentation_slide content) SECTION_ORDER) ;;
  Ok (Title title :: Subtitle "SAS Macro Documentation" :: slides).

(* ------------------------------------------------------------------ *)
(** *** _create_pdf *)

Definition pdf_paragraph (para : string) : list elem :=
  if negb (Py.is_empty (Py.strip para)) then
    if Py.startswith "    " para then [Code (Py.strip para)]
    else [Normal para]
  else [].

(** [[headers] + content[section]["table_rows"]]: the right operand has to
    be a list. *)
Definition pdf_table (params : value) : result (list value) :=
  headers <- getitem params "table_headers" ;;
  table_rows <- getitem params "table_rows" ;;
  match table_rows with
  | VList rows => Ok (headers :: rows)
  | _ => Raise TypeError
  end.

Definition pdf_section (content : dict) (section : string)
  : result (list elem) :=
  match populated content section with
  | None => Ok []
  | Some v =>
      if String.eqb section "Parameters" then
        data <- pdf_table v ;;
        Ok [Heading section; DataTable data; Spacer]
      else
        let paragraphs := Py.split Py.nl (format_content v) in
        Ok (Heading section :: flat_map pdf_paragraph paragraphs ++ [Spacer])
  end.

Definition _create_pdf (content : dict) (macro_name : value)
  : result (list elem) :=
  story <- concat_results (map (pdf_section content) SECTION_ORDER) ;;
  Ok (Title (title_text macro_name) :: story).

(* ------------------------------------------------------------------ *)
(** *** _create_rtf *)

(** [next((k for k in content.keys() if ...), None)] *)
Definition matching_key (content : dict) (section_key : string)
  : option string :=
  find (fun k => String.eqb (_process_section_name k) section_key)
       (dict_keys content).

Definition rtf_table (params : value) : result grid :=
  table_headers <- getitem params "table_headers" ;;
  cols <- len table_headers ;;
  hs <- iter table_headers ;;
  hs <- map_result (header_text TypeError) hs ;;
  header_row <- fill_cells (empty_row cols) 0 hs ;;
  table_rows <- getitem params "table_rows" ;;
  rs <- iter table_rows ;;
  body <- map_result
            (fun row_data =>
               cs <- iter row_data ;;
               fill_cells (empty_row cols) 0 (map py_str cs)) rs ;;
  Ok (header_row :: body).

Definition rtf_paragraph (para : string) : elem :=
  if Py.startswith "    " para then Code (Py.strip para) else Normal para.

Definition rtf_section (content : dict) (section : string)
  : result (list elem) :=
  let section_key := _process_section_name section in
  match matching_key content section_key with
  | None => Ok []
  | Some k =>
      if Py.is_empty k then Ok [] else
      match populated content k with
      | None => Ok []
      | Some v =>
          if String.eqb section_key "parameters" then
            g <- rtf_table v ;; Ok [Heading section; Grid g]
          else
            let paragraphs := Py.split Py.nl (format_content v) in
            Ok (Heading section :: map rtf_paragraph paragraphs)
      end
  end.

(** The document is saved to a file that is then found, not empty: the
    file system is taken to work, and the name to be a good file name. *)
Definition _create_rtf (content : dict) (macro_name : value)
  : result (list elem) :=
  body <- concat_results (map (rtf_section content) SECTION_ORDER) ;;
  Ok (Title (title_text macro_name) :: body).

(* ------------------------------------------------------------------ *)
(** *** _create_html *)

(** The page is one formatted string; its expressions are evaluated from
    top to bottom and the first one that raises ends the function.  The
    style sheet of the page is left out. *)
Definition html_table (content : dict) : result elem :=
  let c := VDict content in
  params <- getitem c "Parameters" ;;
  table_headers <- getitem params "table_headers" ;;
  hs <- iter table_headers ;;
  params' <- getitem c "Parameters" ;;
  table_rows <- getitem params' "table_rows" ;;
  rs <- iter table_rows ;;
  rows <- map_result (fun row => cs <- iter row ;; Ok (map py_str cs)) rs ;;
  Ok (HtmlTable (map py_str hs) rows).

Definition _create_html (content : dict) (macro_name : value)
  : result (list elem) :=
  let c := VDict content in
  overview <- getitem c "Overview" ;;
  syntax <- getitem c "Syntax" ;;
  table <- html_table content ;;
  features <- getitem c "Key Features and Functionalities" ;;
  main_section <- getitem features "main_section" ;;
  features' <- getitem c "Key Features and Functionalities" ;;
  subsections <- getitem features' "subsections" ;;
  subs <- iter subsections ;;
  subs <- map_result
            (fun subsection =>
               title <- getitem subsection "title" ;;
               description <- getitem subsection "description" ;;
               Ok [SubHeading (py_str title); Normal (py_str description)])
            subs ;;
  examples <- getitem c "Usage Examples" ;;
  exs <- iter examples ;;
  return_values <- getitem c "Return Values" ;;
  error_handling <- getitem c "Error Handling" ;;
  summary <- getitem c "Summary" ;;
  Ok ([ Title (py_str macro_name ++ " User Manual")%string;
        Heading "Overview"; Normal (py_str overview);
        Heading "Syntax"; Code (py_str syntax);
        Heading "Parameters"; table;
        Heading "Key Features and Functionalities";
        Normal (py_str main_section) ]
      ++ concat subs
      ++ [ Heading "Usage Examples" ]
      ++ map (fun example => Code (py_str example)) exs
      ++ [ Heading "Return Values"; Normal (py_str return_values);
           Heading "Error Handling"; Normal (py_str error_handling);
           Heading "Summary"; Normal (py_str summary) ]).

(* ------------------------------------------------------------------ *)
(** *** create_manual *)

(** [create_manual] writes into the mapping its caller handed over, and
    the renderers read that same object.  A program is a function of the
    current state of that object; it returns the state it leaves behind
    along with its outcome. *)
Definition prog (A : Type) : Type := dict -> result A * dict.

Definition ret {A : Type} (a : A) : prog A := fun h => (Ok a, h).

Definition throw {A : Type} (e : exn) : prog A := fun h => (Raise e, h).

Definition pbind {A B : Type} (m : prog A) (f : A -> prog B) : prog B :=
  fun h =>
    match m h with
    | (Ok a, h') => f a h'
    | (Raise e, h') => (Raise e, h')
    end.

(** [content[k] = v] *)
Definition store (k : string) (v : value) : prog unit :=
  fun h => (Ok tt, dict_set h k v).

(** A callee that only reads the object. *)
Definition reading {A : Type} (f : dict -> result A) : prog A :=
  fun h => (f h, h).

(** [try: m except Exception as e: raise Exception(msg + str(e))] *)
Definition rewrap {A : Type} (msg : string) (m : prog A) : prog A :=
  fun h =>
    match m h with
    | (Ok a, h') => (Ok a, h')
    | (Raise e, h') => (Raise (Wrapped msg e), h')
    end.

(** The first argument of [create_manual]: a reference to the caller's
    mapping, or a value of another type. *)
Inductive content_arg : Type :=
| Mapping
| Other (v : value).

Definition create_manual (content : content_arg) (output_format : string)
  (macro_name : value) : prog (list elem) :=
  rewrap "Failed to generate document: "
    (match content with
     | Other _ => throw (ValueError "Invalid or empty content provided")
     | Mapping =>
         pbind (store "macro_name" macro_name) (fun _ =>
         if String.eqb output_format "pdf" then
           reading (fun c => _create_pdf c macro_name)
         else if String.eqb output_format "pptx" then
           reading create_presentation
         else if String.eqb output_format "html" then
           reading (fun c => _create_html c macro_name)
         else
           rewrap "Failed to generate RTF document: "
                  (reading (fun c => _create_rtf c macro_name)))
     end).

End Formatter.

End DocGen.

(* ================================================================== *)
(** ** app.py: the structural extractor and the preview *)
(* ================================================================== *)

Module App.

Import DocGen.

(* ------------------------------------------------------------------ *)
(** *** find_macro_calls *)

(** The pattern [%(\w+)\s*\(]. *)
Definition call_pattern : Re.pattern :=
  [ Re.One (Re.Lit "%"%char); Re.GroupPlus (Re.Cls Py.is_word);
    Re.Star (Re.Cls Py.is_space); Re.One (Re.Lit "("%char) ].

(** With one group in the pattern, [re.findall] returns the text of that
    group for every match. *)
Definition group1 (gs : list string) : string :=
  match gs with
  | g :: _ => g
  | [] => EmptyString
  end.

(** [list(set(l))]: the distinct elements of [l] in an order that Python
    does not fix. *)
Record set_order : Type := mk_set_order {
  enum : list string -> list string;
  enum_perm : forall l, Permutation (enum l) (nodup string_dec l)
}.

(** One such order: that of the first occurrences. *)
Definition first_occurrence_order : set_order :=
  mk_set_order (nodup string_dec) (fun l => Permutation_refl _).

Definition find_macro_calls (o : set_order) (sas_code : string) : string :=
  let macro_calls := map group1 (Re.findall true call_pattern sas_code) in
  let unique_calls := enum o macro_calls in
  match unique_calls with
  | [] => EmptyString
  | _ => Py.join ", " (map (fun macro => ("%" ++ macro)%string) unique_calls)
  end.

(* ------------------------------------------------------------------ *)
(** *** generate_parameter_description *)

(** What one call of the enrichment collaborator comes to: the request
    fails or its answer is not JSON, or the answer parses to a value. *)
Inductive reply : Type :=
| CallFailed
| Parsed (v : value).

(** The collaborator is outside the program and need not answer the same
    question twice alike: its answer depends on the number of the call, the
    parameter and the code. *)
Definition collaborator : Type := nat -> string -> string -> reply.

Definition generic_description (param_name : string) : string :=
  ("Parameter " ++ param_name ++ " for the macro")%string.

Definition generate_parameter_description (chat : collaborator) (call : nat)
  (param_name macro_code : string) : value :=
  match chat call param_name macro_code with
  | Parsed (VDict d) =>
      match dict_get d "description" with
      | Some v => v
      | None => VStr (generic_description param_name)
      end
  | Parsed _ => VStr (generic_description param_name)
  | CallFailed => VStr (generic_description param_name)
  end.

(* ------------------------------------------------------------------ *)
(** *** extract_macro_parameters *)

(** The pattern [%macro\s+\w+\((.*?)\);]. *)
Definition macro_def_pattern : Re.pattern :=
  Re.lits "%macro"
  ++ [ Re.Plus (Re.Cls Py.is_space); Re.Plus (Re.Cls Py.is_word);
       Re.One (Re.Lit "("%char); Re.GroupLazyStar (Re.Cls Py.is_dot);
       Re.One (Re.Lit ")"%char); Re.One (Re.Lit ";"%char) ].

(** [[p.strip() for p in params_str.split(',') if p.strip()]] *)
Definition split_params (params_str : string) : list string :=
  filter (fun p => negb (Py.is_empty p))
         (map Py.strip (Py.split ","%char params_str)).

(** Name and default of one entry. *)
Definition param_name_of (param : string) : string :=
  match Py.split "="%char param with
  | p0 :: _ => Py.strip p0
  | [] => EmptyString
  end.

Definition default_value_of (param : string) : string :=
  let default_value :=
    match Py.split "="%char param with
    | _ :: p1 :: _ => Py.strip p1
    | _ => EmptyString
    end in
  if Py.is_empty default_value then "None" else default_value.

(** The loop over the entries; [call] numbers the description calls. *)
Fixpoint describe_params (chat : collaborator) (sas_code : string)
  (call : nat) (params : list string) : list (list value) :=
  match params with
  | [] => []
  | param :: rest =>
      let param_name := param_name_of param in
      let description :=
        generate_parameter_description chat call param_name sas_code in
      [VStr param_name; VStr (default_value_of param); description]
      :: describe_params chat sas_code (S call) rest
  end.

Definition extract_macro_parameters (chat : collaborator) (sas_code : string)
  : list (list value) :=
  match Re.search true macro_def_pattern sas_code with
  | None => []
  | Some gs => describe_params chat sas_code 0 (split_params (group1 gs))
  end.

(* ------------------------------------------------------------------ *)
(** *** extract_macros *)

Record mstate : Type := mk_mstate {
  current_macro : string;
  in_macro : bool;
  macro_level : Z;
  macros : list string
}.

Definition mstate0 : mstate := mk_mstate EmptyString false 0%Z [].

Definition with_nl (line : string) : string :=
  (line ++ String Py.nl EmptyString)%string.

(** One turn of the loop [for line in sas_code.split('\n')]. *)
Definition scan_line (st : mstate) (line : string) : mstate :=
  let stripped_line := Py.lower (Py.strip line) in
  let opens := Py.contains "%macro" stripped_line in
  let level1 := if opens then (macro_level st + 1)%Z else macro_level st in
  if opens && negb (in_macro st) then
    mk_mstate (with_nl line) true level1 (macros st)
  else if Py.contains "%mend" stripped_line then
    let level2 := (level1 - 1)%Z in
    if in_macro st then
      let current := (current_macro st ++ with_nl line)%string in
      if Z.eqb level2 0 then
        mk_mstate EmptyString false level2 (macros st ++ [Py.strip current])
      else mk_mstate current true level2 (macros st)
    else mk_mstate (current_macro st) false level2 (macros st)
  else if in_macro st then
    mk_mstate (current_macro st ++ with_nl line)%string true level1 (macros st)
  else mk_mstate (current_macro st) false level1 (macros st).

Definition scan (lines : list string) (st : mstate) : mstate :=
  fold_left scan_line lines st.

(** What follows the loop. *)
Definition finish (st : mstate) : list string :=
  if in_macro st && negb (Py.is_empty (current_macro st))
  then macros st ++ [Py.strip (current_macro st)]
  else macros st.

Definition extract_macros (sas_code : string) : list string :=
  finish (scan (Py.split Py.nl sas_code) mstate0).

(* ------------------------------------------------------------------ *)
(** *** The preview: create_preview_content and its helpers *)

Section Preview.

Variable py_repr : value -> string.

Definition get_or (d : dict) (k : string) (default : value) : value :=
  match dict_get d k with
  | Some v => v
  | None => default
  end.

(** [create_parameters_table] *)
Definition create_parameters_table (parameters : value)
  : result (list elem) :=
  match parameters with
  | VDict d =>
      let headers := get_or d "table_headers" (VList []) in
      let rows := get_or d "table_rows" (VList []) in
      if negb (truthy headers) || negb (truthy rows)
      then Ok [Normal "No parameters specified"]
      else
        hs <- iter headers ;;
        rs <- iter rows ;;
        cells <- map_result
                   (fun row => cs <- iter row ;; Ok (map (py_str py_repr) cs))
                   rs ;;
        Ok [HtmlTable (map (py_str py_repr) hs) cells]
  | _ => Ok [Normal "No parameters specified"]
  end.

(** [create_features_section] *)
Definition create_features_section (features : value) : result (list elem) :=
  match features with
  | VDict d =>
      subs <- iter (get_or d "subsections" (VList [])) ;;
      Ok (Normal (py_str py_repr (get_or d "main_section" (VStr EmptyString)))
          :: flat_map
               (fun subsection =>
                  match subsection with
                  | VDict sd =>
                      let title := get_or sd "title" (VStr EmptyString) in
                      let description :=
                        get_or sd "description" (VStr EmptyString) in
                      if truthy title && truthy description
                      then [SubHeading (py_str py_repr title);
                            Normal (py_str py_repr description)]
                      else []
                  | _ => []
                  end)
               subs)
  | _ => Ok [Normal "No features specified"]
  end.

(** [create_examples_section] *)
Definition create_examples_section (examples : value) : result (list elem) :=
  if negb (truthy examples) then Ok [Normal "No examples available"]
  else
    exs <- iter examples ;;
    Ok (map (fun example => Code (py_str py_repr example)) exs).

Definition preview_formatter (section_name : string) (x : value)
  : result (list elem) :=
  if String.eqb section_name "Parameters" then create_parameters_table x
  else if String.eqb section_name "Key Features and Functionalities"
  then create_features_section x
  else if String.eqb section_name "Usage Examples"
  then create_examples_section x
  else if String.eqb section_name "Syntax" then Ok [Code (py_str py_repr x)]
  else Ok [Normal (py_str py_repr x)].

Definition preview_sections : list string :=
  [ "Overview"; "Syntax"; "Parameters"; "Key Features and Functionalities";
    "Usage Examples"; "Return Values"; "Error Handling"; "Summary" ].

Definition preview_section (doc_content : dict) (section_name : string)
  : result (list elem) :=
  let content := get_or doc_content section_name (VStr EmptyString) in
  if truthy content then
    body <- preview_formatter section_name content ;;
    Ok (Heading section_name :: body)
  else Ok [].

(** [create_preview_content] of [app.py]; any exception gives the page that
    reports the error. *)
Definition create_preview_content (doc_content : value) : list elem :=
  match doc_content with
  | VDict d =>
      match concat_results (map (preview_section d) preview_sections) with
      | Ok page => page
      | Raise _ =>
          [Normal "Error generating preview content. Please try again."]
      end
  | _ => [Normal "Error generating preview content. Please try again."]
  end.

End Preview.

End App.

(* ================================================================== *)
(** ** Notions the properties are stated with *)
(* ================================================================== *)

Module Notions.

Import Py DocGen App.

(** Text of several lines. *)
Definition unlines (l : list string) : string :=
  join (String nl EmptyString) l.

(** A line that [extract_macros] takes for an opening, a closing. *)
Definition opens (line : string) : bool :=
  contains "%macro" (lower (strip line)).

Definition closes (line : string) : bool :=
  contains "%mend" (lower (strip line)).

Definition plain (line : string) : Prop :=
  opens line = false /\ closes line = false.

(** The text captured from a run of lines: each followed by a line feed. *)
Fixpoint capture (lines : list string) : string :=
  match lines with
  | [] => EmptyString
  | l :: rest => (with_nl l ++ capture rest)%string
  end.

(** Outside a macro the depth is not positive; inside one, the capture
    runs from an opening line to the last line read. *)
Definition scan_inv (done : list string) (st : mstate) : Prop :=
  (in_macro st = false -> (macro_level st <= 0)%Z)
  /\ (in_macro st = true ->
      exists pre l rest,
        done = pre ++ l :: rest /\ opens l = true
        /\ current_macro st = capture (l :: rest)).

(** Every character of [s] is in the class [p]. *)
Fixpoint all_chars (p : ascii -> bool) (s : string) : bool :=
  match s with
  | EmptyString => true
  | String c s' => p c && all_chars p s'
  end.

(** After a run of word characters and the white space that follows it
    comes an opening parenthesis. *)
Fixpoint paren_after_word (t : string) : bool :=
  match t with
  | EmptyString => false
  | String c t' =>
      if is_word c then paren_after_word t'
      else match lstrip t with
           | String d _ => Ascii.eqb d "("%char
           | EmptyString => false
           end
  end.

(** The text begins with a call: [%], an identifier, optional white space
    and an opening parenthesis. *)
Definition call_at (s : string) : bool :=
  match s with
  | String p (String c t) =>
      Ascii.eqb p "%"%char && is_word c && paren_after_word (String c t)
  | _ => false
  end.

(** The text begins with the opening of a macro: [%macro] in any case,
    white space, and the first character of a name. *)
Definition declaration_at (s : string) : bool :=
  match s with
  | String c0 (String c1 (String c2 (String c3 (String c4 (String c5
      (String sp u)))))) =>
      String.eqb (lower (String c0 (String c1 (String c2 (String c3
                    (String c4 (String c5 EmptyString))))))) "%macro"
      && is_space sp
      && match lstrip u with
         | String d _ => is_word d
         | EmptyString => false
         end
  | _ => false
  end.

(** Wherever the source has a call, it is the opening of a macro. *)
Fixpoint only_declarations (s : string) : bool :=
  (negb (call_at s) || declaration_at s)
  && match s with
     | EmptyString => true
     | String _ s' => only_declarations s'
     end.

(** The entries of the parameter list [extract_macro_parameters] works
    on. *)
Definition declared_params (sas_code : string) : list string :=
  match Re.search true macro_def_pattern sas_code with
  | None => []
  | Some gs => split_params (group1 gs)
  end.

(** The description call gives nothing to use: the request fails, or the
    answer is not a JSON object. *)
Definition call_fails (r : reply) : bool :=
  match r with
  | CallFailed => true
  | Parsed (VDict _) => false
  | Parsed _ => true
  end.

(** The collaborator that never answers. *)
Definition silent : collaborator := fun _ _ _ => CallFailed.

(** The character [sep] does not occur in [s]. *)
Definition lacks (sep : ascii) (s : string) : bool :=
  all_chars (fun c => negb (Ascii.eqb c sep)) s.

(** Name and default of a descriptor, without its description. *)
Definition name_and_default (descriptor : list value) : list value :=
  firstn 2 descriptor.

(** A collaborator whose second call fails and whose other calls answer. *)
Definition flaky : collaborator :=
  fun call _ _ =>
    if Nat.eqb call 1 then CallFailed
    else Parsed (VDict [("description", VStr "described")]).

(** A stand-in for [str] where every value rendered is text already. *)
Definition no_repr : value -> string := fun _ => EmptyString.

(** Is the section in the mapping, with a body that is not empty? *)
Definition is_populated (content : dict) (section : string) : bool :=
  match populated content section with
  | Some _ => true
  | None => false
  end.

(** The same for the editable document, which looks the section up by its
    normalised name. *)
Definition is_populated_rtf (content : dict) (section : string) : bool :=
  match matching_key content (_process_section_name section) with
  | Some k => negb (is_empty k) && is_populated content k
  | None => false
  end.

(** A Parameters table: header texts and rows of cells. *)
Definition table_value (headers : list string) (rows : list (list value))
  : value :=
  VDict [ ("table_headers", VList (map VStr headers));
          ("table_rows", VList (map VList rows)) ].

(** A mapping with only Overview and Summary. *)
Definition overview_and_summary : dict :=
  [ ("Summary", VStr "It loads."); ("Overview", VStr "Loads a table.") ].

(** A mapping with every section the page reads, Return Values empty. *)
Definition all_but_return_values : dict :=
  [ ("Overview", VStr "Loads a table.");
    ("Syntax", VStr "%load(lib=);");
    ("Parameters", table_value ["Parameter"; "Default"; "Description"]
                     [[VStr "lib"; VStr "None"; VStr "Library"]]);
    ("Key Features and Functionalities",
     VDict [ ("main_section", VStr "Loading");
             ("subsections",
              VList [VDict [ ("title", VStr "Fast");
                             ("description", VStr "It is fast.") ]]) ]);
    ("Usage Examples", VList [VStr "%load(lib=a);"]);
    ("Return Values", VStr EmptyString);
    ("Error Handling", VStr "Stops on error.");
    ("Summary", VStr "It loads.") ].

(** A mapping whose Syntax body is stored under a lower-case key with a
    colon. *)
Definition syntax_with_colon : dict := [ ("syntax:", VStr "%load(lib=);") ].

End Notions.

(* ================================================================== *)
(** ** app.py: the macro name and the step counts *)
(* ================================================================== *)

Module Structure.

Import App.

(* ------------------------------------------------------------------ *)
(** *** The name of the macro *)

(** The pattern [%macro\s+(\w+)] that [generate_doc_content],
    [preview_documentation] and [generate_doxygen_header] search for, with
    IGNORECASE. *)
Definition macro_name_pattern : Re.pattern :=
  Re.lits "%macro"
  ++ [ Re.Plus (Re.Cls Py.is_space); Re.GroupPlus (Re.Cls Py.is_word) ].

(** [macro_match = re.search(...)] and then [macro_match.group(1)]. *)
Definition macro_match (sas_code : string) : option string :=
  match Re.search true macro_name_pattern sas_code with
  | Some gs => Some (group1 gs)
  | None => None
  end.

(* ------------------------------------------------------------------ *)
(** *** Patterns anchored at the start of a line *)

(** The two patterns of [analyze_macro_structure] have no group and begin
    with [^]; one of them ends with a negative lookahead. *)
Inductive xitem : Type :=
| XOne (a : Re.atom)            (* a *)
| XPlus (a : Re.atom)           (* a+ greedy *)
| XStar (a : Re.atom)           (* a* greedy *)
| XNotAhead (w : string).       (* (?!w) *)

(** A match of the items at the start of [s]: the text left after it. *)
Fixpoint xmatch_here (p : list xitem) (s : string) : option string :=
  match p with
  | [] => Some s
  | XOne a :: p' =>
      match s with
      | String c s' => if Re.atom_ok false a c then xmatch_here p' s' else None
      | EmptyString => None
      end
  | XPlus a :: p' =>
      Re.greedy1 (Re.atom_ok false a) s (fun _ rest => xmatch_here p' rest)
  | XStar a :: p' =>
      Re.greedy_rep (Re.atom_ok false a) EmptyString s
        (fun _ rest => xmatch_here p' rest)
  | XNotAhead w :: p' =>
      if Py.startswith w s then None else xmatch_here p' s
  end.

Fixpoint xlits (s : string) : list xitem :=
  match s with
  | EmptyString => []
  | String c s' => XOne (Re.Lit c) :: xlits s'
  end.

(** [len(re.findall(p, s, re.MULTILINE))] for a pattern [^p]: the matches
    are counted from left to right, none overlapping another; a match may
    begin only where a line begins, at the start of the text or after a
    line feed.  [at_bol] tells whether a line begins here, [skip] counts
    the characters of the last match still to be passed. *)
Fixpoint count_from (p : list xitem) (at_bol : bool) (skip : nat)
  (s : string) : nat :=
  match skip with
  | S k =>
      match s with
      | EmptyString => 0
      | String c s' => count_from p (Ascii.eqb c Py.nl) k s'
      end
  | O =>
      match (if at_bol then xmatch_here p s else None) with
      | Some rest =>
          S (match s with
             | EmptyString => 0
             | String c s' =>
                 count_from p (Ascii.eqb c Py.nl)
                   (String.length s - String.length rest - 1) s'
             end)
      | None =>
          match s with
          | EmptyString => 0
          | String c s' => count_from p (Ascii.eqb c Py.nl) 0 s'
          end
      end
  end.

Definition count_matches (p : list xitem) (s : string) : nat :=
  count_from p true 0 s.

(* ------------------------------------------------------------------ *)
(** *** analyze_macro_structure *)

(** [^\s*data\s+(?!_null_)] *)
Definition data_pattern : list xitem :=
  XStar (Re.Cls Py.is_space) :: xlits "data"
  ++ [ XPlus (Re.Cls Py.is_space); XNotAhead "_null_" ].

(** [^\s*proc\s+\w+] *)
Definition proc_pattern : list xitem :=
  XStar (Re.Cls Py.is_space) :: xlits "proc"
  ++ [ XPlus (Re.Cls Py.is_space); XPlus (Re.Cls Py.is_word) ].

Record structure : Type := mk_structure {
  has_data_proc : bool;
  data_steps : nat;
  proc_steps : nat
}.

Definition analyze_macro_structure (macro_code : string) : structure :=
  let lowercase_code := Py.lower macro_code in
  let data_count := count_matches data_pattern lowercase_code in
  let proc_count := count_matches proc_pattern lowercase_code in
  mk_structure (0 <? data_count + proc_count) data_count proc_count.

End Structure.

(* ================================================================== *)
(** ** Further notions *)
(* ================================================================== *)

Module MoreNotions.

Import Py DocGen App Notions Structure.

(** A macro without another inside: its opening line, the lines of its
    body, its closing line, and the lines that follow it up to the next
    macro. *)
Definition block : Type := (string * list string * string * list string)%type.

Definition block_lines (b : block) : list string :=
  match b with
  | (opening, body, closing, gap) => opening :: body ++ closing :: gap
  end.

(** The element [extract_macros] returns for it. *)
Definition block_text (b : block) : string :=
  match b with
  | (opening, body, closing, _) =>
      strip (capture (opening :: body ++ [closing]))
  end.

Definition simple_block (b : block) : Prop :=
  match b with
  | (opening, body, closing, gap) =>
      opens opening = true /\ Forall plain body
      /\ opens closing = false /\ closes closing = true
      /\ Forall plain gap
  end.

(** An element begins with the trimmed text of an opening line of the
    source. *)
Definition begins_at_opening (lines : list string) (element : string)
  : Prop :=
  exists l, In l lines /\ opens l = true
            /\ startswith (strip l) element = true.

(** What holds of the elements collected after any number of lines. *)
Definition scan_elements_inv (done : list string) (st : mstate) : Prop :=
  Forall (begins_at_opening done) (macros st)
  /\ (in_macro st = true ->
      exists pre l rest,
        done = pre ++ l :: rest /\ opens l = true
        /\ current_macro st = capture (l :: rest)).

(** One for a macro being captured, none otherwise. *)
Definition pending (st : mstate) : nat := if in_macro st then 1 else 0.

(** A list of lines without the empty lines it begins with. *)
Fixpoint drop_blank (lines : list string) : list string :=
  match lines with
  | [] => []
  | l :: rest => if is_empty l then drop_blank rest else lines
  end.

(** The two lines [format_content] writes for a subsection. *)
Definition bullet (py_repr : value -> string) (title description : value)
  : string :=
  ("- " ++ py_str py_repr title ++ String nl EmptyString
   ++ "  " ++ py_str py_repr description ++ String nl EmptyString)%string.

Fixpoint bullets (py_repr : value -> string) (pairs : list (value * value))
  : string :=
  match pairs with
  | [] => EmptyString
  | (t, d) :: rest => (bullet py_repr t d ++ bullets py_repr rest)%string
  end.

(** A subsection that is a mapping with this title and this description. *)
Definition has_fields (subsection : value) (pair : value * value) : Prop :=
  getitem subsection "title" = Ok (fst pair)
  /\ getitem subsection "description" = Ok (snd pair).

(** A subsection that lacks a title or a description, or is no mapping. *)
Definition lacks_field (subsection : value) : Prop :=
  (exists e, getitem subsection "title" = Raise e)
  \/ (exists e, getitem subsection "description" = Raise e).

(** The identifier a text begins with: its longest run of word
    characters. *)
Fixpoint word_run (t : string) : string :=
  match t with
  | EmptyString => EmptyString
  | String c t' => if is_word c then String c (word_run t') else EmptyString
  end.

(** The name of the macro called where the text begins, if a call begins
    there. *)
Definition call_name_at (s : string) : option string :=
  match s with
  | String _ t => if call_at s then Some (word_run t) else None
  | EmptyString => None
  end.

(** The source holds a call of the macro [name]. *)
Definition called (sas_code name : string) : Prop :=
  exists pre rest,
    sas_code = (pre ++ rest)%string /\ call_name_at rest = Some name.

(** None of the first [k] characters is a percent sign. *)
Fixpoint clear_for (k : nat) (s : string) : bool :=
  match k, s with
  | S k', String c s' => negb (Ascii.eqb c "%"%char) && clear_for k' s'
  | _, _ => true
  end.

(** [f"%{macro}"] *)
Definition with_percent (macro : string) : string := ("%" ++ macro)%string.

(* ------------------------------------------------------------------ *)
(** *** The tables of a PDF *)


(* ------------------------------------------------------------------ *)
(** *** The parameters a declaration lists *)

(** A parameter as the source text declares it: a name, and a default
    when an equals sign follows the name. *)
Definition parameter : Type := (string * option string)%type.

Definition declared_name (p : parameter) : string := fst p.

(** The text of one parameter, and of the list between the parentheses,
    the parameters separated by a comma and a space. *)
Definition entry_text (p : parameter) : string :=
  match snd p with
  | Some d => (fst p ++ "=" ++ d)%string
  | None => fst p
  end.

Definition list_text (ps : list parameter) : string :=
  join ", " (map entry_text ps).

(** A name is an identifier; a default holds no comma, no equals sign and
    no line feed. *)
Definition is_name (n : string) : bool :=
  negb (is_empty n) && all_chars is_word n.

Definition default_char (c : ascii) : bool :=
  negb (Ascii.eqb c ","%char) && negb (Ascii.eqb c "="%char)
  && negb (Ascii.eqb c nl).

Definition well_formed (p : parameter) : bool :=
  is_name (fst p)
  && match snd p with
     | Some d => all_chars default_char d
     | None => true
     end.

(** The default a descriptor is expected to show: the declared default
    trimmed, and the sentinel when there is none or it is blank. *)
Definition declared_default (p : parameter) : string :=
  match snd p with
  | Some d => if is_empty (strip d) then "None" else strip d
  | None => "None"
  end.

End MoreNotions.

(* ================================================================== *)
(** ** The download handler of app.py *)

Module Download.

Import Py PyVal DocGen App.

(** [v.get(k, default)], a method of mappings only. *)
Definition get_method (v : value) (k : string) (default : value)
  : result value :=
  match v with
  | VDict d => Ok (get_or d k default)
  | _ => Raise AttributeError
  end.

(** [v.lower()], a method of texts only. *)
Definition lower_method (v : value) : result string :=
  match v with
  | VStr s => Ok (Py.lower s)
  | _ => Raise AttributeError
  end.

(** [l[0]] of a list. *)
Definition first_item (l : list value) : result value :=
  match l with
  | x :: _ => Ok x
  | [] => Raise IndexError
  end.

(** The answers of the handler.  The message of a server error is kept
    in parts: [Failed f e] stands for
    [f'Failed to generate {f.upper()} document: {str(e)}'] and
    [Unexpected e] for [str(e)]. *)
Inductive failure : Type :=
| Failed (output_format : string) (e : exn)
| Unexpected (e : exn).

Inductive response : Type :=
| Error400 (error : string)
| Error500 (error : failure)
| Attachment (download_name mimetype : string) (doc : list elem).

(** [mime_types.get(output_format, 'application/octet-stream')] *)
Definition mime_type (output_format : string) : string :=
  if String.eqb output_format "pdf" then "application/pdf"
  else if String.eqb output_format "rtf" then "application/rtf"
  else if String.eqb output_format "pptx" then
    "application/vnd.openxmlformats-officedocument.presentationml.presentation"
  else if String.eqb output_format "html" then "text/html"
  else "application/octet-stream".

Section Handler.

Variable py_repr : value -> string.

(** [create_presentation(content, doc_path)] on the value of the request:
    the first use of [content] is [content.get('macro_name')]. *)
Definition presentation_of (content : value) : result (list elem) :=
  match content with
  | VDict d => create_presentation py_repr d
  | _ => Raise AttributeError
  end.

(** [create_manual(content, doc_path, output_format, macro_name)] on the
    value of the request; the mapping it writes into is not used again. *)
Definition manual_of (content : value) (output_format : string)
  (macro_name : value) : result (list elem) :=
  match content with
  | VDict d => fst (create_manual py_repr Mapping output_format macro_name d)
  | v => fst (create_manual py_repr (Other v) output_format macro_name [])
  end.

(** The inner [try] block: the name of the file and the document written
    to it.  The file is taken to be written, there and readable
    afterwards, which holds of a name that is a good file name; with a
    name that is none the handler answers with a server error, which this
    definition leaves out. *)
Definition generate (content macro_name : value) (output_format : string)
  : result (string * list elem) :=
  let filename_base := (py_str py_repr macro_name ++ "_User_Manual")%string in
  if String.eqb output_format "pptx" then
    doc <- presentation_of content ;;
    Ok ((filename_base ++ ".pptx")%string, doc)
  else
    doc <- manual_of content output_format macro_name ;;
    Ok ((filename_base ++ "." ++ output_format)%string, doc).

(** [download_documentation], from the parsed body [request.json] on. *)
Definition download_documentation (data : value) : response :=
  match
    (if negb (truthy data) then Ok (Error400 "Invalid request format") else
     listed <- get_method data "content" VNone ;;
     match listed with
     | VList l =>
         doc_data <- first_item l ;;
         if negb (truthy doc_data)
         then Ok (Error400 "Invalid documentation content") else
         macro_name <- get_method doc_data "macro_name" VNone ;;
         content <- get_method doc_data "content" VNone ;;
         if negb (truthy macro_name) || negb (truthy content)
         then Ok (Error400 "Missing required documentation content") else
         chosen <- get_method data "outputFormat" (VStr "rtf") ;;
         output_format <- lower_method chosen ;;
         Ok (match generate content macro_name output_format with
             | Ok (output_filename, doc) =>
                 Attachment output_filename (mime_type output_format) doc
             | Raise e => Error500 (Failed output_format e)
             end)
     | _ => Ok (Error400 "Invalid request format")
     end)
  with
  | Ok r => r
  | Raise e => Error500 (Unexpected e)
  end.

End Handler.

(** The body of a request for one document. *)
Definition document_entry (macro_name content : value) : dict :=
  [ ("macro_name", macro_name); ("content", content) ].

Definition request_for (macro_name content : value) (output_format : string)
  : dict :=
  [ ("content", VList [VDict (document_entry macro_name content)]);
    ("outputFormat", VStr output_format) ].

End Download.

(* ================================================================== *)
(** * Properties *)
(* ================================================================== *)

(** ** Facts about the text primitives *)

Module PyFacts.

Import Py.

Lemma is_empty_true (s : string) : is_empty s = true -> s = EmptyString.
Proof. destruct s; simpl; [reflexivity | discriminate]. Qed.

Lemma lstrip_head (s : string) :
  lstrip s = EmptyString
  \/ exists c r, lstrip s = String c r /\ is_space c = false.
Proof.
  induction s as [| c s IH]; simpl.
  - now left.
  - destruct (is_space c) eqn:Hc.
    + exact IH.
    + right. now exists c, s.
Qed.

Lemma rstrip_cons (c : ascii) (r : string) :
  is_space c = false -> rstrip (String c r) = String c (rstrip r).
Proof. intros Hc. unfold rstrip. simpl. now rewrite Hc. Qed.

(** A stripped line is empty or begins with a character that is not white
    space. *)
Lemma strip_head (s : string) :
  strip s = EmptyString
  \/ exists c r, strip s = String c r /\ is_space c = false.
Proof.
  unfold strip.
  destruct (lstrip_head s) as [E | (c & r & E & Hc)]; rewrite E.
  - now left.
  - right. exists c, (rstrip r). split; [now apply rstrip_cons | exact Hc].
Qed.

Lemma space_is_space : is_space " "%char = true.
Proof. reflexivity. Qed.

(** No stripped line begins with four spaces, nor with one. *)
Lemma strip_not_indented (s : string) : startswith "    " (strip s) = false.
Proof.
  destruct (strip_head s) as [E | (c & r & E & Hc)]; rewrite E.
  - reflexivity.
  - change (startswith "    " (String c r))
      with (Ascii.eqb " " c && startswith "   " r).
    destruct (Ascii.eqb " " c) eqn:Heq; [| reflexivity].
    apply Ascii.eqb_eq in Heq. subst c. rewrite space_is_space in Hc.
    discriminate.
Qed.

Lemma startswith_nonempty (p s : string) :
  p <> EmptyString -> startswith p s = true -> s <> EmptyString.
Proof.
  intros Hp H ->. destruct p; [now apply Hp | discriminate].
Qed.

Lemma contains_nonempty (p s : string) :
  p <> EmptyString -> contains p s = true -> s <> EmptyString.
Proof.
  intros Hp H ->. simpl in H. destruct p; [now apply Hp | discriminate].
Qed.

End PyFacts.

(** ** The content formatter *)

Module FormatterFacts.

Import Py PyFacts DocGen Notions.



(** A line without a marker is emitted trimmed whatever the mode, once
    something has been emitted; the example mode is left as it was. *)
Lemma format_line_plain (st : fstate) (line : string) :
  formatted_lines st <> [] ->
  has_marker (strip line) = false ->
  formatted_lines (format_line st line) = formatted_lines st ++ [strip line]
  /\ in_example (format_line st line) = in_example st.
Proof.
  intros Hne Hm. unfold format_line.
  destruct (formatted_lines st) as [| f fs] eqn:Hf; [now elim Hne |].
  rewrite andb_false_r, Hm, strip_not_indented.
  destruct (startswith "- " (strip line)).
  - simpl. rewrite Hf. now split.
  - destruct (Re.re_match false numbered_item (strip line)).
    + simpl. rewrite Hf. now split.
    + cbn [set_code set_numbered append_line formatted_lines in_example
             in_numbered_list in_code_block].
      destruct (in_example st) eqn:He; simpl; rewrite Hf, ?He; now split.
Qed.

Lemma format_lines_plain (rest : list string) :
  forall st,
    formatted_lines st <> [] ->
    Forall (fun l => has_marker (strip l) = false) rest ->
    formatted_lines (format_lines rest st)
    = formatted_lines st ++ map strip rest
    /\ in_example (format_lines rest st) = in_example st.
Proof.
  induction rest as [| l rest IH]; intros st Hne Hall; simpl.
  - now rewrite app_nil_r.
  - inversion Hall as [| ? ? Hl Hrest]; subst.
    destruct (format_line_plain st l Hne Hl) as [Hf He].
    destruct (IH (format_line st l)) as [Hf' He'].
    + rewrite Hf. now destruct (formatted_lines st).
    + exact Hrest.
    + unfold format_lines in *. rewrite Hf', He', Hf, <- app_assoc.
      now split.
Qed.

(** The branch for code lines is never taken: the flag it sets stays
    false. *)
Lemma code_block_never_entered (lines : list string) :
  forall st,
    in_code_block st = false ->
    in_code_block (format_lines lines st) = false.
Proof.
  induction lines as [| l lines IH]; intros st Hc; simpl; [exact Hc |].
  apply IH. unfold format_line.
  rewrite strip_not_indented.
  destruct (is_empty (strip l) && _); [exact Hc |].
  destruct (has_marker (strip l)).
  - destruct (negb (in_example st)); simpl; exact Hc.
  - destruct (startswith "- " (strip l)); [reflexivity |].
    destruct (Re.re_match false numbered_item (strip l)); [reflexivity |].
    simpl. destruct (in_example st); reflexivity.
Qed.

(** No line the classifier emits begins with four spaces. *)
Lemma format_line_never_indents (st : fstate) (line : string) :
  Forall (fun l => startswith "    " l = false) (formatted_lines st) ->
  Forall (fun l => startswith "    " l = false)
         (formatted_lines (format_line st line)).
Proof.
  intros Hst.
  assert (Hnew : Forall (fun l => startswith "    " l = false)
                        (formatted_lines st ++ [strip line])).
  { apply Forall_app. split; [exact Hst |].
    constructor; [apply strip_not_indented | constructor]. }
  unfold format_line. rewrite strip_not_indented.
  destruct (is_empty (strip line) && _); [exact Hst |].
  destruct (has_marker (strip line)).
  - destruct (negb (in_example st)); [| exact Hst].
    simpl. apply Forall_app. split; [exact Hst |].
    constructor; [reflexivity | constructor].
  - destruct (startswith "- " (strip line)); [exact Hnew |].
    destruct (Re.re_match false numbered_item (strip line)); [exact Hnew |].
    simpl. destruct (in_example st); exact Hnew.
Qed.

Lemma format_lines_never_indent (lines : list string) :
  forall st,
    Forall (fun l => startswith "    " l = false) (formatted_lines st) ->
    Forall (fun l => startswith "    " l = false)
           (formatted_lines (format_lines lines st)).
Proof.
  induction lines as [| l lines IH]; intros st Hst; [exact Hst |].
  apply IH. now apply format_line_never_indents.
Qed.

(** C1 (the code at the failing inputs): a line indented by four spaces is
    emitted without any indentation, alone or inside a run of such lines;
    whatever the text, no emitted line carries the four-space prefix the
    claim describes. *)
Theorem C1_indented_lines_lose_their_prefix (py_repr : value -> string) :
  format_content py_repr (VStr "    x = 1;") = "x = 1;"
  /\ format_content py_repr
       (VStr (unlines ["data a;"; "    set b;"; "      run;"; "done"]))
     = unlines ["data a;"; "set b;"; "run;"; "done"]
  /\ forall text : string,
       format_content py_repr (VStr text)
       = unlines (formatted_lines (format_lines (split nl text) fstate0))
       /\ Forall (fun l => startswith "    " l = false)
                 (formatted_lines (format_lines (split nl text) fstate0)).
Proof.
  split; [vm_compute; reflexivity |]. split; [vm_compute; reflexivity |].
  intros text. split; [reflexivity |].
  apply format_lines_never_indent. constructor.
Qed.




End FormatterFacts.

(** ** extract_macros *)

Module MacroFacts.

Import Py PyFacts DocGen App Notions.

Lemma append_assoc (a b c : string) :
  ((a ++ b) ++ c = a ++ (b ++ c))%string.
Proof. induction a as [| x a IH]; simpl; [reflexivity | now rewrite IH]. Qed.

Lemma append_nil_r (a : string) : (a ++ EmptyString)%string = a.
Proof. induction a as [| x a IH]; simpl; [reflexivity | now rewrite IH]. Qed.

Lemma capture_app (xs ys : list string) :
  capture (xs ++ ys) = (capture xs ++ capture ys)%string.
Proof.
  induction xs as [| x xs IH]; simpl; [reflexivity |].
  now rewrite IH, append_assoc.
Qed.

Lemma with_nl_nonempty (l rest : string) :
  is_empty (with_nl l ++ rest)%string = false.
Proof. destruct l; reflexivity. Qed.

(** *** Single turns of the loop *)

Lemma scan_line_open (st : mstate) (line : string) :
  in_macro st = false -> opens line = true ->
  scan_line st line
  = mk_mstate (with_nl line) true (macro_level st + 1)%Z (macros st).
Proof.
  intros Hin Ho. unfold scan_line. fold (opens line). now rewrite Ho, Hin.
Qed.

Lemma scan_line_nested_open (st : mstate) (line : string) :
  in_macro st = true -> opens line = true -> closes line = false ->
  scan_line st line
  = mk_mstate (current_macro st ++ with_nl line)%string true
              (macro_level st + 1)%Z (macros st).
Proof.
  intros Hin Ho Hc. unfold scan_line. fold (opens line) (closes line).
  now rewrite Ho, Hc, Hin.
Qed.

Lemma scan_line_close (st : mstate) (line : string) :
  in_macro st = true -> opens line = false -> closes line = true ->
  scan_line st line
  = if Z.eqb (macro_level st - 1) 0
    then mk_mstate EmptyString false (macro_level st - 1)%Z
           (macros st ++ [strip (current_macro st ++ with_nl line)%string])
    else mk_mstate (current_macro st ++ with_nl line)%string true
           (macro_level st - 1)%Z (macros st).
Proof.
  intros Hin Ho Hc. unfold scan_line. fold (opens line) (closes line).
  now rewrite Ho, Hc, Hin.
Qed.

Lemma scan_line_plain_in (st : mstate) (line : string) :
  in_macro st = true -> plain line ->
  scan_line st line
  = mk_mstate (current_macro st ++ with_nl line)%string true
              (macro_level st) (macros st).
Proof.
  intros Hin [Ho Hc]. unfold scan_line. fold (opens line) (closes line).
  now rewrite Ho, Hc, Hin.
Qed.

Lemma scan_line_plain_out (st : mstate) (line : string) :
  in_macro st = false -> plain line -> scan_line st line = st.
Proof.
  intros Hin [Ho Hc]. unfold scan_line. fold (opens line) (closes line).
  rewrite Ho, Hc, Hin. simpl. destruct st; simpl in *. now subst.
Qed.

(** *** Runs of plain lines *)

Lemma scan_plain_out (lines : list string) (st : mstate) :
  in_macro st = false -> Forall plain lines -> scan lines st = st.
Proof.
  intros Hin Hall. induction Hall as [| l ls Hl _ IH]; simpl; [reflexivity |].
  rewrite (scan_line_plain_out st l Hin Hl). exact IH.
Qed.

Lemma scan_plain_in (lines : list string) :
  forall cur lvl ms,
    Forall plain lines ->
    scan lines (mk_mstate cur true lvl ms)
    = mk_mstate (cur ++ capture lines)%string true lvl ms.
Proof.
  induction lines as [| l ls IH]; intros cur lvl ms Hall; simpl.
  - now rewrite append_nil_r.
  - inversion Hall as [| ? ? Hl Hls]; subst.
    rewrite scan_line_plain_in by (simpl; auto). simpl.
    fold (scan ls (mk_mstate (cur ++ with_nl l)%string true lvl ms)).
    rewrite IH by exact Hls. now rewrite append_assoc.
Qed.

Lemma scan_app (xs ys : list string) (st : mstate) :
  scan (xs ++ ys) st = scan ys (scan xs st).
Proof. unfold scan. apply fold_left_app. Qed.

Lemma scan_cons (x : string) (ys : list string) (st : mstate) :
  scan (x :: ys) st = scan ys (scan_line st x).
Proof. reflexivity. Qed.

(** *** What holds after any number of lines *)

Lemma scan_inv_step (done : list string) (st : mstate) (line : string) :
  scan_inv done st -> scan_inv (done ++ [line]) (scan_line st line).
Proof.
  intros [Hout Hin]. unfold scan_line. fold (opens line) (closes line).
  destruct (in_macro st) eqn:Ein.
  - destruct (Hin eq_refl) as (pre & l & rest & Hd & Ho & Hc).
    assert (Hgrow : exists pre0 l0 rest0,
               done ++ [line] = pre0 ++ l0 :: rest0 /\ opens l0 = true
               /\ (current_macro st ++ with_nl line)%string
                  = capture (l0 :: rest0)).
    { exists pre, l, (rest ++ [line]). repeat split.
      - rewrite Hd, <- app_assoc. reflexivity.
      - exact Ho.
      - rewrite Hc. change (l :: rest ++ [line]) with ((l :: rest) ++ [line]).
        rewrite capture_app. simpl. now rewrite append_nil_r. }
    rewrite andb_false_r.
    destruct (closes line).
    + destruct (Z.eqb _ 0) eqn:Ez; split; simpl; intros; try discriminate.
      * apply Z.eqb_eq in Ez. lia.
      * exact Hgrow.
    + split; simpl; intros; [discriminate | exact Hgrow].
  - specialize (Hout eq_refl).
    destruct (opens line) eqn:Eo; simpl.
    + split; simpl; intros; [discriminate |].
      exists done, line, []. repeat split.
      * exact Eo.
      * simpl. now rewrite append_nil_r.
    + destruct (closes line); split; simpl; intros; try discriminate; lia.
Qed.

Lemma scan_inv_run (lines : list string) :
  forall done st,
    scan_inv done st -> scan_inv (done ++ lines) (scan lines st).
Proof.
  induction lines as [| l ls IH]; intros done st Hinv; simpl.
  - now rewrite app_nil_r.
  - replace (done ++ l :: ls) with ((done ++ [l]) ++ ls)
      by (rewrite <- app_assoc; reflexivity).
    apply IH. now apply scan_inv_step.
Qed.

Lemma scan_inv_start : scan_inv [] mstate0.
Proof. split; simpl; intros; [lia | discriminate]. Qed.


(** *** The two cases of the claim *)

(** One macro with one inner pair, each construct on a line of its own,
    among lines that hold no construct. *)
Lemma nested_macro_is_one_element
  (sas_code : string) (pre b1 b2 b3 post : list string)
  (outer_open inner_open inner_close outer_close : string) :
  split nl sas_code
  = pre ++ outer_open :: b1 ++ inner_open :: b2 ++ inner_close :: b3
        ++ outer_close :: post ->
  Forall plain pre -> Forall plain b1 -> Forall plain b2 ->
  Forall plain b3 -> Forall plain post ->
  opens outer_open = true ->
  opens inner_open = true -> closes inner_open = false ->
  opens inner_close = false -> closes inner_close = true ->
  opens outer_close = false -> closes outer_close = true ->
  extract_macros sas_code
  = [strip (capture (outer_open :: b1 ++ inner_open :: b2
                       ++ inner_close :: b3 ++ [outer_close]))].
Proof.
  intros Hs Hpre Hb1 Hb2 Hb3 Hpost Hoo Hio Hio' Hic Hic' Hoc Hoc'.
  unfold extract_macros. rewrite Hs.
  rewrite scan_app, (scan_plain_out pre mstate0 eq_refl Hpre).
  rewrite scan_cons, (scan_line_open mstate0 outer_open eq_refl Hoo).
  rewrite scan_app, (scan_plain_in b1 _ _ _ Hb1).
  rewrite scan_cons, scan_line_nested_open by (assumption || reflexivity).
  cbn [current_macro macro_level macros in_macro].
  rewrite scan_app, (scan_plain_in b2 _ _ _ Hb2).
  rewrite scan_cons, scan_line_close by (assumption || reflexivity).
  cbn [current_macro macro_level macros in_macro].
  change (macro_level mstate0) with 0%Z.
  change (macros mstate0) with (@nil string).
  change (Z.eqb (0 + 1 + 1 - 1) 0) with false. cbv iota.
  rewrite scan_app, (scan_plain_in b3 _ _ _ Hb3).
  rewrite scan_cons, scan_line_close by (assumption || reflexivity).
  cbn [current_macro macro_level macros in_macro].
  change (Z.eqb (0 + 1 + 1 - 1 - 1) 0) with true. cbv iota.
  rewrite scan_plain_out by (assumption || reflexivity).
  unfold finish. cbn [current_macro macro_level macros in_macro mstate0].
  cbn [andb app]. do 2 f_equal.
  cbn [capture]. rewrite !capture_app. cbn [capture].
  rewrite !capture_app. cbn [capture].
  rewrite !capture_app. cbn [capture].
  now rewrite !append_assoc, ?append_nil_r.
Qed.

(** A source that ends at a positive depth: the last element is the
    capture, trimmed, that runs from an opening line to the end. *)
Lemma unterminated_macro_is_last_element (sas_code : string) :
  (0 < macro_level (scan (split nl sas_code) mstate0))%Z ->
  exists pre l rest,
    split nl sas_code = pre ++ l :: rest /\ opens l = true
    /\ extract_macros sas_code
       = macros (scan (split nl sas_code) mstate0)
         ++ [strip (capture (l :: rest))].
Proof.
  intros Hpos.
  destruct (scan_inv_run (split nl sas_code) [] mstate0 scan_inv_start)
    as [Hout Hin].
  simpl in Hout, Hin.
  destruct (in_macro (scan (split nl sas_code) mstate0)) eqn:Ein.
  - destruct (Hin eq_refl) as (pre & l & rest & Hd & Ho & Hc).
    exists pre, l, rest. repeat split; [exact Hd | exact Ho |].
    unfold extract_macros, finish. rewrite Ein, Hc.
    cbn [capture]. now rewrite with_nl_nonempty.
  - specialize (Hout eq_refl). lia.
Qed.

(** Lines that hold no [%mend], read inside a macro, are all captured
    and leave the macro open. *)
Lemma scan_unclosed (lines : list string) :
  forall cur lvl ms,
    Forall (fun l => closes l = false) lines ->
    exists lvl',
      scan lines (mk_mstate cur true lvl ms)
      = mk_mstate (cur ++ capture lines)%string true lvl' ms.
Proof.
  induction lines as [| l ls IH]; intros cur lvl ms Hall.
  - exists lvl. cbn [scan fold_left capture]. now rewrite append_nil_r.
  - inversion Hall as [| ? ? Hl Hls]; subst.
    rewrite scan_cons.
    assert (Hstep : exists lvl1,
               scan_line (mk_mstate cur true lvl ms) l
               = mk_mstate (cur ++ with_nl l)%string true lvl1 ms).
    { destruct (opens l) eqn:Ho.
      - eexists. now apply scan_line_nested_open.
      - eexists. now apply scan_line_plain_in. }
    destruct Hstep as [lvl1 ->].
    destruct (IH (cur ++ with_nl l)%string lvl1 ms Hls) as [lvl' ->].
    exists lvl'. cbn [capture]. now rewrite append_assoc.
Qed.

Lemma never_closed_macro_is_returned (sas_code : string)
  (pre rest : list string) (opening : string) :
  split nl sas_code = pre ++ opening :: rest ->
  Forall plain pre -> opens opening = true ->
  Forall (fun l => closes l = false) rest ->
  extract_macros sas_code = [strip (capture (opening :: rest))].
Proof.
  intros Hsplit Hpre Ho Hrest. unfold extract_macros.
  rewrite Hsplit, scan_app, (scan_plain_out pre mstate0 eq_refl Hpre).
  rewrite scan_cons, (scan_line_open mstate0 opening eq_refl Ho).
  destruct (scan_unclosed rest (with_nl opening) (macro_level mstate0 + 1)%Z
              (macros mstate0) Hrest) as [lvl' ->].
  unfold finish. cbn [in_macro current_macro macros andb].
  now rewrite with_nl_nonempty.
Qed.

(** C5 (the claim fails): the scan counts at most one opening or closing
    per line and takes the words wherever they stand.  With the two
    openings on one line the depth is 1, not 2, and the element ends at
    the inner [%mend]; the same happens when a comment before the macro
    holds the word [%mend]. *)
Lemma C5_one_line_nesting_counterexample :
  extract_macros
    (unlines ["%macro outer; %macro inner;"; "  %put hi;"; "%mend inner;";
              "  %put bye;"; "%mend outer;"])
  = [unlines ["%macro outer; %macro inner;"; "  %put hi;"; "%mend inner;"]]
  /\ extract_macros
       (unlines ["* ends with %mend;"; "%macro outer;"; "%macro inner;";
                 "%mend inner;"; "%put bye;"; "%mend outer;"])
     = [unlines ["%macro outer;"; "%macro inner;"; "%mend inner;"]].
Proof. split; vm_compute; reflexivity. Qed.

(** C5 (amended): when the outer opening, the inner opening, the inner
    closing and the outer closing stand each on a line of its own, in
    that order, and no other line holds the word [%macro] or [%mend],
    the macro comes back as exactly one element, from the outer opening
    line through the outer closing line with the inner pair inside; and
    when the source ends at a positive depth the capture made so far, from
    its opening line to the end of the source, is the last element
    returned; so a macro that no line closes, after lines that hold
    neither word, comes back whole, from its opening line to the end of
    the source. *)
Theorem C5_nested_and_unterminated_macros :
  (forall (sas_code : string) (pre b1 b2 b3 post : list string)
          (outer_open inner_open inner_close outer_close : string),
      split nl sas_code
      = pre ++ outer_open :: b1 ++ inner_open :: b2 ++ inner_close :: b3
            ++ outer_close :: post ->
      Forall plain pre -> Forall plain b1 -> Forall plain b2 ->
      Forall plain b3 -> Forall plain post ->
      opens outer_open = true ->
      opens inner_open = true -> closes inner_open = false ->
      opens inner_close = false -> closes inner_close = true ->
      opens outer_close = false -> closes outer_close = true ->
      extract_macros sas_code
      = [strip (capture (outer_open :: b1 ++ inner_open :: b2
                           ++ inner_close :: b3 ++ [outer_close]))])
  /\ (forall sas_code : string,
         (0 < macro_level (scan (split nl sas_code) mstate0))%Z ->
         exists pre l rest,
           split nl sas_code = pre ++ l :: rest /\ opens l = true
           /\ extract_macros sas_code
              = macros (scan (split nl sas_code) mstate0)
                ++ [strip (capture (l :: rest))])
  /\ (forall (sas_code : string) (pre rest : list string)
             (opening : string),
         split nl sas_code = pre ++ opening :: rest ->
         Forall plain pre -> opens opening = true ->
         Forall (fun l => closes l = false) rest ->
         extract_macros sas_code = [strip (capture (opening :: rest))]).
Proof.
  split; [| split].
  - intros. eapply nested_macro_is_one_element; eassumption.
  - exact unterminated_macro_is_last_element.
  - exact never_closed_macro_is_returned.
Qed.

(** The two cases on sources of a few lines. *)
Lemma C5_nested_and_unterminated_witness :
  extract_macros
    (unlines ["* head;"; "  %macro outer(a);"; "  %let x = 1;";
              "  %MACRO inner;"; "    %put hi;"; "  %mend inner;";
              "  %inner"; "%mend outer;  "; "run;"])
  = [strip (capture (["  %macro outer(a);"; "  %let x = 1;";
                      "  %MACRO inner;"; "    %put hi;"; "  %mend inner;";
                      "  %inner"; "%mend outer;  "]))]
  /\ (exists pre l rest,
       split nl (unlines ["%macro a;"; "%mend;"; "%macro b;"; "  data x;"])
       = pre ++ l :: rest /\ opens l = true
       /\ extract_macros
            (unlines ["%macro a;"; "%mend;"; "%macro b;"; "  data x;"])
          = macros
              (scan (split nl (unlines ["%macro a;"; "%mend;"; "%macro b;";
                                        "  data x;"])) mstate0)
            ++ [strip (capture (l :: rest))])
  /\ extract_macros
       (unlines ["* head;"; "%macro load(lib);"; "  %macro inner;";
                 "  data x;"])
     = [strip (capture ["%macro load(lib);"; "  %macro inner;";
                        "  data x;"])].
Proof.
  split; [| split].
  - apply (proj1 C5_nested_and_unterminated_macros
             (unlines ["* head;"; "  %macro outer(a);"; "  %let x = 1;";
                       "  %MACRO inner;"; "    %put hi;"; "  %mend inner;";
                       "  %inner"; "%mend outer;  "; "run;"])
             ["* head;"] ["  %let x = 1;"] ["    %put hi;"] ["  %inner"]
             ["run;"] "  %macro outer(a);" "  %MACRO inner;"
             "  %mend inner;" "%mend outer;  ");
      try reflexivity; repeat constructor.
  - apply (proj1 (proj2 C5_nested_and_unterminated_macros)). reflexivity.
  - apply (proj2 (proj2 C5_nested_and_unterminated_macros)
             (unlines ["* head;"; "%macro load(lib);"; "  %macro inner;";
                       "  data x;"])
             ["* head;"] ["  %macro inner;"; "  data x;"]
             "%macro load(lib);");
      try reflexivity; repeat constructor.
Defined.

End MacroFacts.

(** ** The regular expressions *)

Module ReFacts.

Import Py PyFacts Re DocGen App Notions MacroFacts.

Ltac each_ascii c :=
  destruct c as [[] [] [] [] [] [] [] []]; vm_compute;
  try reflexivity; try discriminate; try (intros; discriminate).

Lemma space_not_word (c : ascii) : is_space c = true -> is_word c = false.
Proof. each_ascii c. Qed.

Lemma word_not_space (c : ascii) : is_word c = true -> is_space c = false.
Proof. each_ascii c. Qed.

Lemma space_not_paren (c : ascii) :
  is_space c = true -> atom_ok true (Lit "("%char) c = false.
Proof. each_ascii c. Qed.

Lemma word_not_paren (c : ascii) :
  is_word c = true -> atom_ok true (Lit "("%char) c = false.
Proof. each_ascii c. Qed.

Lemma paren_is_paren (c : ascii) :
  atom_ok true (Lit "("%char) c = Ascii.eqb c "("%char.
Proof. each_ascii c. Qed.

Lemma percent_is_percent (c : ascii) :
  atom_ok true (Lit "%"%char) c = Ascii.eqb c "%"%char.
Proof. each_ascii c. Qed.

(** *** Repetitions *)

Section Runs.

Context {R : Type}.
Variable ok : ascii -> bool.

(** A greedy repetition takes a whole run when the pattern goes on from
    there. *)
Lemma greedy_rep_run (run : string) :
  forall (acc rest : string) (k : string -> string -> option R) (r : R),
    all_chars ok run = true ->
    k (acc ++ run)%string rest = Some r ->
    match rest with String c _ => ok c = false | EmptyString => True end ->
    greedy_rep ok acc (run ++ rest)%string k = Some r.
Proof.
  induction run as [| c run IH]; intros acc rest k r Hall Hk Hrest.
  - simpl in *. rewrite append_nil_r in Hk.
    destruct rest as [| d rest]; simpl; [exact Hk |].
    now rewrite Hrest.
  - simpl in Hall. apply andb_prop in Hall as [Hc Hall].
    simpl. rewrite Hc.
    rewrite (IH (acc ++ String c EmptyString)%string rest k r); auto.
    now rewrite append_assoc.
Qed.

Lemma greedy1_run (c : ascii) (run rest : string)
  (k : string -> string -> option R) (r : R) :
  all_chars ok (String c run) = true ->
  k (String c run) rest = Some r ->
  match rest with String d _ => ok d = false | EmptyString => True end ->
  greedy1 ok (String c run ++ rest)%string k = Some r.
Proof.
  intros Hall Hk Hrest. simpl in Hall.
  apply andb_prop in Hall as [Hc Hall].
  simpl. rewrite Hc. now apply greedy_rep_run.
Qed.

End Runs.


(** *** The call pattern of [find_macro_calls] *)

Lemma letter_is_word (c : ascii) :
  (Ascii.eqb (lower_char c) "m" || Ascii.eqb (lower_char c) "a"
   || Ascii.eqb (lower_char c) "c" || Ascii.eqb (lower_char c) "r"
   || Ascii.eqb (lower_char c) "o")%char = true ->
  is_word c = true.
Proof. each_ascii c. Qed.

Lemma lower_percent (c : ascii) : lower_char c = "%"%char -> c = "%"%char.
Proof. each_ascii c. Qed.

(** White space and then something that is not a parenthesis: the tail
    [\s*\(] of the pattern has no match. *)
Lemma spaces_then_no_paren (s : string) :
  forall acc,
    match lstrip s with
    | String d _ => Ascii.eqb d "("%char = false
    | EmptyString => True
    end ->
    greedy_rep (atom_ok true (Cls is_space)) acc s
      (fun _ rest => match_here true [One (Lit "("%char)] rest)
    = None (A := list string * string).
Proof.
  induction s as [| c s IH]; intros acc H.
  - reflexivity.
  - cbn [greedy_rep atom_ok]. cbn [lstrip] in H.
    destruct (is_space c) eqn:Hc.
    + rewrite (IH _ H). cbn [match_here].
      now rewrite (space_not_paren c Hc).
    + cbn [match_here]. now rewrite paren_is_paren, H.
Qed.

Lemma word_then_no_paren (t : string) :
  forall acc,
    paren_after_word t = false ->
    greedy_rep (atom_ok true (Cls is_word)) acc t
      (fun cap rest =>
         match
           match_here true [Star (Cls is_space); One (Lit "("%char)] rest
         with
         | Some (gs, r) => Some (cap :: gs, r)
         | None => None
         end)
    = None.
Proof.
  induction t as [| c t IH]; intros acc H.
  - reflexivity.
  - cbn [greedy_rep atom_ok]. cbn [paren_after_word] in H.
    destruct (is_word c) eqn:Hc.
    + rewrite (IH _ H). cbn [match_here greedy_rep].
      change (atom_ok true (Cls is_space) c) with (is_space c).
      rewrite (word_not_space c Hc). cbn [match_here].
      now rewrite (word_not_paren c Hc).
    + cbn [match_here]. rewrite spaces_then_no_paren; [reflexivity |].
      destruct (lstrip (String c t)); [exact I | exact H].
Qed.

(** Where the text does not begin with a call, the pattern has no match. *)
Lemma no_call_no_match (s : string) :
  call_at s = false -> match_here true call_pattern s = None.
Proof.
  destruct s as [| p [| c t]]; intros H.
  - reflexivity.
  - cbn [match_here call_pattern greedy1].
    now destruct (atom_ok true (Lit "%"%char) p).
  - cbn [match_here call_pattern greedy1].
    change (atom_ok true (Cls is_word) c) with (is_word c).
    rewrite percent_is_percent.
    cbn [call_at] in H.
    destruct (Ascii.eqb p "%"); [| reflexivity].
    destruct (is_word c) eqn:Hc; [| reflexivity].
    cbn [andb] in H. cbn [paren_after_word] in H. rewrite Hc in H.
    now apply word_then_no_paren.
Qed.

Lemma lstrip_spaces (w x : string) :
  all_chars is_space w = true -> lstrip (w ++ x)%string = lstrip x.
Proof.
  induction w as [| c w IH]; intros H; [reflexivity |].
  simpl in H. apply andb_prop in H as [Hc H].
  cbn [append lstrip]. rewrite Hc. now apply IH.
Qed.

(** The opening of a macro is not a call. *)
Lemma declaration_is_no_call (s : string) :
  declaration_at s = true -> call_at s = false.
Proof.
  destruct s as [| c0 [| c1 [| c2 [| c3 [| c4 [| c5 [| sp u]]]]]]];
    try discriminate.
  cbn [declaration_at lower]. intros H.
  apply andb_prop in H as [H Hd]. apply andb_prop in H as [Hkw Hsp].
  apply String.eqb_eq in Hkw.
  injection Hkw as H0 H1 H2 H3 H4 H5.
  assert (W1 : is_word c1 = true)
    by (apply letter_is_word; rewrite H1; reflexivity).
  assert (W2 : is_word c2 = true)
    by (apply letter_is_word; rewrite H2; reflexivity).
  assert (W3 : is_word c3 = true)
    by (apply letter_is_word; rewrite H3; reflexivity).
  assert (W4 : is_word c4 = true)
    by (apply letter_is_word; rewrite H4; reflexivity).
  assert (W5 : is_word c5 = true)
    by (apply letter_is_word; rewrite H5; reflexivity).
  cbn [call_at paren_after_word]. rewrite W1, W2, W3, W4, W5.
  rewrite (space_not_word sp Hsp). cbn [lstrip]. rewrite Hsp.
  destruct (lstrip u) as [| d v]; [discriminate |].
  pose proof (word_not_paren d Hd) as Hp. rewrite paren_is_paren in Hp.
  rewrite Hp. now rewrite !andb_false_r.
Qed.

Lemma no_calls_found (s : string) :
  forall skip,
    only_declarations s = true -> findall_from true call_pattern skip s = [].
Proof.
  induction s as [| c s IH]; intros skip H.
  - destruct skip; reflexivity.
  - cbn [only_declarations] in H. apply andb_prop in H as [Hhere Hrest].
    destruct skip as [| n]; cbn [findall_from].
    + rewrite no_call_no_match; [now apply IH |].
      destruct (call_at (String c s)) eqn:Hcall; [| reflexivity].
      cbn [negb orb] in Hhere.
      now rewrite (declaration_is_no_call _ Hhere) in Hcall.
    + now apply IH.
Qed.

(** The text [%macro <name>(] as the claim writes it. *)
Lemma opening_is_declaration (kw ws name rest : string) :
  lower kw = "%macro" ->
  ws <> EmptyString -> all_chars is_space ws = true ->
  name <> EmptyString -> all_chars is_word name = true ->
  declaration_at (kw ++ ws ++ name ++ "(" ++ rest)%string = true.
Proof.
  intros Hkw Hws Hsp Hname Hw.
  destruct kw as [| c0 [| c1 [| c2 [| c3 [| c4 [| c5 [| c6 kw]]]]]]];
    try discriminate.
  destruct ws as [| sp ws]; [now elim Hws |].
  destruct name as [| d name]; [now elim Hname |].
  cbn [all_chars] in Hsp, Hw.
  apply andb_prop in Hsp as [Hsp Hsps]. apply andb_prop in Hw as [Hd _].
  cbn [append declaration_at]. cbn [lower] in Hkw. cbn [lower].
  rewrite Hkw, Hsp, (lstrip_spaces _ _ Hsps).
  cbn [append lstrip]. rewrite (word_not_space d Hd), Hd. reflexivity.
Qed.

(** C10: the opening of a macro, [%macro], white space, a name and a
    parenthesis, is no match of the call pattern; and for a source in which
    every text of the shape of a call is such an opening,
    [find_macro_calls] returns the empty result. *)
Theorem C10_macro_opening_is_not_a_call :
  (forall kw ws name rest : string,
      lower kw = "%macro" ->
      ws <> EmptyString -> all_chars is_space ws = true ->
      name <> EmptyString -> all_chars is_word name = true ->
      match_here true call_pattern (kw ++ ws ++ name ++ "(" ++ rest)%string
      = None)
  /\ (forall (o : set_order) (sas_code : string),
         only_declarations sas_code = true ->
         find_macro_calls o sas_code = EmptyString).
Proof.
  split.
  - intros kw ws name rest Hkw Hws Hsp Hname Hw.
    apply no_call_no_match, declaration_is_no_call.
    now apply opening_is_declaration.
  - intros o sas_code H. unfold find_macro_calls, findall.
    rewrite (no_calls_found _ 0 H). cbn [map].
    pose proof (enum_perm o []) as Hp. cbn [nodup] in Hp.
    apply Permutation_sym, Permutation_nil in Hp. now rewrite Hp.
Qed.

(** Both parts on a small macro: its opening is no call, and nothing else
    in it is one. *)
Lemma C10_macro_opening_witness :
  match_here true call_pattern ("%Macro" ++ "  " ++ "load" ++ "(" ++ "a=1);")
  = None
  /\ find_macro_calls first_occurrence_order
       "%macro load(a=1); %let x = &a; data _null_; run; %mend load;"
     = EmptyString.
Proof.
  split.
  - apply (proj1 C10_macro_opening_is_not_a_call "%Macro" "  " "load" "a=1);");
      try reflexivity; discriminate.
  - apply (proj2 C10_macro_opening_is_not_a_call). reflexivity.
Defined.

End ReFacts.

(** ** extract_macro_parameters *)

Module ParameterFacts.

Import Py PyFacts Re DocGen App Notions MacroFacts ReFacts.

(** *** Finding the declaration *)

Lemma andb_true_l_split (a b : bool) : a && b = true -> a = true /\ b = true.
Proof. now destruct a, b. Qed.

(** The pattern matches only where the text reads [%macro], in any case. *)
Lemma def_match_starts_with_keyword (s : string) (r : list string * string) :
  match_here true macro_def_pattern s = Some r ->
  startswith "%macro" (lower s) = true.
Proof.
  destruct s as [| c0 [| c1 [| c2 [| c3 [| c4 [| c5 s]]]]]];
    cbn [match_here macro_def_pattern lits app lower startswith];
    unfold atom_ok;
    repeat match goal with
      | |- context [Ascii.eqb (lower_char ?l) (lower_char ?c)] =>
          change (lower_char l) with l;
          destruct (Ascii.eqb l (lower_char c));
          cbn [andb]; try discriminate
      end; try discriminate.
  reflexivity.
Qed.

(** A text that begins inside [x] and reads [%macro] reads so within [x]
    already, when what follows [x] begins with a percent sign. *)
Lemma keyword_does_not_straddle (x1 : ascii) (x rest : string) (c0 : ascii) :
  lower_char c0 = "%"%char ->
  startswith "%macro" (lower (String x1 x ++ String c0 rest)) = true ->
  startswith "%macro" (lower (String x1 x)) = true.
Proof.
  intros Hc0.
  destruct x as [| x2 [| x3 [| x4 [| x5 [| x6 x]]]]];
    cbn [append lower startswith]; rewrite ?Hc0; intros H;
    repeat (apply andb_true_l_split in H; destruct H as [? H]);
    try (apply Ascii.eqb_eq in H; discriminate H);
    repeat match goal with
      | E : Ascii.eqb _ _ = true |- _ => rewrite E; clear E
      end; try reflexivity;
    match goal with
    | E : Ascii.eqb _ _ = true |- _ => apply Ascii.eqb_eq in E; discriminate E
    | _ => idtac
    end.
Qed.

Lemma search_skips_prefix (pre : string) :
  forall (c0 : ascii) (rest : string),
    lower_char c0 = "%"%char ->
    contains "%macro" (lower pre) = false ->
    search true macro_def_pattern (pre ++ String c0 rest)
    = search true macro_def_pattern (String c0 rest).
Proof.
  induction pre as [| x1 x IH]; intros c0 rest Hc0 Hpre; [reflexivity |].
  cbn [lower contains] in Hpre. apply orb_false_elim in Hpre as [Hhere Hx].
  change (String x1 x ++ String c0 rest)%string
    with (String x1 (x ++ String c0 rest)).
  cbn [search].
  destruct (match_here true macro_def_pattern
              (String x1 (x ++ String c0 rest))) as [r |] eqn:Hm.
  - apply def_match_starts_with_keyword in Hm.
    apply (keyword_does_not_straddle x1 x rest c0 Hc0) in Hm.
    cbn [lower] in Hm. rewrite Hm in Hhere. discriminate.
  - now apply IH.
Qed.

Lemma match_one_literal (l c : ascii) (p : pattern) (t : string) :
  match_here true (One (Lit l) :: p) (String c t)
  = if Ascii.eqb (lower_char l) (lower_char c)
    then match_here true p t else None.
Proof. reflexivity. Qed.

(** The keyword, in any case, is consumed by the six literals. *)
Lemma keyword_consumed (kw s : string) :
  lower kw = "%macro" ->
  match_here true macro_def_pattern (kw ++ s)
  = match_here true
      [ Plus (Cls is_space); Plus (Cls is_word); One (Lit "("%char);
        GroupLazyStar (Cls is_dot); One (Lit ")"%char); One (Lit ";"%char) ]
      s.
Proof.
  intros Hkw.
  destruct kw as [| c0 [| c1 [| c2 [| c3 [| c4 [| c5 [| c6 kw]]]]]]];
    try discriminate.
  cbn [lower] in Hkw. injection Hkw as H0 H1 H2 H3 H4 H5.
  cbn [append macro_def_pattern lits app].
  do 6 rewrite match_one_literal.
  now rewrite H0, H1, H2, H3, H4, H5.
Qed.

(** The rest of the pattern on the parameter list of the claim. *)
Lemma list_of_three_matched (post : string) :
  match_here true
    [ One (Lit "("%char); GroupLazyStar (Cls is_dot); One (Lit ")"%char);
      One (Lit ";"%char) ]
    ("(p1=a, p2, p3=c);" ++ post)
  = Some (["p1=a, p2, p3=c"], post).
Proof. reflexivity. Qed.

Lemma declaration_found (pre kw ws name post : string) :
  contains "%macro" (lower pre) = false ->
  lower kw = "%macro" ->
  ws <> EmptyString -> all_chars is_space ws = true ->
  name <> EmptyString -> all_chars is_word name = true ->
  search true macro_def_pattern
    (pre ++ kw ++ ws ++ name ++ "(p1=a, p2, p3=c);" ++ post)
  = Some ["p1=a, p2, p3=c"].
Proof.
  intros Hpre Hkw Hws Hsp Hname Hw.
  assert (Hhere :
            match_here true macro_def_pattern
              (kw ++ ws ++ name ++ "(p1=a, p2, p3=c);" ++ post)
            = Some (["p1=a, p2, p3=c"], post)).
  { rewrite (keyword_consumed _ _ Hkw).
    destruct ws as [| sp ws]; [now elim Hws |].
    destruct name as [| d name]; [now elim Hname |].
    cbn [match_here].
    apply greedy1_run; [exact Hsp | | ].
    - apply greedy1_run; [exact Hw | apply list_of_three_matched |].
      reflexivity.
    - cbn [all_chars] in Hw. apply andb_prop in Hw as [Hd _].
      cbn [append]. apply (word_not_space d Hd). }
  destruct kw as [| c0 kw]; [discriminate |].
  cbn [lower] in Hkw. injection Hkw as H0 _.
  change (String c0 kw ++ ws ++ name ++ "(p1=a, p2, p3=c);" ++ post)%string
    with (String c0 (kw ++ ws ++ name ++ "(p1=a, p2, p3=c);" ++ post))
    in *.
  rewrite (search_skips_prefix pre c0 _ H0 Hpre).
  cbn [search]. now rewrite Hhere.
Qed.


(** *** Splitting an entry at the equals sign *)

Lemma split_without_separator (sep : ascii) (s : string) :
  lacks sep s = true -> split sep s = [s].
Proof.
  induction s as [| c s IH]; intros H; [reflexivity |].
  cbn [lacks all_chars] in H. apply andb_prop in H as [Hc H].
  cbn [split]. apply negb_true_iff in Hc. rewrite Hc.
  now rewrite (IH H).
Qed.

Lemma split_at_first_separator (sep : ascii) (n d : string) :
  lacks sep n = true ->
  split sep (n ++ String sep d) = n :: split sep d.
Proof.
  induction n as [| c n IH]; intros H.
  - cbn [append split]. now rewrite Ascii.eqb_refl.
  - cbn [lacks all_chars] in H. apply andb_prop in H as [Hc H].
    cbn [append split]. apply negb_true_iff in Hc. rewrite Hc.
    now rewrite (IH H).
Qed.

Lemma entry_without_equals (e : string) :
  lacks "="%char e = true ->
  param_name_of e = strip e /\ default_value_of e = "None".
Proof.
  intros H. unfold param_name_of, default_value_of.
  now rewrite (split_without_separator _ _ H).
Qed.

Lemma entry_with_one_equals (n d : string) :
  lacks "="%char n = true -> lacks "="%char d = true ->
  param_name_of (n ++ "=" ++ d) = strip n
  /\ default_value_of (n ++ "=" ++ d)
     = if is_empty (strip d) then "None" else strip d.
Proof.
  intros Hn Hd. unfold param_name_of, default_value_of.
  change (n ++ "=" ++ d)%string with (n ++ String "="%char d)%string.
  now rewrite (split_at_first_separator _ _ _ Hn),
    (split_without_separator _ _ Hd).
Qed.

(** *** The descriptors *)

Lemma describe_params_length (chat : collaborator) (sas_code : string)
  (params : list string) :
  forall call,
    List.length (describe_params chat sas_code call params)
    = List.length params.
Proof.
  induction params as [| e ps IH]; intros call; simpl; [reflexivity |].
  now rewrite IH.
Qed.

Lemma describe_params_names (chat : collaborator) (sas_code : string)
  (params : list string) :
  forall call,
    map name_and_default (describe_params chat sas_code call params)
    = map (fun e => [VStr (param_name_of e); VStr (default_value_of e)])
          params.
Proof.
  induction params as [| e ps IH]; intros call; simpl; [reflexivity |].
  now rewrite IH.
Qed.

Lemma describe_params_nth (chat : collaborator) (sas_code : string)
  (params : list string) :
  forall call i e,
    nth_error params i = Some e ->
    nth_error (describe_params chat sas_code call params) i
    = Some [ VStr (param_name_of e); VStr (default_value_of e);
             generate_parameter_description chat (call + i)
               (param_name_of e) sas_code ].
Proof.
  induction params as [| p ps IH]; intros call i e H.
  - destruct i; discriminate.
  - destruct i as [| i]; simpl in H.
    + injection H as <-. simpl. now rewrite Nat.add_0_r.
    + simpl. rewrite (IH (S call) i e H).
      now rewrite Nat.add_succ_r.
Qed.

Lemma extract_is_describe (chat : collaborator) (sas_code : string) :
  extract_macro_parameters chat sas_code
  = describe_params chat sas_code 0 (declared_params sas_code).
Proof.
  unfold extract_macro_parameters, declared_params.
  now destruct (search true macro_def_pattern sas_code).
Qed.

Lemma failed_call_falls_back (chat : collaborator) (call : nat)
  (param_name macro_code : string) :
  call_fails (chat call param_name macro_code) = true ->
  generate_parameter_description chat call param_name macro_code
  = VStr (generic_description param_name).
Proof.
  unfold generate_parameter_description.
  destruct (chat call param_name macro_code) as [| []];
    simpl; intros H; try reflexivity; discriminate.
Qed.

Lemma generic_description_nonempty (param_name : string) :
  is_empty (generic_description param_name) = false.
Proof. reflexivity. Qed.

(** C4 (the claim fails): with [p=a=b] the default is "a", not the whole
    text "a=b" after the first equals sign; with [q=] an equals sign is
    present and the default is the sentinel, not the empty text after
    it. *)
Lemma C4_default_counterexample :
  extract_macro_parameters silent "%macro m(p=a=b, q=);"
  = [ [VStr "p"; VStr "a"; VStr "Parameter p for the macro"];
      [VStr "q"; VStr "None"; VStr "Parameter q for the macro"] ]
  /\ default_value_of "p=a=b" <> "a=b"
  /\ default_value_of "q=" <> EmptyString.
Proof.
  split; [| split].
  - vm_compute. reflexivity.
  - vm_compute. discriminate.
  - vm_compute. discriminate.
Qed.

(** C4 (amended): when the first [%macro] of the source, in any case,
    opens [%macro <name>(p1=a, p2, p3=c);], exactly three descriptors come
    back, in that order, with the defaults "a", "None" and "c".  In
    general the descriptors follow the entries of the list in order; for
    an entry without an equals sign the name is the trimmed entry and the
    default the sentinel "None"; for an entry with one equals sign the
    name is the trimmed text before it and the default the trimmed text
    after it, or the sentinel when that text is blank. *)
Theorem C4_parameters_of_a_declaration :
  (forall (chat : collaborator) (pre kw ws name post : string),
      contains "%macro" (lower pre) = false ->
      lower kw = "%macro" ->
      ws <> EmptyString -> all_chars is_space ws = true ->
      name <> EmptyString -> all_chars is_word name = true ->
      let sas_code :=
        (pre ++ kw ++ ws ++ name ++ "(p1=a, p2, p3=c);" ++ post)%string in
      extract_macro_parameters chat sas_code
      = [ [VStr "p1"; VStr "a";
           generate_parameter_description chat 0 "p1" sas_code];
          [VStr "p2"; VStr "None";
           generate_parameter_description chat 1 "p2" sas_code];
          [VStr "p3"; VStr "c";
           generate_parameter_description chat 2 "p3" sas_code] ])
  /\ (forall (chat : collaborator) (sas_code : string),
         map name_and_default (extract_macro_parameters chat sas_code)
         = map (fun e => [VStr (param_name_of e); VStr (default_value_of e)])
               (declared_params sas_code))
  /\ (forall e : string,
         lacks "="%char e = true ->
         param_name_of e = strip e /\ default_value_of e = "None")
  /\ (forall n d : string,
         lacks "="%char n = true -> lacks "="%char d = true ->
         param_name_of (n ++ "=" ++ d) = strip n
         /\ default_value_of (n ++ "=" ++ d)
            = if is_empty (strip d) then "None" else strip d).
Proof.
  split; [| split; [| split]].
  - intros chat pre kw ws name post Hpre Hkw Hws Hsp Hname Hw sas_code.
    unfold extract_macro_parameters. subst sas_code.
    now rewrite (declaration_found pre kw ws name post Hpre Hkw Hws Hsp
                   Hname Hw).
  - intros chat sas_code. rewrite extract_is_describe.
    apply describe_params_names.
  - exact entry_without_equals.
  - exact entry_with_one_equals.
Qed.

(** The three parts that have premises, on a declaration in upper case
    after a comment and on two single entries. *)
Lemma C4_parameters_witness :
  extract_macro_parameters flaky
    ("/* %let */ " ++ "%MACRO" ++ "  " ++ "load" ++ "(p1=a, p2, p3=c);"
       ++ " %mend;")
  = [ [VStr "p1"; VStr "a"; VStr "described"];
      [VStr "p2"; VStr "None"; VStr "Parameter p2 for the macro"];
      [VStr "p3"; VStr "c"; VStr "described"] ]
  /\ (param_name_of " libref " = "libref"
      /\ default_value_of " libref " = "None")
  /\ (param_name_of (" out " ++ "=" ++ " work.t ") = "out"
      /\ default_value_of (" out " ++ "=" ++ " work.t ") = "work.t").
Proof.
  split; [| split].
  - apply (proj1 C4_parameters_of_a_declaration flaky "/* %let */ "
             "%MACRO" "  " "load" " %mend;");
      try reflexivity; discriminate.
  - apply (proj1 (proj2 (proj2 C4_parameters_of_a_declaration)) " libref ").
    reflexivity.
  - apply (proj2 (proj2 (proj2 C4_parameters_of_a_declaration)) " out "
             " work.t "); reflexivity.
Defined.



End ParameterFacts.

(** ** The renderers *)

Module RendererFacts.

Import Py PyFacts DocGen App Notions.

(** *** Mappings *)

Lemma dict_get_set_same (d : dict) (k : string) (v : value) :
  dict_get (dict_set d k v) k = Some v.
Proof.
  induction d as [| [k' v'] d IH]; simpl.
  - now rewrite String.eqb_refl.
  - destruct (String.eqb k' k) eqn:E; simpl; rewrite E;
      [reflexivity | exact IH].
Qed.

Lemma dict_get_set_other (d : dict) (k k' : string) (v : value) :
  k' <> k -> dict_get (dict_set d k v) k' = dict_get d k'.
Proof.
  intros Hne. induction d as [| [k0 v0] d IH]; simpl.
  - destruct (String.eqb k k') eqn:E; [| reflexivity].
    apply String.eqb_eq in E. now elim Hne.
  - destruct (String.eqb k0 k) eqn:E; simpl.
    + apply String.eqb_eq in E. subst k0.
      destruct (String.eqb k k') eqn:E'; [| reflexivity].
      apply String.eqb_eq in E'. now elim Hne.
    + now rewrite IH.
Qed.

(** *** Headings *)

Lemma headings_app (a b : list elem) :
  headings (a ++ b) = headings a ++ headings b.
Proof.
  induction a as [| e a IH]; [reflexivity |].
  destruct e; simpl; now rewrite ?IH.
Qed.

Section Sections.

Variable render : string -> result (list elem).
Variable keep : string -> bool.
Hypothesis render_heading :
  forall section els,
    render section = Ok els ->
    headings els = if keep section then [section] else [].

(** Rendering section after section gives the headings of the sections
    kept, in the order of the sections. *)
Lemma concat_results_headings (sections : list string) :
  forall story,
    concat_results (map render sections) = Ok story ->
    headings story = filter keep sections.
Proof.
  induction sections as [| sec secs IH]; intros story H; simpl in H.
  - injection H as <-. reflexivity.
  - destruct (render sec) as [els |] eqn:Hsec; [| discriminate].
    simpl in H.
    destruct (concat_results (map render secs)) as [rest |]; [| discriminate].
    simpl in H. injection H as <-.
    rewrite headings_app, (render_heading _ _ Hsec), (IH rest eq_refl).
    simpl. now destruct (keep sec).
Qed.

End Sections.

Section WithRepr.

Variable py_repr : value -> string.

Lemma pdf_paragraphs_no_heading (ps : list string) :
  headings (flat_map pdf_paragraph ps) = [].
Proof.
  induction ps as [| p ps IH]; [reflexivity |].
  simpl. rewrite headings_app, IH. unfold pdf_paragraph.
  destruct (negb _); [| reflexivity].
  now destruct (startswith "    " p).
Qed.

Lemma rtf_paragraphs_no_heading (ps : list string) :
  headings (map rtf_paragraph ps) = [].
Proof.
  induction ps as [| p ps IH]; [reflexivity |].
  simpl. unfold rtf_paragraph at 1.
  now destruct (startswith "    " p).
Qed.

Lemma pdf_section_heading (content : dict) (section : string)
  (els : list elem) :
  pdf_section py_repr content section = Ok els ->
  headings els = if is_populated content section then [section] else [].
Proof.
  unfold pdf_section, is_populated.
  destruct (populated content section) as [v |].
  - destruct (String.eqb section "Parameters").
    + destruct (pdf_table v); simpl; intros H; [| discriminate].
      now injection H as <-.
    + intros H. injection H as <-. simpl.
      now rewrite headings_app, pdf_paragraphs_no_heading.
  - intros H. now injection H as <-.
Qed.

Lemma presentation_slide_heading (content : dict) (section : string)
  (els : list elem) :
  presentation_slide py_repr content section = Ok els ->
  headings els = if is_populated content section then [section] else [].
Proof.
  unfold presentation_slide, is_populated.
  destruct (populated content section) as [v |].
  - destruct (String.eqb section "Parameters").
    + destruct v; try (intros H; now injection H as <-).
      destruct (presentation_table py_repr _); simpl; intros H;
        [| discriminate].
      now injection H as <-.
    + intros H. now injection H as <-.
  - intros H. now injection H as <-.
Qed.

Lemma rtf_section_heading (content : dict) (section : string)
  (els : list elem) :
  rtf_section py_repr content section = Ok els ->
  headings els = if is_populated_rtf content section then [section] else [].
Proof.
  unfold rtf_section, is_populated_rtf, is_populated.
  destruct (matching_key content (_process_section_name section)) as [k |].
  - destruct (is_empty k); simpl.
    + intros H. now injection H as <-.
    + destruct (populated content k) as [v |].
      * destruct (String.eqb _ "parameters").
        -- destruct (rtf_table py_repr v); simpl; intros H; [| discriminate].
           now injection H as <-.
        -- intros H. injection H as <-. simpl.
           now rewrite rtf_paragraphs_no_heading.
      * intros H. now injection H as <-.
  - intros H. now injection H as <-.
Qed.

(** The PDF, the slide deck and the editable document have a heading for
    the populated sections only, in the fixed order. *)
Lemma pdf_headings (content : dict) (macro_name : value) (doc : list elem) :
  _create_pdf py_repr content macro_name = Ok doc ->
  headings doc = filter (is_populated content) SECTION_ORDER.
Proof.
  unfold _create_pdf.
  destruct (concat_results _) as [story |] eqn:Hs; simpl; [| discriminate].
  intros H. injection H as <-. simpl.
  apply (concat_results_headings (pdf_section py_repr content)
           (is_populated content) (pdf_section_heading content) _ _ Hs).
Qed.

Lemma presentation_headings (content : dict) (doc : list elem) :
  create_presentation py_repr content = Ok doc ->
  headings doc = filter (is_populated content) SECTION_ORDER.
Proof.
  unfold create_presentation.
  destruct (concat_results _) as [story |] eqn:Hs; simpl; [| discriminate].
  intros H. injection H as <-. simpl.
  apply (concat_results_headings (presentation_slide py_repr content)
           (is_populated content) (presentation_slide_heading content)
           _ _ Hs).
Qed.

Lemma rtf_headings (content : dict) (macro_name : value) (doc : list elem) :
  _create_rtf py_repr content macro_name = Ok doc ->
  headings doc = filter (is_populated_rtf content) SECTION_ORDER.
Proof.
  unfold _create_rtf.
  destruct (concat_results _) as [story |] eqn:Hs; simpl; [| discriminate].
  intros H. injection H as <-. simpl.
  apply (concat_results_headings (rtf_section py_repr content)
           (is_populated_rtf content) (rtf_section_heading content) _ _ Hs).
Qed.

Lemma subsections_no_heading (subs : list value) :
  forall out,
    map_result
      (fun subsection =>
         title <- getitem subsection "title" ;;
         description <- getitem subsection "description" ;;
         Ok [SubHeading (py_str py_repr title);
             Normal (py_str py_repr description)]) subs
    = Ok out ->
    headings (concat out) = [].
Proof.
  induction subs as [| x subs IH]; intros out H; simpl in H.
  - now injection H as <-.
  - destruct (getitem x "title"); [| discriminate]. simpl in H.
    destruct (getitem x "description"); [| discriminate]. simpl in H.
    destruct (map_result _ subs) as [rest |]; [| discriminate]. simpl in H.
    injection H as <-. simpl. now apply IH.
Qed.

Lemma examples_no_heading (exs : list value) :
  headings (map (fun example => Code (py_str py_repr example)) exs) = [].
Proof. induction exs as [| x exs IH]; [reflexivity | exact IH]. Qed.

Lemma features_no_heading (subs : list value) :
  headings
    (flat_map
       (fun subsection =>
          match subsection with
          | VDict sd =>
              let title := get_or sd "title" (VStr EmptyString) in
              let description :=
                get_or sd "description" (VStr EmptyString) in
              if truthy title && truthy description
              then [SubHeading (py_str py_repr title);
                    Normal (py_str py_repr description)]
              else []
          | _ => []
          end) subs)
  = [].
Proof.
  match goal with |- headings (flat_map ?g _) = _ => set (f := g) end.
  induction subs as [| x subs IH]; [reflexivity |].
  change (flat_map f (x :: subs)) with (f x ++ flat_map f subs).
  rewrite headings_app, IH, app_nil_r. subst f. cbv beta.
  destruct x; try reflexivity.
  cbv zeta. now destruct (truthy _ && truthy _).
Qed.

Lemma preview_section_heading (doc_content : dict) (section : string)
  (els : list elem) :
  preview_section py_repr doc_content section = Ok els ->
  headings els = if is_populated doc_content section then [section] else [].
Proof.
  unfold preview_section, is_populated, populated, get_or.
  destruct (dict_get doc_content section) as [v |]; cbn [truthy is_empty negb];
    [| intros H; now injection H as <-].
  destruct (truthy v); [| intros H; now injection H as <-].
  destruct (preview_formatter py_repr section v) as [body |] eqn:Hb;
    cbn [bind]; intros H; [| discriminate].
  injection H as <-. cbn [headings]. f_equal.
  unfold preview_formatter in Hb.
  destruct (String.eqb section "Parameters").
  { unfold create_parameters_table in Hb.
    destruct v; try (now injection Hb as <-).
    destruct (negb _ || negb _); [now injection Hb as <- |].
    destruct (iter _); cbn [bind] in Hb; [| discriminate].
    destruct (iter _); cbn [bind] in Hb; [| discriminate].
    destruct (map_result _ _); cbn [bind] in Hb; [| discriminate].
    now injection Hb as <-. }
  destruct (String.eqb section "Key Features and Functionalities").
  { unfold create_features_section in Hb.
    destruct v; try (now injection Hb as <-).
    destruct (iter _); cbn [bind] in Hb; [| discriminate].
    injection Hb as <-. cbn [headings]. apply features_no_heading. }
  destruct (String.eqb section "Usage Examples").
  { unfold create_examples_section in Hb.
    destruct (negb (truthy v)); [now injection Hb as <- |].
    destruct (iter v); cbn [bind] in Hb; [| discriminate].
    injection Hb as <-. apply examples_no_heading. }
  destruct (String.eqb section "Syntax"); now injection Hb as <-.
Qed.

(** So has the preview of [app.py], whose list of sections has no Version
    History. *)
Lemma preview_headings (doc_content : dict) :
  create_preview_content py_repr (VDict doc_content)
  = [Normal "Error generating preview content. Please try again."]
  \/ headings (create_preview_content py_repr (VDict doc_content))
     = filter (is_populated doc_content) preview_sections.
Proof.
  unfold create_preview_content.
  destruct (concat_results _) as [page |] eqn:Hp; [right | now left].
  apply (concat_results_headings (preview_section py_repr doc_content)
           (is_populated doc_content)
           (preview_section_heading doc_content) _ _ Hp).
Qed.

Ltac step_bind H :=
  match type of H with
  | context [bind ?m _] =>
      let E := fresh "E" in
      destruct m eqn:E; cbn [bind] in H; [| discriminate H]
  end.

(** The HTML page has the same eight headings whatever the mapping
    holds. *)
Lemma html_headings (content : dict) (macro_name : value) (doc : list elem) :
  _create_html py_repr content macro_name = Ok doc ->
  headings doc
  = [ "Overview"; "Syntax"; "Parameters"; "Key Features and Functionalities";
      "Usage Examples"; "Return Values"; "Error Handling"; "Summary" ].
Proof.
  unfold _create_html. intros H.
  do 3 step_bind H.
  assert (Htable : exists hs rows, a1 = HtmlTable hs rows).
  { unfold html_table in E1. repeat step_bind E1.
    injection E1 as <-. eauto. }
  destruct Htable as (hs & rows & ->).
  repeat step_bind H.
  injection H as <-.
  match goal with
  | Hs : map_result _ _ = Ok _ |- _ =>
      pose proof (subsections_no_heading _ _ Hs) as Hsubs
  end.
  cbn [headings app].
  rewrite headings_app, Hsubs. cbn [headings app].
  now rewrite headings_app, examples_no_heading.
Qed.

(** *** Tables *)













(** *** The claims on the renderers *)

(** C2 (the code at the failing inputs): with Overview and Summary alone in
    the mapping the HTML page is not produced at all, the lookup of Syntax
    raising, while the PDF and the preview have the two headings in order;
    with every section there and Return Values empty the HTML page still
    has the Return Values heading, over an empty paragraph. *)
Theorem C2_html_page_omits_no_heading (macro_name : value) :
  _create_html py_repr overview_and_summary macro_name
  = Raise (KeyError "Syntax")
  /\ (exists doc,
         _create_pdf py_repr overview_and_summary macro_name = Ok doc
         /\ headings doc = ["Overview"; "Summary"])
  /\ headings (create_preview_content py_repr (VDict overview_and_summary))
     = ["Overview"; "Summary"]
  /\ is_populated all_but_return_values "Return Values" = false
  /\ (exists before rest,
         _create_html py_repr all_but_return_values macro_name
         = Ok (before
                 ++ Heading "Return Values" :: Normal EmptyString :: rest)).
Proof.
  split; [reflexivity |]. split; [| split; [reflexivity |]].
  - eexists. split; reflexivity.
  - split; [reflexivity |].
    eexists (_ :: _ :: _ :: _ :: _ :: _ :: _ :: _ :: _ :: _ :: _ :: _
               :: [_]), _.
    reflexivity.
Qed.

(** C3 (the code at the failing input): with the Syntax body under the
    key [syntax:] the editable document has the Syntax heading and the
    body; the PDF and the slide deck have no section at all, and the HTML
    page is not produced. *)
Theorem C3_other_renderers_need_the_exact_key (macro_name : value) :
  _create_rtf py_repr syntax_with_colon macro_name
  = Ok [ Title (title_text py_repr macro_name); Heading "Syntax";
         Normal "%load(lib=);" ]
  /\ _create_pdf py_repr syntax_with_colon macro_name
     = Ok [ Title (title_text py_repr macro_name) ]
  /\ create_presentation py_repr syntax_with_colon
     = Ok [ Title "SAS Macro Documentation";
            Subtitle "SAS Macro Documentation" ]
  /\ _create_html py_repr syntax_with_colon macro_name
     = Raise (KeyError "Overview").
Proof. repeat split. Qed.

(** C9: whatever the format and whatever the renderer then does,
    [create_manual] leaves the caller's mapping with the entry
    [macro_name] set to the name it was given, stored where the key was or
    at the end, and every other entry, those of the sections among them,
    as it was.  The write comes before the renderer runs: the slide deck
    is rendered from the mapping that holds the name. *)
Theorem C9_create_manual_stores_the_macro_name
  (content : dict) (output_format : string) (macro_name : value) :
  let after :=
    snd (create_manual py_repr Mapping output_format macro_name content) in
  after = dict_set content "macro_name" macro_name
  /\ dict_get after "macro_name" = Some macro_name
  /\ (forall k : string,
         k <> "macro_name" -> dict_get after k = dict_get content k)
  /\ (forall section : string,
         In section SECTION_ORDER ->
         dict_get after section = dict_get content section)
  /\ fst (create_manual py_repr Mapping "pptx" macro_name content)
     = match
         create_presentation py_repr
           (dict_set content "macro_name" macro_name)
       with
       | Ok doc => Ok doc
       | Raise e => Raise (Wrapped "Failed to generate document: " e)
       end.
Proof.
  assert (Hafter :
            snd (create_manual py_repr Mapping output_format macro_name
                   content)
            = dict_set content "macro_name" macro_name).
  { unfold create_manual, rewrap, pbind, store, reading.
    destruct (String.eqb output_format "pdf");
      [now destruct (_create_pdf _ _ _) |].
    destruct (String.eqb output_format "pptx");
      [now destruct (create_presentation _ _) |].
    destruct (String.eqb output_format "html");
      [now destruct (_create_html _ _ _) |].
    now destruct (_create_rtf _ _ _). }
  cbv zeta. rewrite Hafter.
  split; [reflexivity |]. split; [apply dict_get_set_same |].
  split; [intros k Hk; now apply dict_get_set_other |].
  split.
  - intros section Hin. apply dict_get_set_other.
    unfold SECTION_ORDER in Hin. simpl in Hin.
    intros ->. repeat (destruct Hin as [Hin | Hin]; [discriminate Hin |]).
    exact Hin.
  - unfold create_manual, rewrap, pbind, store, reading.
    cbn [String.eqb Ascii.eqb Bool.eqb].
    now destruct (create_presentation _ _).
Qed.

End WithRepr.


(** The Summary entry of a mapping rendered to PDF, as a key other than
    [macro_name] and as a section. *)
Lemma C9_create_manual_witness :
  dict_get
    (snd (create_manual no_repr Mapping "pdf" (VStr "load")
            overview_and_summary)) "Summary"
  = dict_get overview_and_summary "Summary"
  /\ dict_get
       (snd (create_manual no_repr Mapping "html" (VStr "load")
               overview_and_summary)) "Summary"
     = dict_get overview_and_summary "Summary".
Proof.
  split.
  - apply (proj1 (proj2 (proj2 (C9_create_manual_stores_the_macro_name
                                  no_repr overview_and_summary "pdf"
                                  (VStr "load"))))).
    discriminate.
  - apply (proj1 (proj2 (proj2 (proj2
             (C9_create_manual_stores_the_macro_name
                no_repr overview_and_summary "html" (VStr "load")))))).
    do 8 right. left. reflexivity.
Defined.

End RendererFacts.

(** ** Text inside text *)

Module TextFacts.

Import Py PyFacts DocGen App Notions MoreNotions MacroFacts.

Lemma lower_app (a b : string) :
  lower (a ++ b) = (lower a ++ lower b)%string.
Proof. induction a as [| c a IH]; simpl; [reflexivity | now rewrite IH]. Qed.

Lemma startswith_app (p a b : string) :
  startswith p a = true -> startswith p (a ++ b) = true.
Proof.
  revert a. induction p as [| x p IH]; intros a H; [reflexivity |].
  destruct a as [| y a]; [discriminate |].
  cbn [startswith append] in *. apply andb_prop in H as [Hxy H].
  now rewrite Hxy, (IH _ H).
Qed.

Lemma contains_app_l (p a b : string) :
  contains p a = true -> contains p (a ++ b) = true.
Proof.
  induction a as [| c a IH]; intros H.
  - cbn [contains] in H. rewrite orb_false_r in H.
    destruct p; [| discriminate]. now destruct b.
  - cbn [contains append] in *. apply orb_prop in H as [H | H].
    + apply (startswith_app p (String c a) b) in H.
      cbn [append] in H. now rewrite H.
    + rewrite (IH H). apply orb_true_r.
Qed.

Lemma contains_app_r (p a b : string) :
  contains p b = true -> contains p (a ++ b) = true.
Proof.
  intros H. induction a as [| c a IH]; [exact H |].
  cbn [contains append]. rewrite IH. apply orb_true_r.
Qed.

(** What is in a part of a text is in the text. *)
Lemma contains_inside (p a m b : string) :
  contains p m = true -> contains p (a ++ m ++ b) = true.
Proof. intros H. now apply contains_app_r, contains_app_l. Qed.

Lemma lstrip_is_suffix (s : string) : exists a, s = (a ++ lstrip s)%string.
Proof.
  induction s as [| c s [a IH]].
  - now exists EmptyString.
  - cbn [lstrip]. destruct (is_space c).
    + exists (String c a). cbn [append]. now rewrite <- IH.
    + now exists EmptyString.
Qed.

Lemma rstrip_is_prefix (drop : ascii -> bool) (s : string) :
  exists b, s = (rstrip_with drop s ++ b)%string.
Proof.
  induction s as [| c s [b IH]].
  - now exists EmptyString.
  - cbn [rstrip_with]. destruct (drop c && is_empty (rstrip_with drop s)).
    + now exists (String c s).
    + exists b. cbn [append]. now rewrite <- IH.
Qed.

(** A line holds its trimmed text. *)
Lemma strip_is_inside (s : string) :
  exists a b, s = (a ++ strip s ++ b)%string.
Proof.
  destruct (lstrip_is_suffix s) as [a Ha].
  destruct (rstrip_is_prefix is_space (lstrip s)) as [b Hb].
  exists a, b. unfold strip, rstrip. now rewrite <- Hb.
Qed.

(** The first line of a text is where the text begins. *)
Lemma first_line_is_prefix (sep : ascii) (s : string) :
  forall h t, split sep s = h :: t -> exists b, s = (h ++ b)%string.
Proof.
  induction s as [| c s IH]; intros h t H.
  - injection H as <- _. now exists EmptyString.
  - cbn [split] in H. destruct (Ascii.eqb c sep).
    + injection H as <- _. now exists (String c s).
    + destruct (split sep s) as [| h' t'].
      * injection H as <- _. now exists s.
      * injection H as <- _. destruct (IH h' t' eq_refl) as [b E].
        exists b. cbn [append]. now rewrite <- E.
Qed.

(** A text holds each of its lines. *)
Lemma line_is_inside (sep : ascii) (s : string) :
  forall l, In l (split sep s) -> exists a b, s = (a ++ l ++ b)%string.
Proof.
  induction s as [| c s IH]; intros l Hin.
  - destruct Hin as [<- | []]. now exists EmptyString, EmptyString.
  - cbn [split] in Hin. destruct (Ascii.eqb c sep).
    + destruct Hin as [<- | Hin].
      * now exists EmptyString, (String c s).
      * destruct (IH l Hin) as (a & b & E).
        exists (String c a), b. cbn [append]. now rewrite <- E.
    + destruct (split sep s) as [| h t] eqn:Hs.
      * destruct Hin as [<- | []]. now exists EmptyString, s.
      * destruct Hin as [<- | Hin].
        -- destruct (first_line_is_prefix sep s h t Hs) as [b E].
           exists EmptyString, b. cbn [append]. now rewrite <- E.
        -- destruct (IH l (or_intror Hin)) as (a & b & E).
           exists (String c a), b. cbn [append]. now rewrite <- E.
Qed.

End TextFacts.

(** ** More on extract_macros *)

Module MacroMoreFacts.

Import Py PyFacts DocGen App Notions MoreNotions MacroFacts TextFacts.

(** What a trimmed, lower-cased line holds, the lower-cased source holds. *)
Lemma found_in_line_found_in_source (p sas_code l : string) :
  In l (split nl sas_code) ->
  contains p (lower (strip l)) = true ->
  contains p (lower sas_code) = true.
Proof.
  intros Hin Hp.
  destruct (line_is_inside nl sas_code l Hin) as (a & b & ->).
  destruct (strip_is_inside l) as (a' & b' & El).
  rewrite El, !lower_app, !append_assoc.
  apply contains_app_r, contains_app_r, contains_app_l. exact Hp.
Qed.

Lemma scan_line_stray (st : mstate) (line : string) :
  in_macro st = false -> opens line = false -> closes line = true ->
  scan_line st line
  = mk_mstate (current_macro st) false (macro_level st - 1)%Z (macros st).
Proof.
  intros Hin Ho Hc. unfold scan_line. fold (opens line) (closes line).
  now rewrite Ho, Hc, Hin.
Qed.

Lemma scan_without_opening (lines : list string) :
  forall st,
    in_macro st = false ->
    Forall (fun l => opens l = false) lines ->
    in_macro (scan lines st) = false /\ macros (scan lines st) = macros st.
Proof.
  induction lines as [| l ls IH]; intros st Hin Hall; [now split |].
  inversion Hall as [| ? ? Hl Hls]; subst. rewrite scan_cons.
  assert (Hstep : in_macro (scan_line st l) = false
                  /\ macros (scan_line st l) = macros st).
  { unfold scan_line. fold (opens l) (closes l). rewrite Hl, Hin.
    cbn [andb]. now destruct (closes l). }
  destruct Hstep as [Hin' Hm'].
  destruct (IH _ Hin' Hls) as [Hin'' Hm'']. now rewrite Hin'', Hm'', Hm'.
Qed.

(** A source in which the text [%macro] occurs in no letter case has no
    macro. *)
Theorem extract_macros_without_keyword (sas_code : string) :
  contains "%macro" (lower sas_code) = false ->
  extract_macros sas_code = [].
Proof.
  intros Hno. unfold extract_macros, finish.
  destruct (scan_without_opening (split nl sas_code) mstate0 eq_refl)
    as [Hin Hm].
  - apply Forall_forall. intros l Hl. unfold opens.
    destruct (contains "%macro" (lower (strip l))) eqn:E; [| reflexivity].
    now rewrite (found_in_line_found_in_source _ _ _ Hl E) in Hno.
  - now rewrite Hin, Hm.
Qed.

Lemma extract_macros_without_keyword_witness :
  extract_macros (unlines ["data a;"; "  set b;"; "run; %put done;"]) = [].
Proof. apply extract_macros_without_keyword. reflexivity. Defined.

(** *** Macros one after another *)

Lemma scan_block (b : block) (ms : list string) :
  simple_block b ->
  scan (block_lines b) (mk_mstate EmptyString false 0%Z ms)
  = mk_mstate EmptyString false 0%Z (ms ++ [block_text b]).
Proof.
  destruct b as [[[opening body] closing] gap].
  intros (Ho & Hbody & Hco & Hcc & Hgap).
  cbn [block_lines block_text].
  rewrite scan_cons, scan_line_open by (assumption || reflexivity).
  cbn [current_macro macro_level macros in_macro].
  rewrite scan_app, (scan_plain_in body _ _ _ Hbody).
  rewrite scan_cons, scan_line_close by (assumption || reflexivity).
  cbn [current_macro macro_level macros in_macro].
  change (Z.eqb (0 + 1 - 1) 0) with true. cbv iota.
  rewrite scan_plain_out by (assumption || reflexivity).
  do 3 f_equal. cbn [capture]. rewrite capture_app. cbn [capture].
  now rewrite !append_assoc, ?append_nil_r.
Qed.

Lemma scan_blocks (bs : list block) :
  forall ms,
    Forall simple_block bs ->
    scan (flat_map block_lines bs) (mk_mstate EmptyString false 0%Z ms)
    = mk_mstate EmptyString false 0%Z (ms ++ map block_text bs).
Proof.
  induction bs as [| b bs IH]; intros ms Hall.
  - cbn [flat_map map scan fold_left]. now rewrite app_nil_r.
  - inversion Hall as [| ? ? Hb Hbs]; subst.
    cbn [flat_map map]. rewrite scan_app, (scan_block b ms Hb), (IH _ Hbs).
    now rewrite <- app_assoc.
Qed.

(** A source made of macros that follow one another, none inside another,
    gives one element for each, in the order of the source. *)
Theorem extract_macros_in_sequence
  (sas_code : string) (pre : list string) (bs : list block) :
  split nl sas_code = pre ++ flat_map block_lines bs ->
  Forall plain pre -> Forall simple_block bs ->
  extract_macros sas_code = map block_text bs.
Proof.
  intros Hs Hpre Hbs. unfold extract_macros. rewrite Hs, scan_app.
  rewrite (scan_plain_out pre mstate0 eq_refl Hpre).
  unfold mstate0. now rewrite (scan_blocks bs [] Hbs).
Qed.

Lemma extract_macros_in_sequence_witness :
  extract_macros
    (unlines ["* two macros;"; "%macro a;"; "  data x; run;"; "%mend a;";
              ""; "%MACRO b(p);"; "%Mend;"; "%a"])
  = map block_text
        [ ("%macro a;", ["  data x; run;"], "%mend a;", [""]);
          ("%MACRO b(p);", [], "%Mend;", ["%a"]) ].
Proof.
  apply (extract_macros_in_sequence _ ["* two macros;"]);
    [reflexivity | repeat constructor | repeat constructor].
Defined.

(** *** A closing line with nothing to close *)

(** A [%mend] met outside any macro takes the depth below zero: the
    closing line of the macro that follows brings it back to minus one, not
    to zero, so that macro is never closed and its element runs to the end
    of the source. *)
Theorem stray_mend_keeps_next_macro_open
  (sas_code : string) (pre mid body post : list string)
  (stray opening closing : string) :
  split nl sas_code
  = pre ++ stray :: mid ++ opening :: body ++ closing :: post ->
  Forall plain pre -> Forall plain mid -> Forall plain body ->
  Forall plain post ->
  opens stray = false -> closes stray = true ->
  opens opening = true ->
  opens closing = false -> closes closing = true ->
  extract_macros sas_code
  = [strip (capture (opening :: body ++ closing :: post))].
Proof.
  intros Hs Hpre Hmid Hbody Hpost Hso Hsc Ho Hco Hcc.
  unfold extract_macros. rewrite Hs.
  rewrite scan_app, (scan_plain_out pre mstate0 eq_refl Hpre).
  rewrite scan_cons, scan_line_stray by (assumption || reflexivity).
  rewrite scan_app.
  rewrite scan_plain_out with (lines := mid) by (assumption || reflexivity).
  rewrite scan_cons, scan_line_open by (assumption || reflexivity).
  cbn [current_macro macro_level macros in_macro mstate0].
  rewrite scan_app, (scan_plain_in body _ _ _ Hbody).
  rewrite scan_cons, scan_line_close by (assumption || reflexivity).
  cbn [current_macro macro_level macros in_macro].
  change (Z.eqb (0 - 1 + 1 - 1) 0) with false. cbv iota.
  rewrite (scan_plain_in post _ _ _ Hpost).
  unfold finish. cbn [current_macro macro_level macros in_macro].
  rewrite !append_assoc, with_nl_nonempty. cbn [andb negb app].
  do 2 f_equal. cbn [capture]. rewrite capture_app. cbn [capture].
  now rewrite ?append_assoc.
Qed.

Lemma stray_mend_witness :
  extract_macros
    (unlines ["%mend;"; "%macro a;"; "  data x;"; "%mend a;"; "proc print;"])
  = [strip (capture ["%macro a;"; "  data x;"; "%mend a;"; "proc print;"])].
Proof.
  apply (stray_mend_keeps_next_macro_open _ [] [] ["  data x;"]
           ["proc print;"] "%mend;" "%macro a;" "%mend a;");
    try reflexivity; repeat constructor.
Defined.

(** *** What every element is *)

Lemma lstrip_app_nonempty (l x : string) :
  is_empty (lstrip l) = false -> lstrip (l ++ x) = (lstrip l ++ x)%string.
Proof.
  induction l as [| c l IH]; intros H; [discriminate |].
  cbn [lstrip append] in *. destruct (is_space c); [now apply IH | reflexivity].
Qed.

Lemma rstrip_prefix_kept (w x : string) :
  is_empty (rstrip w) = false ->
  startswith (rstrip w) (rstrip (w ++ x)) = true.
Proof.
  unfold rstrip. induction w as [| c w IH]; intros H; [discriminate |].
  cbn [rstrip_with append] in *.
  destruct (is_empty (rstrip_with is_space w)) eqn:Ew.
  - apply is_empty_true in Ew. rewrite Ew in *.
    destruct (is_space c); [discriminate |]. cbn [andb startswith].
    now rewrite Ascii.eqb_refl.
  - specialize (IH eq_refl). rewrite andb_false_r.
    assert (Hne : is_empty (rstrip_with is_space (w ++ x)) = false).
    { destruct (rstrip_with is_space (w ++ x)); [| reflexivity].
      destruct (rstrip_with is_space w); discriminate. }
    rewrite Hne, andb_false_r. cbn [startswith].
    now rewrite Ascii.eqb_refl, IH.
Qed.

(** The trimmed text of what begins with a line that is not blank begins
    with the trimmed line. *)
Lemma strip_prefix_kept (l x : string) :
  is_empty (strip l) = false ->
  startswith (strip l) (strip (l ++ x)) = true.
Proof.
  intros H. unfold strip in *.
  assert (Hl : is_empty (lstrip l) = false).
  { destruct (lstrip l); [discriminate | reflexivity]. }
  rewrite (lstrip_app_nonempty l x Hl). now apply rstrip_prefix_kept.
Qed.

Lemma opening_not_blank (l : string) :
  opens l = true -> is_empty (strip l) = false.
Proof.
  unfold opens. destruct (strip l); [discriminate | reflexivity].
Qed.

Lemma startswith_split (p s : string) :
  startswith p s = true -> exists y, s = (p ++ y)%string.
Proof.
  revert s. induction p as [| c p IH]; intros s H.
  - now exists s.
  - destruct s as [| d s]; [discriminate |].
    cbn [startswith] in H. apply andb_prop in H as [Hc H].
    apply Ascii.eqb_eq in Hc. subst d.
    destruct (IH s H) as [y ->]. now exists y.
Qed.

Lemma begins_at_opening_more (done : list string) (line e : string) :
  begins_at_opening done e -> begins_at_opening (done ++ [line]) e.
Proof.
  intros (l & Hin & Ho & Hs). exists l. repeat split; auto.
  apply in_or_app. now left.
Qed.

Lemma capture_begins_at_opening (pre rest : list string) (l : string) :
  opens l = true ->
  begins_at_opening (pre ++ l :: rest) (strip (capture (l :: rest))).
Proof.
  intros Ho. exists l. repeat split; [| exact Ho |].
  - apply in_or_app. right. now left.
  - cbn [capture]. unfold with_nl. rewrite append_assoc.
    apply strip_prefix_kept. now apply opening_not_blank.
Qed.

Lemma scan_elements_step (done : list string) (st : mstate) (line : string) :
  scan_elements_inv done st ->
  scan_elements_inv (done ++ [line]) (scan_line st line).
Proof.
  intros [Hms Hin].
  assert (Hms' : Forall (begins_at_opening (done ++ [line])) (macros st)).
  { eapply Forall_impl; [| exact Hms].
    intros e. apply begins_at_opening_more. }
  unfold scan_line. fold (opens line) (closes line).
  destruct (in_macro st) eqn:Ein.
  - destruct (Hin eq_refl) as (pre & l & rest & Hd & Ho & Hc).
    assert (Hcur : (current_macro st ++ with_nl line)%string
                   = capture (l :: rest ++ [line])).
    { rewrite Hc. change (l :: rest ++ [line]) with ((l :: rest) ++ [line]).
      rewrite capture_app. cbn [capture]. now rewrite append_nil_r. }
    assert (Hdone : done ++ [line] = pre ++ l :: rest ++ [line]).
    { rewrite Hd, <- app_assoc. reflexivity. }
    rewrite andb_false_r.
    destruct (closes line).
    + destruct (Z.eqb _ 0); split; cbn [macros in_macro current_macro];
        try (intros; discriminate).
      * apply Forall_app. split; [exact Hms' |].
        constructor; [| constructor].
        rewrite Hcur, Hdone. now apply capture_begins_at_opening.
      * exact Hms'.
      * intros _. now exists pre, l, (rest ++ [line]).
    + split; cbn [macros in_macro current_macro]; [exact Hms' |].
      intros _. now exists pre, l, (rest ++ [line]).
  - destruct (opens line) eqn:Eo; cbn [andb negb].
    + split; cbn [macros in_macro current_macro]; [exact Hms' |].
      intros _. exists done, line, []. repeat split; [exact Eo |].
      cbn [capture]. now rewrite append_nil_r.
    + destruct (closes line); split; cbn [macros in_macro current_macro];
        try exact Hms'; intros; discriminate.
Qed.

Lemma scan_elements_run (lines : list string) :
  forall done st,
    scan_elements_inv done st ->
    scan_elements_inv (done ++ lines) (scan lines st).
Proof.
  induction lines as [| l ls IH]; intros done st Hinv; simpl.
  - now rewrite app_nil_r.
  - replace (done ++ l :: ls) with ((done ++ [l]) ++ ls)
      by (rewrite <- app_assoc; reflexivity).
    apply IH. now apply scan_elements_step.
Qed.

(** Every element returned begins with the trimmed text of one of the
    opening lines of the source; so it is not empty and holds the text
    [%macro], in some letter case. *)
Theorem extract_macros_elements_begin_at_opening
  (sas_code element : string) :
  In element (extract_macros sas_code) ->
  begins_at_opening (split nl sas_code) element
  /\ contains "%macro" (lower element) = true.
Proof.
  intros Hin.
  assert (Hb : begins_at_opening (split nl sas_code) element).
  { destruct (scan_elements_run (split nl sas_code) [] mstate0)
      as [Hms Hcur].
    { split; [constructor | intros; discriminate]. }
    cbn [app] in Hms, Hcur.
    unfold extract_macros, finish in Hin.
    destruct (in_macro (scan (split nl sas_code) mstate0)
              && negb (is_empty (current_macro
                                   (scan (split nl sas_code) mstate0))))
      eqn:E.
    - apply in_app_or in Hin as [Hin | [<- | []]].
      + rewrite Forall_forall in Hms. now apply Hms.
      + apply andb_prop in E as [E _].
        destruct (Hcur E) as (pre & l & rest & Hd & Ho & Hc).
        rewrite Hc, Hd. now apply capture_begins_at_opening.
    - rewrite Forall_forall in Hms. now apply Hms. }
  split; [exact Hb |].
  destruct Hb as (l & _ & Ho & Hs).
  destruct (startswith_split _ _ Hs) as [y ->].
  rewrite lower_app. apply contains_app_l. exact Ho.
Qed.

Lemma extract_macros_elements_witness :
  begins_at_opening
    (split nl (unlines ["  %Macro a(x);  "; "data b;"; "%mend;"]))
    (strip (capture ["  %Macro a(x);  "; "data b;"; "%mend;"]))
  /\ contains "%macro"
       (lower (strip (capture ["  %Macro a(x);  "; "data b;"; "%mend;"])))
     = true.
Proof.
  apply (extract_macros_elements_begin_at_opening
           (unlines ["  %Macro a(x);  "; "data b;"; "%mend;"])).
  left. reflexivity.
Defined.

(** *** How many elements *)

Lemma scan_line_count (st : mstate) (line : string) :
  List.length (macros (scan_line st line)) + pending (scan_line st line)
  <= List.length (macros st) + pending st
     + (if opens line then 1 else 0).
Proof.
  unfold scan_line, pending. fold (opens line) (closes line).
  destruct (opens line), (in_macro st), (closes line);
    cbn [andb negb macros in_macro]; try lia;
    destruct (Z.eqb _ 0); cbn [macros in_macro];
    rewrite ?length_app; cbn [List.length]; lia.
Qed.

Lemma scan_count (lines : list string) :
  forall st,
    List.length (macros (scan lines st)) + pending (scan lines st)
    <= List.length (macros st) + pending st
       + List.length (filter opens lines).
Proof.
  induction lines as [| l ls IH]; intros st; [simpl; lia |].
  rewrite scan_cons. specialize (IH (scan_line st l)).
  pose proof (scan_line_count st l) as Hl.
  cbn [filter]. destruct (opens l); cbn [List.length]; lia.
Qed.

(** There are never more elements than lines that hold [%macro]. *)
Theorem extract_macros_at_most_one_per_opening (sas_code : string) :
  List.length (extract_macros sas_code)
  <= List.length (filter opens (split nl sas_code)).
Proof.
  pose proof (scan_count (split nl sas_code) mstate0) as H.
  unfold extract_macros, finish.
  unfold pending in H at 1. cbn [mstate0 macros pending in_macro] in H.
  destruct (in_macro (scan (split nl sas_code) mstate0));
    cbn [andb]; [| cbn [List.length] in H; lia].
  destruct (negb _); rewrite ?length_app; cbn [List.length] in *; lia.
Qed.

End MacroMoreFacts.

(** ** More on the content formatter *)

Module FormatterMoreFacts.

Import Py PyFacts DocGen App Notions MoreNotions MacroFacts TextFacts
       FormatterFacts ParameterFacts.

(** *** Lines and their text *)

Lemma split_not_nil (sep : ascii) (s : string) : split sep s <> [].
Proof.
  destruct s as [| c s]; [discriminate |].
  cbn [split]. destruct (Ascii.eqb c sep); [discriminate |].
  destruct (split sep s); discriminate.
Qed.

Lemma split_app_sep (sep : ascii) (a b : string) :
  split sep (a ++ String sep b) = split sep a ++ split sep b.
Proof.
  induction a as [| c a IH].
  - cbn [append split]. now rewrite Ascii.eqb_refl.
  - cbn [append split]. rewrite IH.
    destruct (Ascii.eqb c sep); [reflexivity |].
    destruct (split sep a) as [| h t] eqn:Ha; [| reflexivity].
    now elim (split_not_nil sep a).
Qed.

Lemma all_chars_app (p : ascii -> bool) (a b : string) :
  all_chars p (a ++ b) = all_chars p a && all_chars p b.
Proof.
  induction a as [| c a IH]; [reflexivity |].
  cbn [append all_chars]. now rewrite IH, andb_assoc.
Qed.

(** No line of a text holds the separator. *)
Lemma lines_lack_separator (sep : ascii) (s : string) :
  Forall (fun l => lacks sep l = true) (split sep s).
Proof.
  induction s as [| c s IH]; [repeat constructor |].
  cbn [split]. destruct (Ascii.eqb c sep) eqn:Hc.
  - constructor; [reflexivity | exact IH].
  - destruct (split sep s) as [| h t]; [repeat constructor |].
    + unfold lacks. cbn [all_chars]. now rewrite Hc.
    + inversion IH as [| ? ? Hh Ht]; subst. constructor; [| exact Ht].
      unfold lacks in *. cbn [all_chars]. now rewrite Hc.
Qed.

(** Joining lines and splitting the text gives the lines back. *)
Lemma split_join (sep : ascii) (lines : list string) :
  lines <> [] ->
  Forall (fun l => lacks sep l = true) lines ->
  split sep (join (String sep EmptyString) lines) = lines.
Proof.
  induction lines as [| l ls IH]; intros Hne Hall; [now elim Hne |].
  inversion Hall as [| ? ? Hl Hls]; subst.
  destruct ls as [| l' ls].
  - cbn [join]. exact (split_without_separator sep l Hl).
  - change (join (String sep EmptyString) (l :: l' :: ls))
      with (l ++ String sep (join (String sep EmptyString) (l' :: ls)))%string.
    rewrite split_app_sep, IH by (discriminate || assumption).
    now rewrite (split_without_separator sep l Hl).
Qed.

(** *** Blank lines at the start *)

Lemma lstrip_spaces_only (w : string) :
  all_chars is_space w = true -> lstrip w = EmptyString.
Proof.
  induction w as [| c w IH]; intros H; [reflexivity |].
  cbn [all_chars] in H. apply andb_prop in H as [Hc H].
  cbn [lstrip]. rewrite Hc. now apply IH.
Qed.

Lemma strip_spaces_only (w : string) :
  all_chars is_space w = true -> strip w = EmptyString.
Proof. intros H. unfold strip. now rewrite (lstrip_spaces_only w H). Qed.

Lemma lines_of_spaces (w : string) :
  all_chars is_space w = true ->
  Forall (fun l => strip l = EmptyString) (split nl w).
Proof.
  intros H. apply Forall_forall. intros l Hin.
  destruct (line_is_inside nl w l Hin) as (a & b & ->).
  rewrite !all_chars_app in H.
  apply andb_prop in H as [_ H]. apply andb_prop in H as [H _].
  now apply strip_spaces_only.
Qed.

Lemma format_lines_blank (lines : list string) (st : fstate) :
  formatted_lines st = [] ->
  Forall (fun l => strip l = EmptyString) lines ->
  format_lines lines st = st.
Proof.
  intros Hst Hall. induction Hall as [| l ls Hl _ IH]; [reflexivity |].
  unfold format_lines in *. cbn [fold_left].
  unfold format_line at 2. rewrite Hl, Hst. exact IH.
Qed.

(** White space before the first line of content, line feeds included, is
    dropped: the text formats as it does without it. *)
Theorem format_text_drops_leading_blank_lines (w text : string) :
  all_chars is_space w = true ->
  format_text (w ++ String nl text) = format_text text.
Proof.
  intros Hw. unfold format_text.
  rewrite split_app_sep. unfold format_lines. rewrite fold_left_app.
  fold (format_lines (split nl w) fstate0).
  now rewrite (format_lines_blank _ fstate0 eq_refl (lines_of_spaces w Hw)).
Qed.

Lemma format_text_leading_blank_witness :
  format_text ("  " ++ String nl "- item")
  = format_text "- item".
Proof.
  apply (format_text_drops_leading_blank_lines "  " "- item"). reflexivity.
Defined.

(** *** One marker line at most *)

Lemma has_marker_after_line_feed (x : string) :
  has_marker (String nl x) = has_marker x.
Proof. reflexivity. Qed.

Lemma marker_count_step (st : fstate) (line : string) :
  List.length (filter has_marker (formatted_lines st))
  <= (if in_example st then 1 else 0) ->
  List.length (filter has_marker (formatted_lines (format_line st line)))
  <= (if in_example (format_line st line) then 1 else 0).
Proof.
  intros H. unfold format_line. rewrite strip_not_indented.
  destruct (is_empty (strip line) && _); [exact H |].
  destruct (has_marker (strip line)) eqn:Hm.
  - destruct (in_example st) eqn:He; cbn [negb]; [now rewrite He |].
    cbn [set_example append_line formatted_lines in_example].
    rewrite filter_app, length_app. cbn [filter append].
    rewrite has_marker_after_line_feed, Hm. cbn [List.length]. lia.
  - assert (Hplain :
              List.length
                (filter has_marker (formatted_lines st ++ [strip line]))
              <= (if in_example st then 1 else 0)).
    { rewrite filter_app, length_app. cbn [filter]. rewrite Hm.
      cbn [List.length]. lia. }
    destruct (startswith "- " (strip line)); [exact Hplain |].
    destruct (Re.re_match false numbered_item (strip line));
      [exact Hplain |].
    cbn [set_code set_numbered in_example].
    destruct (in_example st) eqn:He;
      cbn [append_line set_code set_numbered formatted_lines in_example];
      rewrite ?He; exact Hplain.
Qed.

Lemma marker_count_run (lines : list string) :
  forall st,
    List.length (filter has_marker (formatted_lines st))
    <= (if in_example st then 1 else 0) ->
    List.length
      (filter has_marker (formatted_lines (format_lines lines st)))
    <= 1.
Proof.
  induction lines as [| l ls IH]; intros st H.
  - cbn. destruct (in_example st); lia.
  - apply IH. now apply marker_count_step.
Qed.

(** Whatever the text, at most one of the lines emitted holds [Example:]
    or [Usage:]: every marker line after the first is left out. *)
Theorem format_text_emits_one_marker_line_at_most (text : string) :
  List.length
    (filter has_marker
       (formatted_lines (format_lines (split nl text) fstate0)))
  <= 1.
Proof. apply marker_count_run. cbn. lia. Qed.

(** *** Formatting twice *)

Lemma rstrip_with_idempotent (drop : ascii -> bool) (s : string) :
  rstrip_with drop (rstrip_with drop s) = rstrip_with drop s.
Proof.
  induction s as [| c s IH]; [reflexivity |].
  cbn [rstrip_with].
  destruct (drop c && is_empty (rstrip_with drop s)) eqn:E; [reflexivity |].
  cbn [rstrip_with]. now rewrite IH, E.
Qed.

Lemma lstrip_of_strip (s : string) : lstrip (strip s) = strip s.
Proof.
  destruct (strip_head s) as [E | (c & r & E & Hc)]; rewrite E.
  - reflexivity.
  - cbn [lstrip]. now rewrite Hc.
Qed.

Lemma strip_idempotent (s : string) : strip (strip s) = strip s.
Proof.
  unfold strip at 1. rewrite lstrip_of_strip.
  unfold strip, rstrip. apply rstrip_with_idempotent.
Qed.

Lemma strip_lacks (c : ascii) (l : string) :
  lacks c l = true -> lacks c (strip l) = true.
Proof.
  intros H. destruct (strip_is_inside l) as (a & b & E).
  unfold lacks in *. rewrite E, !all_chars_app in H.
  apply andb_prop in H as [_ H]. now apply andb_prop in H as [H _].
Qed.

Lemma marker_free_lines (text : string) :
  has_marker text = false ->
  Forall (fun l => has_marker (strip l) = false) (split nl text).
Proof.
  unfold has_marker. intros H. apply orb_false_elim in H as [HE HU].
  apply Forall_forall. intros l Hin.
  destruct (line_is_inside nl text l Hin) as (a & b & ->).
  destruct (strip_is_inside l) as (a' & b' & El).
  rewrite El, !append_assoc in HE, HU.
  apply orb_false_intro.
  - destruct (contains "Example:" (strip l)) eqn:E; [| reflexivity].
    now rewrite (contains_app_r _ a _
                   (contains_app_r _ a' _ (contains_app_l _ _ _ E))) in HE.
  - destruct (contains "Usage:" (strip l)) eqn:E; [| reflexivity].
    now rewrite (contains_app_r _ a _
                   (contains_app_r _ a' _ (contains_app_l _ _ _ E))) in HU.
Qed.

Lemma format_line_marker_free (st : fstate) (line : string) :
  has_marker (strip line) = false ->
  formatted_lines (format_line st line)
  = match formatted_lines st with
    | [] => if is_empty (strip line) then [] else [strip line]
    | f :: fs => (f :: fs) ++ [strip line]
    end.
Proof.
  intros Hm. destruct (formatted_lines st) as [| f fs] eqn:Hf.
  - unfold format_line. rewrite Hf, Hm, strip_not_indented, andb_true_r.
    destruct (is_empty (strip line)); [exact Hf |].
    destruct (startswith "- " (strip line));
      [cbn; now rewrite Hf |].
    destruct (Re.re_match false numbered_item (strip line));
      [cbn; now rewrite Hf |].
    cbn [set_code set_numbered in_example].
    destruct (in_example st); cbn; now rewrite Hf.
  - rewrite <- Hf. apply format_line_plain; [now rewrite Hf | exact Hm].
Qed.

(** On lines without a marker the classifier trims every line and drops
    the empty ones at the start. *)
Lemma format_lines_marker_free (lines : list string) :
  forall st,
    formatted_lines st = [] ->
    Forall (fun l => has_marker (strip l) = false) lines ->
    formatted_lines (format_lines lines st) = drop_blank (map strip lines).
Proof.
  induction lines as [| l ls IH]; intros st Hst Hall; [exact Hst |].
  inversion Hall as [| ? ? Hl Hls]; subst.
  pose proof (format_line_marker_free st l Hl) as Hstep. rewrite Hst in Hstep.
  change (format_lines (l :: ls) st) with (format_lines ls (format_line st l)).
  cbn [map drop_blank]. destruct (is_empty (strip l)).
  - now apply IH.
  - destruct (format_lines_plain ls (format_line st l)) as [Hf _];
      [now rewrite Hstep | exact Hls |].
    now rewrite Hf, Hstep.
Qed.

Lemma drop_blank_keeps (P : string -> Prop) (lines : list string) :
  Forall P lines -> Forall P (drop_blank lines).
Proof.
  induction 1 as [| l ls Hl Hls IH]; [constructor |].
  cbn [drop_blank]. destruct (is_empty l); [exact IH | now constructor].
Qed.

Lemma drop_blank_idempotent (lines : list string) :
  drop_blank (drop_blank lines) = drop_blank lines.
Proof.
  induction lines as [| l ls IH]; [reflexivity |].
  cbn [drop_blank]. destruct (is_empty l) eqn:E; [exact IH |].
  cbn [drop_blank]. now rewrite E.
Qed.

Lemma map_fixed {A : Type} (f : A -> A) (l : list A) :
  Forall (fun x => f x = x) l -> map f l = l.
Proof.
  induction 1 as [| x xs Hx _ IH]; [reflexivity |].
  cbn [map]. now rewrite Hx, IH.
Qed.

(** A text that holds neither [Example:] nor [Usage:] formats to a text
    that formats to itself. *)
Theorem format_text_idempotent_without_markers (text : string) :
  has_marker text = false ->
  format_text (format_text text) = format_text text.
Proof.
  intros Hm.
  pose proof (marker_free_lines text Hm) as Hfree.
  assert (Hfirst : format_text text
                   = join (String nl EmptyString)
                       (drop_blank (map strip (split nl text)))).
  { unfold format_text.
    now rewrite (format_lines_marker_free _ fstate0 eq_refl Hfree). }
  set (L := drop_blank (map strip (split nl text))) in *.
  assert (HL : Forall (fun x => strip x = x /\ lacks nl x = true
                                /\ has_marker (strip x) = false) L).
  { apply drop_blank_keeps. apply Forall_forall. intros x Hx.
    apply in_map_iff in Hx as (l & <- & Hl).
    pose proof (lines_lack_separator nl text) as Hsep.
    rewrite Forall_forall in Hsep, Hfree.
    repeat split.
    - apply strip_idempotent.
    - apply strip_lacks. now apply Hsep.
    - rewrite strip_idempotent. now apply Hfree. }
  rewrite Hfirst. destruct L as [| x xs] eqn:EL; [reflexivity |].
  unfold format_text at 1.
  rewrite split_join;
    [| discriminate
     | eapply Forall_impl; [| exact HL]; now intros y (_ & Hy & _)].
  rewrite (format_lines_marker_free _ fstate0 eq_refl);
    [| eapply Forall_impl; [| exact HL]; now intros y (_ & _ & Hy)].
  rewrite map_fixed;
    [| eapply Forall_impl; [| exact HL]; now intros y (Hy & _)].
  rewrite <- EL. subst L. now rewrite drop_blank_idempotent.
Qed.

Lemma format_text_idempotent_witness :
  format_text
    (format_text (unlines [""; "  Loads a table.  "; ""; "1. first";
                           "- item "]))
  = format_text (unlines [""; "  Loads a table.  "; ""; "1. first";
                          "- item "]).
Proof. apply format_text_idempotent_without_markers. reflexivity. Defined.

(** *** Mappings with subsections *)

Section Features.

Variable py_repr : value -> string.

Lemma bullets_written (subs : list value) (pairs : list (value * value)) :
  Forall2 has_fields subs pairs ->
  forall acc : string,
    for_each subs acc
      (fun acc subsection =>
         title <- getitem subsection "title" ;;
         let acc := (acc ++ "- " ++ py_str py_repr title
                         ++ String nl EmptyString)%string in
         description <- getitem subsection "description" ;;
         Ok (acc ++ "  " ++ py_str py_repr description
                 ++ String nl EmptyString)%string)
    = Ok (acc ++ bullets py_repr pairs)%string.
Proof.
  induction 1 as [| sub [t d] subs pairs [Ht Hd] _ IH]; intros acc.
  - cbn [for_each bullets]. now rewrite append_nil_r.
  - cbn [for_each fst snd] in *. rewrite Ht. cbn [bind]. rewrite Hd.
    cbn [bind]. rewrite IH. cbn [bullets]. unfold bullet.
    now rewrite !append_assoc.
Qed.

(** A mapping with a main text and subsections that each have a title and
    a description is written as the trimmed main text and, for every
    subsection in order, a line [- title] and a line of two spaces and the
    description; the whole is trimmed. *)
Theorem format_content_writes_bullets
  (d : dict) (m : string) (subs : list value)
  (pairs : list (value * value)) :
  dict_get d "main_section" = Some (VStr m) ->
  dict_get d "subsections" = Some (VList subs) ->
  Forall2 has_fields subs pairs ->
  format_content py_repr (VDict d)
  = strip (strip m ++ String nl EmptyString ++ bullets py_repr pairs).
Proof.
  intros Hm Hs Hsubs. unfold format_content, dict_has, format_features.
  rewrite Hs, Hm. cbn [bind getitem]. rewrite Hs. cbn [bind iter].
  rewrite (bullets_written subs pairs Hsubs). cbn [bind].
  now rewrite append_assoc.
Qed.

Lemma for_each_raises {A S : Type} (body : S -> A -> result S)
  (bad : A) (l : list A) :
  In bad l ->
  (forall st, exists e, body st bad = Raise e) ->
  forall st, exists e, for_each l st body = Raise e.
Proof.
  intros Hin Hbad. induction l as [| x l IH]; intros st; [destruct Hin |].
  cbn [for_each]. destruct (body st x) as [st' |] eqn:E.
  - cbn [bind]. destruct Hin as [-> | Hin].
    + destruct (Hbad st) as [e He]. rewrite He in E. discriminate.
    + now apply IH.
  - cbn [bind]. now exists e.
Qed.

(** One subsection without a title or a description, or that is no
    mapping, and nothing of the mapping is formatted: the exception is
    caught and the result is [str] of the whole mapping, whatever the
    other subsections are. *)
Theorem format_content_falls_back_on_bad_subsection
  (d : dict) (subs : list value) (bad : value) :
  dict_get d "subsections" = Some (VList subs) ->
  In bad subs -> lacks_field bad ->
  format_content py_repr (VDict d) = py_repr (VDict d).
Proof.
  intros Hs Hin Hbad. unfold format_content, dict_has. rewrite Hs.
  assert (Hraise : exists e, format_features py_repr d = Raise e).
  { unfold format_features.
    destruct (match dict_get d "main_section" with
              | Some (VStr s) => Ok (strip s)
              | Some _ => Raise AttributeError
              | None => Ok EmptyString
              end) as [main |]; [| cbn [bind]; eauto].
    cbn [bind getitem]. rewrite Hs. cbn [bind iter].
    match goal with
    | |- context [for_each subs ?acc ?body] =>
        destruct (for_each_raises body bad subs Hin) with (st := acc)
          as [e He]
    end.
    - intros st. destruct Hbad as [[e He] | [e He]].
      + rewrite He. cbn [bind]. eauto.
      + destruct (getitem bad "title"); cbn [bind]; [| eauto].
        rewrite He. cbn [bind]. eauto.
    - rewrite He. cbn [bind]. eauto. }
  destruct Hraise as [e ->]. reflexivity.
Qed.

End Features.

Lemma format_content_bullets_witness :
  format_content no_repr
    (VDict [ ("main_section", VStr " Loading ");
             ("subsections",
              VList [ VDict [("title", VStr "Fast");
                             ("description", VStr "It is fast.")];
                      VDict [("description", VStr "No surprise.");
                             ("title", VStr "Safe")] ]) ])
  = strip (strip " Loading " ++ String nl EmptyString
           ++ bullets no_repr [ (VStr "Fast", VStr "It is fast.");
                                (VStr "Safe", VStr "No surprise.") ]).
Proof.
  apply (format_content_writes_bullets no_repr _ " Loading "
           [ VDict [("title", VStr "Fast");
                    ("description", VStr "It is fast.")];
             VDict [("description", VStr "No surprise.");
                    ("title", VStr "Safe")] ]);
    [reflexivity | reflexivity | repeat constructor].
Defined.

Lemma format_content_fallback_witness :
  format_content no_repr
    (VDict [ ("main_section", VStr "Loading");
             ("subsections",
              VList [ VDict [("title", VStr "Fast");
                             ("description", VStr "It is fast.")];
                      VDict [("title", VStr "Safe")] ]) ])
  = no_repr
      (VDict [ ("main_section", VStr "Loading");
               ("subsections",
                VList [ VDict [("title", VStr "Fast");
                               ("description", VStr "It is fast.")];
                        VDict [("title", VStr "Safe")] ]) ]).
Proof.
  apply (format_content_falls_back_on_bad_subsection no_repr _
           [ VDict [("title", VStr "Fast");
                    ("description", VStr "It is fast.")];
             VDict [("title", VStr "Safe")] ]
           (VDict [("title", VStr "Safe")])).
  - reflexivity.
  - right. left. reflexivity.
  - right. eexists. reflexivity.
Defined.

End FormatterMoreFacts.

(** ** More on the regular expressions *)

Module ReMoreFacts.

Import Py PyFacts Re DocGen App Notions MoreNotions MacroFacts TextFacts
       ReFacts ParameterFacts FormatterMoreFacts.

(** *** Repetitions, both ways *)

Section Splits.

Context {R : Type}.
Variable ok : ascii -> bool.

(** What a greedy repetition returns comes from one way of splitting the
    text after a run of the class. *)
Lemma greedy_rep_sound (s : string) :
  forall (acc : string) (k : string -> string -> option R) (r : R),
    greedy_rep ok acc s k = Some r ->
    exists run rest,
      s = (run ++ rest)%string /\ all_chars ok run = true
      /\ k (acc ++ run)%string rest = Some r.
Proof.
  induction s as [| c s IH]; intros acc k r H.
  - exists EmptyString, EmptyString. cbn in *. now rewrite append_nil_r.
  - cbn [greedy_rep] in H.
    assert (Hhere : k acc (String c s) = Some r ->
                    exists run rest,
                      String c s = (run ++ rest)%string
                      /\ all_chars ok run = true
                      /\ k (acc ++ run)%string rest = Some r).
    { intros Hk. exists EmptyString, (String c s).
      cbn. now rewrite append_nil_r. }
    destruct (ok c) eqn:Hc; [| now apply Hhere].
    destruct (greedy_rep ok (acc ++ String c EmptyString) s k) as [r' |] eqn:E;
      [| now apply Hhere].
    injection H as ->.
    destruct (IH _ _ _ E) as (run & rest & -> & Hall & Hk).
    exists (String c run), rest. cbn [append all_chars].
    rewrite Hc, Hall. rewrite append_assoc in Hk. now repeat split.
Qed.

(** Where some split lets the pattern go on, the repetition succeeds. *)
Lemma greedy_rep_complete (run : string) :
  forall (acc rest : string) (k : string -> string -> option R) (r : R),
    all_chars ok run = true ->
    k (acc ++ run)%string rest = Some r ->
    exists r', greedy_rep ok acc (run ++ rest)%string k = Some r'.
Proof.
  induction run as [| c run IH]; intros acc rest k r Hall Hk.
  - cbn [append] in *. rewrite append_nil_r in Hk.
    destruct rest as [| d rest]; cbn [greedy_rep]; [eauto |].
    destruct (ok d); [| eauto].
    destruct (greedy_rep ok _ rest k); eauto.
  - cbn [all_chars] in Hall. apply andb_prop in Hall as [Hc Hall].
    cbn [append greedy_rep]. rewrite Hc.
    destruct (IH (acc ++ String c EmptyString)%string rest k r Hall)
      as [r' Hr'].
    + now rewrite append_assoc.
    + rewrite Hr'. eauto.
Qed.

(** When the pattern cannot go on from a character of the class, the
    repetition stands or falls with the longest run. *)
Lemma greedy_rep_maximal (run : string) :
  forall (acc rest : string) (k : string -> string -> option R),
    all_chars ok run = true ->
    match rest with String c _ => ok c = false | EmptyString => True end ->
    (forall acc' c t, ok c = true -> k acc' (String c t) = None) ->
    greedy_rep ok acc (run ++ rest)%string k = k (acc ++ run)%string rest.
Proof.
  induction run as [| c run IH]; intros acc rest k Hall Hrest Hk.
  - cbn [append]. rewrite append_nil_r.
    destruct rest as [| d rest]; [reflexivity |].
    cbn [greedy_rep]. now rewrite Hrest.
  - cbn [all_chars] in Hall. apply andb_prop in Hall as [Hc Hall].
    cbn [append greedy_rep]. rewrite Hc.
    rewrite (IH _ rest k Hall Hrest Hk), append_assoc. cbn [append].
    destruct (k (acc ++ String c run)%string rest); [reflexivity |].
    now apply Hk.
Qed.

Lemma greedy1_maximal (c : ascii) (run rest : string)
  (k : string -> string -> option R) :
  all_chars ok (String c run) = true ->
  match rest with String d _ => ok d = false | EmptyString => True end ->
  (forall acc' d t, ok d = true -> k acc' (String d t) = None) ->
  greedy1 ok (String c run ++ rest)%string k = k (String c run) rest.
Proof.
  intros Hall Hrest Hk. cbn [all_chars] in Hall.
  apply andb_prop in Hall as [Hc Hall].
  cbn [append greedy1]. rewrite Hc.
  now rewrite (greedy_rep_maximal run _ rest k Hall Hrest Hk).
Qed.

Lemma greedy1_sound (s : string) (k : string -> string -> option R) (r : R) :
  greedy1 ok s k = Some r ->
  exists c run rest,
    s = (String c run ++ rest)%string /\ all_chars ok (String c run) = true
    /\ k (String c run) rest = Some r.
Proof.
  destruct s as [| c s]; [discriminate |]. cbn [greedy1].
  destruct (ok c) eqn:Hc; [| discriminate]. intros H.
  destruct (greedy_rep_sound s _ _ _ H) as (run & rest & -> & Hall & Hk).
  exists c, run, rest. cbn [all_chars append] in *. now rewrite Hc, Hall.
Qed.

Lemma greedy1_complete (c : ascii) (run rest : string)
  (k : string -> string -> option R) (r : R) :
  all_chars ok (String c run) = true ->
  k (String c run) rest = Some r ->
  exists r', greedy1 ok (String c run ++ rest)%string k = Some r'.
Proof.
  intros Hall Hk. cbn [all_chars] in Hall.
  apply andb_prop in Hall as [Hc Hall].
  cbn [append greedy1]. rewrite Hc.
  now apply (greedy_rep_complete run _ rest k r Hall).
Qed.

End Splits.

(** *** The calls [find_macro_calls] reports *)

Lemma length_append (a b : string) :
  String.length (a ++ b) = String.length a + String.length b.
Proof. induction a as [| c a IH]; simpl; [reflexivity | now rewrite IH]. Qed.

Lemma lstrip_decomposition (r : string) :
  exists sp, r = (sp ++ lstrip r)%string /\ all_chars is_space sp = true.
Proof.
  induction r as [| c r (sp & E & Hsp)].
  - now exists EmptyString.
  - cbn [lstrip]. destruct (is_space c) eqn:Hc.
    + exists (String c sp). cbn [append all_chars].
      now rewrite <- E, Hc, Hsp.
    + now exists EmptyString.
Qed.

Lemma word_run_is_word (t : string) : all_chars is_word (word_run t) = true.
Proof.
  induction t as [| c t IH]; [reflexivity |].
  cbn [word_run]. destruct (is_word c) eqn:Hc; [| reflexivity].
  cbn [all_chars]. now rewrite Hc, IH.
Qed.

(** The shape of a text in which a parenthesis follows the identifier. *)
Lemma paren_after_word_shape (t : string) :
  paren_after_word t = true ->
  exists sp rest,
    t = (word_run t ++ sp ++ String "("%char rest)%string
    /\ all_chars is_space sp = true.
Proof.
  induction t as [| c t IH]; intros H; [discriminate |].
  cbn [paren_after_word word_run] in *.
  destruct (is_word c) eqn:Hc.
  - destruct (IH H) as (sp & rest & E & Hsp).
    exists sp, rest. cbn [append]. now rewrite <- E.
  - destruct (lstrip_decomposition (String c t)) as (sp & E & Hsp).
    destruct (lstrip (String c t)) as [| d rest]; [discriminate |].
    apply Ascii.eqb_eq in H. subst d.
    exists sp, rest. cbn [append]. now split.
Qed.

Lemma not_space_head (sp rest : string) :
  all_chars is_space sp = true ->
  match (sp ++ String "("%char rest)%string with
  | String d _ => is_word d = false
  | EmptyString => True
  end.
Proof.
  destruct sp as [| c sp]; intros H; [reflexivity |].
  cbn [all_chars] in H. apply andb_prop in H as [Hc _].
  cbn [append]. now apply space_not_word.
Qed.

(** Where a call begins the pattern matches, from the percent sign to the
    parenthesis, and its group is the identifier. *)
Lemma call_match (p : ascii) (t : string) :
  call_at (String p t) = true ->
  exists sp rest,
    t = (word_run t ++ sp ++ String "("%char rest)%string
    /\ all_chars is_space sp = true
    /\ match_here true call_pattern (String p t)
       = Some ([word_run t], rest).
Proof.
  intros H. destruct t as [| c t0]; [discriminate |].
  cbn [call_at] in H. apply andb_prop in H as [H Hparen].
  apply andb_prop in H as [Hp Hc].
  destruct (paren_after_word_shape _ Hparen) as (sp & rest & E & Hsp).
  exists sp, rest. repeat split; [exact E | exact Hsp |].
  cbn [match_here call_pattern]. rewrite percent_is_percent, Hp.
  rewrite E at 1.
  assert (Hrun : exists w, word_run (String c t0) = String c w).
  { cbn [word_run]. rewrite Hc. eauto. }
  destruct Hrun as [w Hw]. rewrite Hw.
  apply greedy1_run.
  - rewrite <- Hw. apply word_run_is_word.
  - cbn [match_here].
    rewrite (greedy_rep_run (atom_ok true (Cls is_space)) sp EmptyString
               (String "("%char rest) _ ([], rest)); [reflexivity | | | ].
    + exact Hsp.
    + reflexivity.
    + reflexivity.
  - now apply not_space_head.
Qed.

Lemma match_needs_call (s : string) (r : list string * string) :
  match_here true call_pattern s = Some r -> call_at s = true.
Proof.
  intros H. destruct (call_at s) eqn:E; [reflexivity |].
  now rewrite (no_call_no_match s E) in H.
Qed.

Lemma word_not_percent (c : ascii) :
  is_word c = true -> negb (Ascii.eqb c "%"%char) = true.
Proof. each_ascii c. Qed.

Lemma space_not_percent (c : ascii) :
  is_space c = true -> negb (Ascii.eqb c "%"%char) = true.
Proof. each_ascii c. Qed.

Lemma all_chars_weaken (p q : ascii -> bool) (s : string) :
  (forall c, p c = true -> q c = true) ->
  all_chars p s = true -> all_chars q s = true.
Proof.
  intros Hpq. induction s as [| c s IH]; intros H; [reflexivity |].
  cbn [all_chars] in *. apply andb_prop in H as [Hc H].
  now rewrite (Hpq c Hc), (IH H).
Qed.

Lemma clear_for_app (a b : string) :
  all_chars (fun c => negb (Ascii.eqb c "%"%char)) a = true ->
  clear_for (String.length a) (a ++ b) = true.
Proof.
  induction a as [| c a IH]; intros H; [reflexivity |].
  cbn [all_chars] in H. apply andb_prop in H as [Hc H].
  cbn [String.length append clear_for]. now rewrite Hc, (IH H).
Qed.

(** Every element of the list comes from a match somewhere in the text. *)
Lemma findall_sound (ic : bool) (p : pattern) (s : string) :
  forall skip gs,
    In gs (findall_from ic p skip s) ->
    exists pre rest r,
      s = (pre ++ rest)%string /\ match_here ic p rest = Some (gs, r).
Proof.
  induction s as [| c s IH]; intros skip gs Hin.
  - destruct skip; [| destruct Hin]. cbn [findall_from] in Hin.
    destruct (match_here ic p EmptyString) as [[gs' r] |] eqn:E;
      [| destruct Hin].
    destruct Hin as [<- | []]. now exists EmptyString, EmptyString, r.
  - destruct skip as [| k]; cbn [findall_from] in Hin.
    + destruct (match_here ic p (String c s)) as [[gs' r] |] eqn:E.
      * destruct Hin as [<- | Hin].
        -- now exists EmptyString, (String c s), r.
        -- destruct (IH _ _ Hin) as (pre & rest & r' & -> & Hm).
           now exists (String c pre), rest, r'.
      * destruct (IH _ _ Hin) as (pre & rest & r' & -> & Hm).
        now exists (String c pre), rest, r'.
    + destruct (IH _ _ Hin) as (pre & rest & r' & -> & Hm).
      now exists (String c pre), rest, r'.
Qed.

(** Every call of the source is in the list: a match holds no percent sign
    after its first character, so no call begins inside another match. *)
Lemma findall_finds_calls (s : string) :
  forall skip,
    clear_for skip s = true ->
    forall pre rest n,
      s = (pre ++ rest)%string -> call_name_at rest = Some n ->
      In [n] (findall_from true call_pattern skip s).
Proof.
  induction s as [| c s IH]; intros skip Hclear pre rest n Hs Hn.
  - destruct pre; [| discriminate]. cbn [append] in Hs. now subst rest.
  - assert (Hhead : pre = EmptyString ->
                    call_at (String c s) = true /\ n = word_run s).
    { intros ->. cbn [append] in Hs. subst rest. cbn [call_name_at] in Hn.
      destruct (call_at (String c s)); [| discriminate].
      injection Hn as <-. now split. }
    destruct skip as [| k].
    + cbn [findall_from].
      destruct (match_here true call_pattern (String c s))
        as [[gs r] |] eqn:E.
      * pose proof (match_needs_call _ _ E) as Hcall.
        destruct (call_match c s Hcall) as (sp & r0 & Es & Hsp & Hm).
        rewrite Hm in E. injection E as <- <-.
        destruct pre as [| x pre].
        -- destruct (Hhead eq_refl) as [_ ->]. now left.
        -- right. cbn [append] in Hs. injection Hs as <- Hs.
           apply (IH _) with (pre := pre) (rest := rest); [| exact Hs | exact Hn].
           rewrite Es at 1 2.
           replace (String.length
                      (String c (word_run s ++ sp ++ String "(" r0))
                    - String.length r0 - 1)
             with (String.length (word_run s ++ sp ++ String "(" EmptyString)).
           ++ replace (word_run s ++ sp ++ String "(" r0)%string
                with ((word_run s ++ sp ++ String "(" EmptyString) ++ r0)%string
                by (now rewrite !append_assoc).
              apply clear_for_app. rewrite !all_chars_app.
              rewrite (all_chars_weaken is_word _ _ word_not_percent
                         (word_run_is_word s)).
              rewrite (all_chars_weaken is_space _ _ space_not_percent Hsp).
              reflexivity.
           ++ cbn [String.length]. rewrite !length_append.
              cbn [String.length]. lia.
      * destruct pre as [| x pre].
        -- destruct (Hhead eq_refl) as [Hcall _].
           destruct (call_match c s Hcall) as (? & ? & _ & _ & Hm).
           rewrite Hm in E. discriminate.
        -- cbn [append] in Hs. injection Hs as <- Hs.
           now apply (IH 0 eq_refl pre rest n).
    + cbn [clear_for] in Hclear. apply andb_prop in Hclear as [Hc Hclear].
      cbn [findall_from]. destruct pre as [| x pre].
      * destruct (Hhead eq_refl) as [Hcall _].
        destruct s as [| d s0]; [discriminate |].
        cbn [call_at] in Hcall.
        apply andb_prop in Hcall as [Hcall _].
        apply andb_prop in Hcall as [Hp _].
        rewrite Hp in Hc. discriminate.
      * cbn [append] in Hs. injection Hs as <- Hs.
        now apply (IH k Hclear pre rest n).
Qed.

Lemma reported_iff_called (sas_code n : string) :
  In n (map group1 (findall true call_pattern sas_code))
  <-> called sas_code n.
Proof.
  split.
  - intros Hin. apply in_map_iff in Hin as (gs & <- & Hin).
    destruct (findall_sound _ _ _ _ _ Hin) as (pre & rest & r & -> & Hm).
    exists pre, rest. split; [reflexivity |].
    pose proof (match_needs_call _ _ Hm) as Hcall.
    destruct rest as [| c t]; [discriminate |].
    destruct (call_match c t Hcall) as (? & ? & _ & _ & Hm').
    rewrite Hm' in Hm. injection Hm as <- _.
    cbn [call_name_at group1]. now rewrite Hcall.
  - intros (pre & rest & -> & Hn).
    change n with (group1 [n]). apply in_map.
    now apply (findall_finds_calls _ 0 eq_refl pre rest n).
Qed.

(** The result of [find_macro_calls] lists, once each and with a percent
    sign before it, the names of the macros the source calls, and no other
    name; it is empty when there is none. *)
Theorem find_macro_calls_lists_the_calls (o : set_order) (sas_code : string) :
  exists names : list string,
    NoDup names
    /\ (forall n, In n names <-> called sas_code n)
    /\ find_macro_calls o sas_code
       = match names with
         | [] => EmptyString
         | _ => join ", " (map with_percent names)
         end.
Proof.
  exists (enum o (map group1 (findall true call_pattern sas_code))).
  pose proof (enum_perm o (map group1 (findall true call_pattern sas_code)))
    as Hperm.
  split; [| split].
  - apply (Permutation_NoDup (Permutation_sym Hperm)). apply NoDup_nodup.
  - intros n. rewrite <- reported_iff_called. split; intros H.
    + apply (Permutation_in _ Hperm) in H. now apply nodup_In in H.
    + apply (Permutation_in _ (Permutation_sym Hperm)). now apply nodup_In.
  - reflexivity.
Qed.

Lemma joined_names_not_empty (x : string) (rest : list string) :
  join ", " (map with_percent (x :: rest)) <> EmptyString.
Proof. destruct rest; discriminate. Qed.

(** The result is empty exactly when the source calls no macro. *)
Theorem find_macro_calls_empty_iff_no_call
  (o : set_order) (sas_code : string) :
  find_macro_calls o sas_code = EmptyString
  <-> (forall n, ~ called sas_code n).
Proof.
  destruct (find_macro_calls_lists_the_calls o sas_code)
    as (names & _ & Hin & ->).
  destruct names as [| x rest]; split.
  - intros _ n Hn. now apply Hin in Hn.
  - reflexivity.
  - intros H. now elim (joined_names_not_empty x rest).
  - intros H. elim (H x). apply Hin. now left.
Qed.

(** *** The parameter list [extract_macro_parameters] works on *)

Section Lazy.

Context {R : Type}.
Variable ok : ascii -> bool.

(** A lazy repetition stops at the first place from which the pattern can
    go on. *)
Lemma lazy_rep_first (p : string) :
  forall (acc rest : string) (k : string -> string -> option R) (r : R),
    all_chars ok p = true ->
    (forall a b, p = (a ++ b)%string -> b <> EmptyString ->
                 k (acc ++ a)%string (b ++ rest)%string = None) ->
    k (acc ++ p)%string rest = Some r ->
    lazy_rep ok acc (p ++ rest)%string k = Some r.
Proof.
  induction p as [| c p IH]; intros acc rest k r Hall Hnone Hk.
  - cbn [append] in *. rewrite append_nil_r in Hk.
    destruct rest; cbn [lazy_rep]; now rewrite Hk.
  - cbn [all_chars] in Hall. apply andb_prop in Hall as [Hc Hall].
    cbn [append lazy_rep].
    pose proof (Hnone EmptyString (String c p) eq_refl) as H0.
    rewrite append_nil_r in H0. cbn [append] in H0.
    rewrite H0 by discriminate. rewrite Hc.
    apply IH; [exact Hall | | now rewrite append_assoc].
    intros a b -> Hb. rewrite append_assoc.
    now apply (Hnone (String c a) b).
Qed.

(** It fails where the pattern can go on from no place before a character
    outside the class. *)
Lemma lazy_rep_blocked (p : string) :
  forall (acc rest : string) (k : string -> string -> option R),
    (forall a b, p = (a ++ b)%string ->
                 k (acc ++ a)%string (b ++ rest)%string = None) ->
    match rest with String c _ => ok c = false | EmptyString => True end ->
    lazy_rep ok acc (p ++ rest)%string k = None.
Proof.
  induction p as [| c p IH]; intros acc rest k Hnone Hrest.
  - pose proof (Hnone EmptyString EmptyString eq_refl) as H0.
    rewrite append_nil_r in H0. cbn [append] in *.
    destruct rest as [| d rest]; cbn [lazy_rep]; rewrite H0;
      [reflexivity | now rewrite Hrest].
  - cbn [append lazy_rep].
    pose proof (Hnone EmptyString (String c p) eq_refl) as H0.
    rewrite append_nil_r in H0. cbn [append] in H0. rewrite H0.
    destruct (ok c); [| reflexivity].
    apply IH; [| exact Hrest].
    intros a b ->. rewrite append_assoc. now apply (Hnone (String c a) b).
Qed.

End Lazy.

(** The end [);] of the list does not begin inside a text that does not
    hold it, when no semicolon follows that text. *)
Lemma no_close_inside (p : string) :
  forall x a b,
    contains ");" p = false ->
    match x with String c _ => Ascii.eqb c ";"%char = false
            | EmptyString => True end ->
    p = (a ++ b)%string -> b <> EmptyString ->
    startswith ");" (b ++ x) = false.
Proof.
  intros x a b Hp Hx -> Hb.
  destruct b as [| c1 b]; [now elim Hb |].
  destruct (startswith ");" (String c1 b ++ x)) eqn:E; [| reflexivity].
  exfalso. cbn [append startswith] in E.
  apply andb_prop in E as [E1 E2].
  destruct b as [| c2 b].
  - cbn [append] in E2. destruct x as [| d x]; [discriminate |].
    rewrite andb_true_r in E2. apply Ascii.eqb_eq in E2. subst d.
    discriminate.
  - cbn [append] in E2. rewrite andb_true_r in E2.
    assert (Hin : contains ");" (String c1 (String c2 b)) = true).
    { cbn [contains startswith]. now rewrite E1, E2. }
    now rewrite (contains_app_r _ a _ Hin) in Hp.
Qed.

(** The end of the pattern, [\);], matches only where the text reads so. *)
Lemma close_needs_text (s : string) :
  startswith ");" s = false ->
  match_here true [One (Lit ")"%char); One (Lit ";"%char)] s = None.
Proof.
  destruct s as [| c1 [| c2 s]]; cbn [match_here startswith]; intros H.
  - reflexivity.
  - now destruct (atom_ok true (Lit ")"%char) c1).
  - rewrite andb_true_r in H.
    assert (H1 : atom_ok true (Lit ")"%char) c1 = Ascii.eqb ")" c1)
      by (clear; each_ascii c1).
    assert (H2 : atom_ok true (Lit ";"%char) c2 = Ascii.eqb ";" c2)
      by (clear; each_ascii c2).
    rewrite H1, H2.
    destruct (Ascii.eqb ")" c1); [| reflexivity].
    now destruct (Ascii.eqb ";" c2).
Qed.

Lemma word_blocks_paren (c : ascii) (t : string) (p : pattern) :
  is_word c = true ->
  match_here true (One (Lit "("%char) :: p) (String c t) = None.
Proof.
  intros Hc. cbn [match_here]. now rewrite (word_not_paren c Hc).
Qed.

Lemma space_blocks_word (c : ascii) (t : string) (p : pattern) :
  is_space c = true ->
  match_here true (Plus (Cls is_word) :: p) (String c t) = None.
Proof.
  intros Hc. cbn [match_here greedy1 atom_ok].
  now rewrite (space_not_word c Hc).
Qed.

(** After the keyword, white space and a name, the match is decided by
    what follows the name. *)
Lemma after_keyword_and_name (kw ws name x : string) :
  lower kw = "%macro" ->
  ws <> EmptyString -> all_chars is_space ws = true ->
  name <> EmptyString -> all_chars is_word name = true ->
  match x with String c _ => is_word c = false | EmptyString => True end ->
  match_here true macro_def_pattern (kw ++ ws ++ name ++ x)
  = match_here true
      [ One (Lit "("%char); GroupLazyStar (Cls is_dot); One (Lit ")"%char);
        One (Lit ";"%char) ] x.
Proof.
  intros Hkw Hws Hsp Hname Hw Hx.
  rewrite (keyword_consumed _ _ Hkw).
  destruct ws as [| sp ws]; [now elim Hws |].
  destruct name as [| d name]; [now elim Hname |].
  cbn [match_here].
  rewrite (greedy1_maximal (atom_ok true (Cls is_space)) sp ws);
    [| exact Hsp | | ].
  - rewrite (greedy1_maximal (atom_ok true (Cls is_word)) d name);
      [reflexivity | exact Hw | exact Hx |].
    intros acc' c t Hc. change (is_word c = true) in Hc.
    now rewrite (word_not_paren c Hc).
  - cbn [all_chars] in Hw. apply andb_prop in Hw as [Hd _].
    cbn [append]. now apply word_not_space.
  - intros acc' c t Hc. change (is_space c = true) in Hc.
    cbn [greedy1].
    change (atom_ok true (Cls is_word) c) with (is_word c).
    now rewrite (space_not_word c Hc).
Qed.

Lemma list_pattern_unfolded (x : string) :
  match_here true
    [ One (Lit "("%char); GroupLazyStar (Cls is_dot); One (Lit ")"%char);
      One (Lit ";"%char) ] (String "("%char x)
  = lazy_rep (atom_ok true (Cls is_dot)) EmptyString x
      (fun cap rest =>
         match
           match_here true [One (Lit ")"%char); One (Lit ";"%char)] rest
         with
         | Some (gs, r) => Some (cap :: gs, r)
         | None => None
         end).
Proof. reflexivity. Qed.

Lemma search_at_keyword (pre kw rest : string) :
  contains "%macro" (lower pre) = false ->
  lower kw = "%macro" ->
  search true macro_def_pattern (pre ++ kw ++ rest)
  = search true macro_def_pattern (kw ++ rest).
Proof.
  intros Hpre Hkw. destruct kw as [| c0 kw]; [discriminate |].
  cbn [lower] in Hkw. injection Hkw as H0 _.
  cbn [append]. now apply search_skips_prefix.
Qed.

(** The parameter list is the text between the parenthesis after the name
    and the first [);] on the same line: its entries are what
    [extract_macro_parameters] describes. *)
Theorem parameter_list_ends_at_first_close
  (pre kw ws name params post : string) :
  contains "%macro" (lower pre) = false ->
  lower kw = "%macro" ->
  ws <> EmptyString -> all_chars is_space ws = true ->
  name <> EmptyString -> all_chars is_word name = true ->
  all_chars is_dot params = true -> contains ");" params = false ->
  declared_params
    (pre ++ kw ++ ws ++ name ++ "(" ++ params ++ ");" ++ post)
  = split_params params.
Proof.
  intros Hpre Hkw Hws Hsp Hname Hw Hdot Hclose.
  unfold declared_params. rewrite (search_at_keyword _ _ _ Hpre Hkw).
  assert (Hhere :
            match_here true macro_def_pattern
              (kw ++ ws ++ name ++ "(" ++ params ++ ");" ++ post)
            = Some ([params], post)).
  { rewrite (after_keyword_and_name kw ws name _ Hkw Hws Hsp Hname Hw);
      [| reflexivity].
    change ("(" ++ params ++ ");" ++ post)%string
      with (String "("%char (params ++ ");" ++ post)).
    rewrite list_pattern_unfolded.
    apply lazy_rep_first; [exact Hdot | | reflexivity].
    intros a b E Hb. cbv beta.
    rewrite close_needs_text; [reflexivity |].
    apply (no_close_inside params (");" ++ post)%string a b Hclose);
      [reflexivity | exact E | exact Hb]. }
  destruct kw as [| c0 kw]; [discriminate |].
  cbn [append search] in *. now rewrite Hhere.
Qed.

Lemma parameter_list_witness :
  declared_params
    ("* header;" ++ "%Macro" ++ " " ++ "load"
       ++ "(" ++ "lib=work, out=%str(a), n" ++ ");" ++ " %mend;")
  = split_params "lib=work, out=%str(a), n".
Proof.
  apply (parameter_list_ends_at_first_close "* header;" "%Macro" " " "load"
           "lib=work, out=%str(a), n" " %mend;");
    try reflexivity; discriminate.
Defined.

Lemma search_without_keyword (s : string) :
  contains "%macro" (lower s) = false ->
  search true macro_def_pattern s = None.
Proof.
  induction s as [| c s IH]; intros H; [reflexivity |].
  cbn [lower contains] in H. apply orb_false_elim in H as [Hhere Hrest].
  cbn [search].
  destruct (match_here true macro_def_pattern (String c s)) as [r |] eqn:E.
  - apply def_match_starts_with_keyword in E. cbn [lower] in E.
    rewrite E in Hhere. discriminate.
  - now apply IH.
Qed.

(** A source in which the text [%macro] occurs in no letter case has no
    parameter, and no description is asked for. *)
Theorem no_keyword_no_parameters (chat : collaborator) (sas_code : string) :
  contains "%macro" (lower sas_code) = false ->
  extract_macro_parameters chat sas_code = [].
Proof.
  intros H. unfold extract_macro_parameters.
  now rewrite (search_without_keyword _ H).
Qed.

Lemma no_keyword_no_parameters_witness :
  extract_macro_parameters flaky "data a(keep=x); set b; run;" = [].
Proof. apply no_keyword_no_parameters. reflexivity. Defined.

Lemma not_dot_is_line_feed : is_dot nl = false.
Proof. reflexivity. Qed.

(** The pattern does not reach over the end of a line: a declaration whose
    parameter list goes on after a line feed is not matched. *)
Lemma list_over_two_lines_not_matched (kw ws name first rest : string) :
  lower kw = "%macro" ->
  ws <> EmptyString -> all_chars is_space ws = true ->
  name <> EmptyString -> all_chars is_word name = true ->
  contains ");" first = false ->
  match_here true macro_def_pattern
    (kw ++ ws ++ name ++ "(" ++ first ++ String nl rest)
  = None.
Proof.
  intros Hkw Hws Hsp Hname Hw Hclose.
  rewrite (after_keyword_and_name kw ws name _ Hkw Hws Hsp Hname Hw);
    [| reflexivity].
  change ("(" ++ first ++ String nl rest)%string
    with (String "("%char (first ++ String nl rest)).
  rewrite list_pattern_unfolded.
  apply lazy_rep_blocked; [| reflexivity].
  intros a b E. cbv beta. rewrite close_needs_text; [reflexivity |].
  destruct b as [| c b]; [reflexivity |].
  apply (no_close_inside first (String nl rest) a (String c b) Hclose);
    [reflexivity | exact E | discriminate].
Qed.

Lemma keyword_tail_holds_no_keyword (c0 : ascii) (kw after : string) :
  lower (String c0 kw) = "%macro" ->
  contains "%macro" (lower after) = false ->
  contains "%macro" (lower (kw ++ after)) = false.
Proof.
  intros Hkw Hafter.
  destruct kw as [| c1 [| c2 [| c3 [| c4 [| c5 [| c6 kw]]]]]];
    try discriminate.
  cbn [lower] in Hkw. injection Hkw as _ H1 H2 H3 H4 H5.
  cbn [append lower contains startswith]. rewrite H1, H2, H3, H4, H5.
  cbn [Ascii.eqb Bool.eqb andb orb]. exact Hafter.
Qed.

(** When the parameter list of the only declaration runs over the end of a
    line, no parameter is extracted at all. *)
Theorem parameters_over_two_lines_are_lost
  (chat : collaborator) (pre kw ws name first rest : string) :
  contains "%macro" (lower pre) = false ->
  lower kw = "%macro" ->
  ws <> EmptyString -> all_chars is_space ws = true ->
  name <> EmptyString -> all_chars is_word name = true ->
  contains ");" first = false ->
  contains "%macro"
    (lower (ws ++ name ++ "(" ++ first ++ String nl rest)) = false ->
  extract_macro_parameters chat
    (pre ++ kw ++ ws ++ name ++ "(" ++ first ++ String nl rest)
  = [].
Proof.
  intros Hpre Hkw Hws Hsp Hname Hw Hclose Hafter.
  unfold extract_macro_parameters.
  rewrite (search_at_keyword _ _ _ Hpre Hkw).
  pose proof (list_over_two_lines_not_matched kw ws name first rest
                Hkw Hws Hsp Hname Hw Hclose) as Hhere.
  destruct kw as [| c0 kw]; [discriminate |].
  cbn [append search] in *. rewrite Hhere.
  now rewrite (search_without_keyword _
                 (keyword_tail_holds_no_keyword c0 kw _ Hkw Hafter)).
Qed.

Lemma parameters_over_two_lines_witness :
  extract_macro_parameters flaky
    ("" ++ "%macro" ++ " " ++ "load" ++ "(" ++ "lib=work,"
        ++ String nl "  out=a); data a; run; %mend;")
  = [].
Proof.
  apply (parameters_over_two_lines_are_lost flaky "" "%macro" " " "load"
           "lib=work," "  out=a); data a; run; %mend;");
    try reflexivity; discriminate.
Defined.

End ReMoreFacts.

(** ** The macro name *)

Module NameFacts.

Import Py PyFacts Re DocGen App Notions Structure MoreNotions MacroFacts
       TextFacts ReFacts ParameterFacts FormatterMoreFacts ReMoreFacts.

(** *** Literals *)

Lemma lits_sound (w : string) :
  forall (p : pattern) (s : string) (r : list string * string),
    match_here true (lits w ++ p) s = Some r ->
    exists k s',
      s = (k ++ s')%string /\ lower k = lower w
      /\ match_here true p s' = Some r.
Proof.
  induction w as [| l w IH]; intros p s r H.
  - now exists EmptyString, s.
  - cbn [lits app] in H. destruct s as [| c s]; [discriminate |].
    rewrite match_one_literal in H.
    destruct (Ascii.eqb (lower_char l) (lower_char c)) eqn:E;
      [| discriminate].
    apply Ascii.eqb_eq in E.
    destruct (IH _ _ _ H) as (k & s' & -> & Hk & Hm).
    exists (String c k), s'. cbn [append lower]. now rewrite Hk, E.
Qed.

Lemma lits_complete (w : string) :
  forall (p : pattern) (k s' : string),
    lower k = lower w ->
    match_here true (lits w ++ p) (k ++ s') = match_here true p s'.
Proof.
  induction w as [| l w IH]; intros p k s' Hk.
  - destruct k; [reflexivity | discriminate].
  - destruct k as [| c k]; [discriminate |].
    cbn [lower] in Hk. injection Hk as Hc Hk.
    cbn [lits app append]. rewrite match_one_literal, Hc, Ascii.eqb_refl.
    now apply IH.
Qed.

Lemma name_match_needs_keyword (s : string) (r : list string * string) :
  match_here true macro_name_pattern s = Some r ->
  startswith "%macro" (lower s) = true.
Proof.
  intros H. destruct (lits_sound _ _ _ _ H) as (k & s' & -> & Hk & _).
  rewrite lower_app, Hk. now apply startswith_app.
Qed.

Lemma name_search_skips_prefix (pre : string) :
  forall (c0 : ascii) (rest : string),
    lower_char c0 = "%"%char ->
    contains "%macro" (lower pre) = false ->
    search true macro_name_pattern (pre ++ String c0 rest)
    = search true macro_name_pattern (String c0 rest).
Proof.
  induction pre as [| x1 x IH]; intros c0 rest Hc0 Hpre; [reflexivity |].
  cbn [lower contains] in Hpre. apply orb_false_elim in Hpre as [Hhere Hx].
  change (String x1 x ++ String c0 rest)%string
    with (String x1 (x ++ String c0 rest)).
  cbn [search].
  destruct (match_here true macro_name_pattern
              (String x1 (x ++ String c0 rest))) as [r |] eqn:Hm.
  - apply name_match_needs_keyword in Hm.
    apply (keyword_does_not_straddle x1 x rest c0 Hc0) in Hm.
    cbn [lower] in Hm. rewrite Hm in Hhere. discriminate.
  - now apply IH.
Qed.

(** *** What the search returns *)

(** The name is the identifier that follows the first [%macro], in any
    letter case, and the white space after it: the whole run of word
    characters. *)
Theorem macro_match_finds_the_name (pre kw ws name x : string) :
  contains "%macro" (lower pre) = false ->
  lower kw = "%macro" ->
  ws <> EmptyString -> all_chars is_space ws = true ->
  name <> EmptyString -> all_chars is_word name = true ->
  match x with String c _ => is_word c = false | EmptyString => True end ->
  macro_match (pre ++ kw ++ ws ++ name ++ x) = Some name.
Proof.
  intros Hpre Hkw Hws Hsp Hname Hw Hx.
  assert (Hhere : match_here true macro_name_pattern (kw ++ ws ++ name ++ x)
                  = Some ([name], x)).
  { unfold macro_name_pattern. rewrite (lits_complete "%macro" _ kw _ Hkw).
    destruct ws as [| sp ws]; [now elim Hws |].
    destruct name as [| d name]; [now elim Hname |].
    cbn [match_here].
    rewrite (greedy1_maximal (atom_ok true (Cls is_space)) sp ws);
      [| exact Hsp | | ].
    - now apply greedy1_run.
    - cbn [all_chars] in Hw. apply andb_prop in Hw as [Hd _].
      cbn [append]. now apply word_not_space.
    - intros acc' c t Hc. change (is_space c = true) in Hc.
      cbn [greedy1].
      change (atom_ok true (Cls is_word) c) with (is_word c).
      now rewrite (space_not_word c Hc). }
  unfold macro_match. destruct kw as [| c0 kw]; [discriminate |].
  cbn [lower] in Hkw. injection Hkw as H0 _.
  cbn [append] in *. rewrite (name_search_skips_prefix pre c0 _ H0 Hpre).
  cbn [search]. now rewrite Hhere.
Qed.

Lemma macro_match_witness :
  macro_match ("/* doc */ " ++ "%MACRO" ++ "  " ++ "load_2" ++ "(lib=);")
  = Some "load_2".
Proof.
  apply (macro_match_finds_the_name "/* doc */ " "%MACRO" "  " "load_2"
           "(lib=);"); try reflexivity; discriminate.
Defined.

(** Where the declaration with its parameter list matches, the name
    matches. *)
Lemma declaration_match_gives_name_match (s : string)
  (r : list string * string) :
  match_here true macro_def_pattern s = Some r ->
  exists r', match_here true macro_name_pattern s = Some r'.
Proof.
  intros H. unfold macro_def_pattern in H.
  destruct (lits_sound _ _ _ _ H) as (k & s' & -> & Hk & Hm).
  unfold macro_name_pattern. rewrite (lits_complete "%macro" _ k _ Hk).
  cbn [match_here] in Hm.
  destruct (greedy1_sound _ _ _ _ Hm) as (c & run & rest & -> & Hsp & Hm2).
  destruct (greedy1_sound _ _ _ _ Hm2) as (d & run2 & rest2 & -> & Hw & _).
  cbn [match_here].
  destruct (greedy1_complete (atom_ok true (Cls is_word)) d run2 rest2
              (fun cap rest =>
                 match match_here true [] rest with
                 | Some (gs, r0) => Some (cap :: gs, r0)
                 | None => None
                 end) ([String d run2], rest2) Hw eq_refl) as [r1 Hr1].
  eapply greedy1_complete; [exact Hsp | exact Hr1].
Qed.

Lemma search_declaration_gives_name (s : string) :
  search true macro_name_pattern s = None ->
  search true macro_def_pattern s = None.
Proof.
  induction s as [| c s IH]; intros H.
  - cbn [search] in *.
    destruct (match_here true macro_def_pattern EmptyString) eqn:E;
      [| reflexivity].
    destruct (declaration_match_gives_name_match _ _ E) as [r' Hr'].
    rewrite Hr' in H. now destruct r'.
  - cbn [search] in *.
    destruct (match_here true macro_name_pattern (String c s))
      as [[gs r'] |] eqn:En; [discriminate |].
    destruct (match_here true macro_def_pattern (String c s)) eqn:E.
    + destruct (declaration_match_gives_name_match _ _ E) as [r' Hr'].
      rewrite Hr' in En. discriminate.
    + now apply IH.
Qed.

(** A source in which no macro name is found has no parameter: whenever
    [extract_macro_parameters] returns a descriptor, the search for the
    name succeeds. *)
Theorem no_macro_name_no_parameters
  (chat : collaborator) (sas_code : string) :
  macro_match sas_code = None ->
  extract_macro_parameters chat sas_code = [].
Proof.
  unfold macro_match, extract_macro_parameters. intros H.
  destruct (search true macro_name_pattern sas_code) eqn:E; [discriminate |].
  now rewrite (search_declaration_gives_name _ E).
Qed.

Lemma no_macro_name_witness :
  extract_macro_parameters flaky "%macro (a=1); %mend;" = [].
Proof. apply no_macro_name_no_parameters. reflexivity. Defined.

End NameFacts.

(** ** analyze_macro_structure *)

Module StructureFacts.

Import Py PyFacts Re DocGen App Notions Structure MoreNotions MacroFacts
       TextFacts ReFacts ParameterFacts FormatterMoreFacts ReMoreFacts.

(** *** Literals and the two patterns *)

Lemma xone_literal (l c : ascii) (p : list xitem) (t : string) :
  xmatch_here (XOne (Lit l) :: p) (String c t)
  = if Ascii.eqb l c then xmatch_here p t else None.
Proof. reflexivity. Qed.

Lemma xlits_sound (w : string) :
  forall (p : list xitem) (s r : string),
    xmatch_here (xlits w ++ p) s = Some r ->
    exists s', s = (w ++ s')%string /\ xmatch_here p s' = Some r.
Proof.
  induction w as [| l w IH]; intros p s r H.
  - now exists s.
  - cbn [xlits app] in H. destruct s as [| c s]; [discriminate |].
    rewrite xone_literal in H.
    destruct (Ascii.eqb l c) eqn:E; [| discriminate].
    apply Ascii.eqb_eq in E. subst c.
    destruct (IH _ _ _ H) as (s' & -> & Hm). now exists s'.
Qed.

Lemma xlits_complete (w : string) :
  forall (p : list xitem) (s' : string),
    xmatch_here (xlits w ++ p) (w ++ s') = xmatch_here p s'.
Proof.
  induction w as [| l w IH]; intros p s'; [reflexivity |].
  cbn [xlits app append]. rewrite xone_literal, Ascii.eqb_refl. apply IH.
Qed.

Lemma starts_gives_contains (w s : string) :
  startswith w s = true -> contains w s = true.
Proof. intros H. destruct s; cbn [contains]; now rewrite H. Qed.

(** A step is matched only where the text holds its keyword. *)
Lemma step_match_holds_keyword (w : string) (p : list xitem) (s r : string) :
  xmatch_here (XStar (Cls is_space) :: xlits w ++ p) s = Some r ->
  contains w s = true.
Proof.
  cbn [xmatch_here]. intros H.
  destruct (greedy_rep_sound _ _ _ _ _ H) as (run & rest & -> & _ & Hk).
  destruct (xlits_sound _ _ _ _ Hk) as (s' & -> & _).
  apply contains_app_r, contains_app_l, starts_gives_contains.
  clear. induction w as [| c w IH]; [reflexivity |].
  cbn [startswith]. now rewrite Ascii.eqb_refl, IH.
Qed.

Lemma count_zero (w : string) (p : list xitem) (s : string) :
  (forall t r, xmatch_here p t = Some r -> contains w t = true) ->
  contains w s = false ->
  forall at_bol skip, count_from p at_bol skip s = 0.
Proof.
  intros Hp. induction s as [| c s IH]; intros Hs at_bol skip.
  - destruct skip; [| reflexivity]. cbn [count_from].
    destruct at_bol; [| reflexivity].
    destruct (xmatch_here p EmptyString) eqn:E; [| reflexivity].
    now rewrite (Hp _ _ E) in Hs.
  - assert (Hs' : contains w s = false).
    { cbn [contains] in Hs. now apply orb_false_elim in Hs as [_ Hs]. }
    destruct skip as [| k]; cbn [count_from]; [| now apply IH].
    destruct (if at_bol then xmatch_here p (String c s) else None) eqn:E.
    + destruct at_bol; [| discriminate]. now rewrite (Hp _ _ E) in Hs.
    + now apply IH.
Qed.

(** A source that holds neither the word [data] nor the word [proc], in
    any letter case, has no step. *)
Theorem no_step_keyword_no_step (macro_code : string) :
  contains "data" (lower macro_code) = false ->
  contains "proc" (lower macro_code) = false ->
  analyze_macro_structure macro_code = mk_structure false 0 0.
Proof.
  intros Hd Hp. unfold analyze_macro_structure, count_matches.
  rewrite (count_zero "data" data_pattern _
             (step_match_holds_keyword "data" _) Hd).
  now rewrite (count_zero "proc" proc_pattern _
                 (step_match_holds_keyword "proc" _) Hp).
Qed.

Lemma no_step_keyword_witness :
  analyze_macro_structure "%macro m; %put hello; %mend;"
  = mk_structure false 0 0.
Proof. apply no_step_keyword_no_step; reflexivity. Defined.

(** *** Never more steps than lines *)

Lemma length_split_cons (c : ascii) (s : string) :
  List.length (split nl (String c s))
  = (if Ascii.eqb c nl then 1 else 0) + List.length (split nl s).
Proof.
  cbn [split]. destruct (Ascii.eqb c nl); [reflexivity |].
  destruct (split nl s) eqn:E; [| reflexivity].
  now elim (split_not_nil nl s).
Qed.

Lemma count_from_bound (p : list xitem) (s : string) :
  forall at_bol skip,
    count_from p at_bol skip s + 1
    <= (if at_bol then 1 else 0) + List.length (split nl s).
Proof.
  induction s as [| c s IH]; intros at_bol skip.
  - destruct skip; cbn [count_from split List.length]; [| lia].
    destruct at_bol; [| lia].
    destruct (xmatch_here p EmptyString); lia.
  - rewrite length_split_cons.
    destruct skip as [| k]; cbn [count_from].
    + destruct (if at_bol then xmatch_here p (String c s) else None) eqn:E.
      * destruct at_bol; [| discriminate].
        specialize (IH (Ascii.eqb c nl)
                       (String.length (String c s) - String.length s0 - 1)).
        destruct (Ascii.eqb c nl); lia.
      * specialize (IH (Ascii.eqb c nl) 0).
        destruct (Ascii.eqb c nl), at_bol; lia.
    + specialize (IH (Ascii.eqb c nl) k).
      destruct (Ascii.eqb c nl), at_bol; lia.
Qed.

Lemma lower_keeps_line_feed (c : ascii) :
  Ascii.eqb (lower_char c) nl = Ascii.eqb c nl.
Proof. each_ascii c. Qed.

Lemma lower_keeps_lines (s : string) :
  List.length (split nl (lower s)) = List.length (split nl s).
Proof.
  induction s as [| c s IH]; [reflexivity |].
  cbn [lower]. now rewrite !length_split_cons, lower_keeps_line_feed, IH.
Qed.

(** Each count is at most the number of lines of the source: a step is
    counted only where a line begins, and at most once there. *)
Theorem steps_at_most_lines (macro_code : string) :
  data_steps (analyze_macro_structure macro_code)
  <= List.length (split nl macro_code)
  /\ proc_steps (analyze_macro_structure macro_code)
     <= List.length (split nl macro_code).
Proof.
  unfold analyze_macro_structure, count_matches. cbn [data_steps proc_steps].
  pose proof (count_from_bound data_pattern (lower macro_code) true 0) as Hd.
  pose proof (count_from_bound proc_pattern (lower macro_code) true 0) as Hp.
  rewrite lower_keeps_lines in Hd, Hp. lia.
Qed.

(** *** The guard against [_null_] *)

Lemma space_is_lower (c : ascii) : is_space c = true -> lower_char c = c.
Proof. each_ascii c. Qed.

Lemma spaces_are_lower (s : string) :
  all_chars is_space s = true -> lower s = s.
Proof.
  induction s as [| c s IH]; [reflexivity |]. cbn [all_chars lower].
  intros H. apply andb_prop in H as [Hc Hs].
  now rewrite (space_is_lower c Hc), (IH Hs).
Qed.

Lemma space_not_d (c : ascii) : is_space c = true -> Ascii.eqb "d" c = false.
Proof. each_ascii c. Qed.

Lemma space_not_underscore (c : ascii) :
  is_space c = true -> Ascii.eqb "_" c = false.
Proof. each_ascii c. Qed.

Lemma data_after_indent (indent rest : string) :
  all_chars is_space indent = true ->
  xmatch_here data_pattern (indent ++ "data" ++ rest)
  = xmatch_here [XPlus (Cls is_space); XNotAhead "_null_"] rest.
Proof.
  intros Hi. unfold data_pattern.
  change (xmatch_here (XStar (Cls is_space) :: ?p) ?s)
    with (greedy_rep is_space EmptyString s
            (fun _ rest => xmatch_here p rest)).
  rewrite greedy_rep_maximal; [| assumption | reflexivity |].
  - apply (xlits_complete "data").
  - intros _ c t Hc. cbn [xlits app]. rewrite xone_literal.
    now rewrite (space_not_d c Hc).
Qed.

(** The guard [(?!_null_)] is tried again after the white space gives one
    character back: [data] followed by two or more white-space characters
    is counted as a data step whatever comes next, also [_null_]. *)
Theorem data_step_with_wide_gap_is_counted
  (indent kw : string) (a b : ascii) (rest : string) :
  all_chars is_space indent = true ->
  lower kw = "data" ->
  is_space a = true -> is_space b = true ->
  let s := analyze_macro_structure
             (indent ++ kw ++ String a (String b rest)) in
  has_data_proc s = true /\ 1 <= data_steps s.
Proof.
  intros Hi Hk Ha Hb.
  assert (H : 1 <= data_steps (analyze_macro_structure
                     (indent ++ kw ++ String a (String b rest)))).
  { unfold analyze_macro_structure, count_matches. cbn [data_steps].
    rewrite !lower_app, Hk, (spaces_are_lower indent Hi). cbn [lower].
    rewrite (space_is_lower a Ha), (space_is_lower b Hb).
    assert (Hm : exists r,
               xmatch_here data_pattern
                 (indent ++ "data" ++ String a (String b (lower rest)))
               = Some r).
    { rewrite (data_after_indent indent _ Hi). cbn [xmatch_here].
      apply (greedy1_complete is_space a EmptyString
               (String b (lower rest)) _ (String b (lower rest))).
      - cbn [all_chars]. now rewrite Ha.
      - cbn [startswith]. now rewrite (space_not_underscore b Hb). }
    destruct Hm as [r Hm].
    destruct (indent ++ "data" ++ String a (String b (lower rest)))%string
      eqn:E; cbn [count_from]; rewrite Hm; lia. }
  split; [| exact H].
  unfold analyze_macro_structure in *. cbn [has_data_proc data_steps] in *.
  apply Nat.ltb_lt. lia.
Qed.

Lemma data_step_with_wide_gap_witness :
  let s := analyze_macro_structure "  DATA  _null_; run;" in
  has_data_proc s = true /\ 1 <= data_steps s.
Proof.
  apply (data_step_with_wide_gap_is_counted "  " "DATA" " " " " "_null_; run;");
    reflexivity.
Defined.

Lemma count_from_skip (p : list xitem) (b : bool) (k : nat) (c : ascii)
  (s : string) :
  count_from p b (S k) (String c s) = count_from p (Ascii.eqb c nl) k s.
Proof. reflexivity. Qed.

Lemma count_from_miss (p : list xitem) (b : bool) (c : ascii) (s : string) :
  xmatch_here p (String c s) = None ->
  count_from p b 0 (String c s) = count_from p (Ascii.eqb c nl) 0 s.
Proof.
  intros H. change (count_from p b 0 (String c s))
    with (match (if b then xmatch_here p (String c s) else None) with
          | Some rest =>
              S (count_from p (Ascii.eqb c nl)
                   (String.length (String c s) - String.length rest - 1) s)
          | None => count_from p (Ascii.eqb c nl) 0 s
          end).
  rewrite H. now destruct b.
Qed.

Lemma count_after_indent (indent tail : string) :
  all_chars is_space indent = true ->
  (forall i, all_chars is_space i = true ->
             xmatch_here data_pattern (i ++ "data" ++ tail) = None) ->
  contains "data" ("ata" ++ tail) = false ->
  forall at_bol skip,
    count_from data_pattern at_bol skip (indent ++ "data" ++ tail) = 0.
Proof.
  intros Hi Hnone Htail.
  induction indent as [| c indent IH]; intros at_bol skip.
  - change (("" ++ "data" ++ tail)%string)
      with (String "d" ("ata" ++ tail)).
    destruct skip as [| k].
    + rewrite count_from_miss by exact (Hnone EmptyString eq_refl).
      apply (count_zero "data" data_pattern _
               (step_match_holds_keyword "data" _) Htail).
    + rewrite count_from_skip.
      apply (count_zero "data" data_pattern _
               (step_match_holds_keyword "data" _) Htail).
  - assert (Hn := Hnone (String c indent) Hi).
    cbn [all_chars] in Hi. apply andb_prop in Hi as [Hc Hi].
    change ((String c indent ++ "data" ++ tail)%string)
      with (String c (indent ++ "data" ++ tail)) in *.
    destruct skip as [| k].
    + rewrite count_from_miss by exact Hn. now apply IH.
    + rewrite count_from_skip. now apply IH.
Qed.

(** With exactly one white-space character between [data] and [_null_]
    the guard holds: a source that begins with such a line and holds the
    word [data] nowhere else has no data step. *)
Theorem data_null_step_is_not_counted
  (indent kw : string) (a : ascii) (nullw rest : string) :
  all_chars is_space indent = true ->
  lower kw = "data" ->
  is_space a = true ->
  lower nullw = "_null_" ->
  contains "data" (lower rest) = false ->
  data_steps (analyze_macro_structure
                (indent ++ kw ++ String a (nullw ++ rest))) = 0.
Proof.
  intros Hi Hk Ha Hn Hrest.
  unfold analyze_macro_structure, count_matches. cbn [data_steps].
  rewrite !lower_app, Hk, (spaces_are_lower indent Hi). cbn [lower].
  rewrite lower_app, Hn, (space_is_lower a Ha).
  apply count_after_indent; [assumption | |].
  - intros i Hsp. rewrite (data_after_indent i _ Hsp).
    cbn [xmatch_here greedy1 append greedy_rep].
    change (atom_ok false (Cls is_space) a) with (is_space a). rewrite Ha.
    change (atom_ok false (Cls is_space) "_") with false.
    reflexivity.
  - cbn [append contains startswith].
    rewrite (space_not_d a Ha).
    change (Ascii.eqb "d" "a") with false.
    change (Ascii.eqb "d" "t") with false.
    change (Ascii.eqb "d" "_") with false.
    change (Ascii.eqb "d" "n") with false.
    change (Ascii.eqb "d" "u") with false.
    change (Ascii.eqb "d" "l") with false.
    cbn [orb andb]. exact Hrest.
Qed.

Lemma data_null_step_witness :
  data_steps (analyze_macro_structure "Data _NULL_; put 'x'; run;") = 0.
Proof.
  apply (data_null_step_is_not_counted "" "Data" " " "_NULL_"
           "; put 'x'; run;"); reflexivity.
Defined.

End StructureFacts.

(** ** More on the renderers *)

Module RendererMoreFacts.

Import Py PyVal DocGen App Notions RendererFacts.

Lemma concat_results_all {A : Type} (P : A -> Prop)
  (l : list (result (list A))) :
  Forall (fun r => forall x, r = Ok x -> Forall P x) l ->
  forall xs, concat_results l = Ok xs -> Forall P xs.
Proof.
  induction 1 as [| r l Hr _ IH]; cbn [concat_results bind]; intros xs H.
  - injection H as <-. constructor.
  - destruct r as [x | e]; [| discriminate].
    destruct (concat_results l) as [ys | e]; [| discriminate].
    injection H as <-. apply Forall_app. split; [now apply Hr | now apply IH].
Qed.

Lemma concat_results_in {A : Type} (l : list (result (list A)))
  (xs x : list A) (a : A) :
  concat_results l = Ok xs -> In (Ok x) l -> In a x -> In a xs.
Proof.
  revert xs. induction l as [| r l IH]; intros xs H Hin Ha; [easy |].
  cbn [concat_results bind] in H.
  destruct r as [y | e]; [| discriminate].
  destruct (concat_results l) as [ys | e]; [| discriminate].
  injection H as <-. apply in_or_app.
  destruct Hin as [Hin | Hin].
  - injection Hin as ->. now left.
  - right. now apply IH.
Qed.

(** A run of sections gives a result only when each section does. *)
Lemma concat_results_each {A : Type} (l : list (result (list A)))
  (xs : list A) (e : exn) :
  concat_results l = Ok xs -> ~ In (Raise e) l.
Proof.
  revert xs. induction l as [| r l IH]; intros xs H Hin; [easy |].
  cbn [concat_results bind] in H.
  destruct r as [y | e']; [| discriminate].
  destruct (concat_results l) as [ys | e']; [| discriminate].
  destruct Hin as [Hin | Hin]; [discriminate |].
  now apply (IH ys eq_refl).
Qed.

Section Produced.

Variable py_repr : value -> string.

(** *** The headings of a document *)

(** A PDF, a presentation or an editable document that is produced has a
    heading for every populated section and for no other, in the fixed
    order of the sections; the editable document looks the sections up by
    their normalised names. *)
Theorem produced_documents_carry_the_populated_headings
  (content : dict) (macro_name : value) :
  (forall doc,
      _create_pdf py_repr content macro_name = Ok doc ->
      headings doc = filter (is_populated content) SECTION_ORDER)
  /\ (forall doc,
         create_presentation py_repr content = Ok doc ->
         headings doc = filter (is_populated content) SECTION_ORDER)
  /\ (forall doc,
         _create_rtf py_repr content macro_name = Ok doc ->
         headings doc = filter (is_populated_rtf content) SECTION_ORDER).
Proof.
  split; [| split]; intros doc H.
  - exact (pdf_headings _ _ _ _ H).
  - exact (presentation_headings _ _ _ H).
  - exact (rtf_headings _ _ _ _ H).
Qed.

(** *** A parameters value that is no mapping *)

Lemma slide_text_no_grid (content : dict) (section : string)
  (els : list elem) :
  String.eqb section "Parameters" = false ->
  presentation_slide py_repr content section = Ok els ->
  Forall (fun e => forall g, e <> Grid g) els.
Proof.
  intros Hs. unfold presentation_slide. rewrite Hs.
  destruct (populated content section); intros H; injection H as <-;
    repeat constructor; discriminate.
Qed.

(** With a parameters value that is true but no mapping, such as a text,
    no PDF is produced, and a presentation that is produced has the
    Parameters slide with its title, and no slide with a table. *)
Theorem parameters_that_are_no_mapping
  (content : dict) (macro_name v : value) :
  dict_get content "Parameters" = Some v ->
  truthy v = true ->
  (forall d, v <> VDict d) ->
  (forall doc, _create_pdf py_repr content macro_name <> Ok doc)
  /\ (forall doc,
         create_presentation py_repr content = Ok doc ->
         In (Heading "Parameters") doc /\ forall g, ~ In (Grid g) doc).
Proof.
  intros Hget Htrue Hno.
  assert (Hpop : populated content "Parameters" = Some v)
    by (unfold populated; now rewrite Hget, Htrue).
  split.
  - intros doc H. unfold _create_pdf in H.
    destruct (concat_results _) as [story |] eqn:Hs; [| discriminate].
    apply (concat_results_each _ _ TypeError Hs).
    assert (Hp : pdf_section py_repr content "Parameters" = Raise TypeError).
    { unfold pdf_section. rewrite Hpop.
      destruct v; try reflexivity. now elim (Hno d). }
    rewrite <- Hp. apply in_map. unfold SECTION_ORDER.
    right. right. now left.
  - intros doc H. unfold create_presentation in H.
    destruct (concat_results _) as [story |] eqn:Hs; [| discriminate].
    cbn [bind] in H. injection H as <-.
    assert (Hp : presentation_slide py_repr content "Parameters"
                 = Ok [Heading "Parameters"]).
    { unfold presentation_slide. rewrite Hpop.
      destruct v; try reflexivity. now elim (Hno d). }
    assert (Hgrid : Forall (fun e => forall g, e <> Grid g) story).
    { refine (concat_results_all _ _ _ story Hs).
      unfold SECTION_ORDER. cbn [map].
      repeat (constructor;
              [first [ intros x Hx; eapply slide_text_no_grid; [| exact Hx];
                       reflexivity
                     | intros x Hx; rewrite Hp in Hx; injection Hx as <-;
                       repeat constructor; discriminate ] |]).
      constructor. }
    assert (Hin : In (Heading "Parameters") story).
    { apply (concat_results_in _ _ [Heading "Parameters"] _ Hs);
        [| now left].
      rewrite <- Hp. apply in_map. unfold SECTION_ORDER.
      right. right. now left. }
    split.
    + right. right. exact Hin.
    + intros g [Hg | [Hg | Hg]]; try discriminate.
      rewrite Forall_forall in Hgrid. exact (Hgrid _ Hg g eq_refl).
Qed.

(** *** The title *)

Lemma strip_of_empty (n : string) :
  is_empty (strip n) = false -> is_empty n = false.
Proof. now destruct n. Qed.

(** For a macro name that is a text with something other than white
    space, [create_manual] either gives a document that begins with the
    title made of that name, in every format, or raises an exception whose
    message begins with the words of [create_manual]. *)
Theorem create_manual_title_or_wrapped_error
  (n output_format : string) (content : dict) :
  is_empty (strip n) = false ->
  match
    fst (create_manual py_repr Mapping output_format (VStr n) content)
  with
  | Ok doc => exists rest, doc = Title (n ++ " User Manual") :: rest
  | Raise e => exists cause, e = Wrapped "Failed to generate document: " cause
  end.
Proof.
  intros Hn. pose proof (strip_of_empty n Hn) as Hn'.
  unfold create_manual, rewrap, pbind, store, reading.
  destruct (String.eqb output_format "pdf").
  { unfold _create_pdf, title_text. cbn [truthy py_str]. rewrite Hn'.
    destruct (concat_results _); cbn; eauto. }
  destruct (String.eqb output_format "pptx").
  { unfold create_presentation. rewrite dict_get_set_same.
    cbn [truthy py_str]. rewrite Hn', Hn.
    destruct (concat_results _); cbn; eauto. }
  destruct (String.eqb output_format "html").
  { destruct (_create_html _ _ _) as [doc |] eqn:E; cbn; [| eauto].
    unfold _create_html in E.
    repeat match type of E with
           | bind ?m _ = Ok _ => destruct m; cbn [bind] in E; [| discriminate]
           end.
    injection E as <-. cbn [py_str app]. eauto. }
  unfold _create_rtf, title_text. cbn [truthy py_str]. rewrite Hn'.
  destruct (concat_results _); cbn; eauto.
Qed.

(** A name of white space only is kept by the PDF, which tests the name
    alone, and dropped by the slides, which test the name stripped. *)
Theorem blank_macro_name_titles (n : string) (content : dict) :
  is_empty n = false ->
  is_empty (strip n) = true ->
  match fst (create_manual py_repr Mapping "pdf" (VStr n) content) with
  | Ok doc => exists rest, doc = Title (n ++ " User Manual") :: rest
  | Raise _ => True
  end
  /\ match fst (create_manual py_repr Mapping "pptx" (VStr n) content) with
     | Ok doc => exists rest, doc = Title "SAS Macro Documentation" :: rest
     | Raise _ => True
     end.
Proof.
  intros Hn Hs.
  unfold create_manual, rewrap, pbind, store, reading.
  cbn [String.eqb Ascii.eqb Bool.eqb]. split.
  - unfold _create_pdf, title_text. cbn [truthy py_str]. rewrite Hn.
    destruct (concat_results _); cbn; eauto.
  - unfold create_presentation. rewrite dict_get_set_same.
    cbn [truthy py_str]. rewrite Hn, Hs.
    destruct (concat_results _); cbn; eauto.
Qed.

End Produced.

Lemma produced_documents_witness :
  headings
    [ Title "load User Manual"; Heading "Overview"; Normal "Loads a table.";
      Spacer; Heading "Summary"; Normal "It loads."; Spacer ]
  = filter (is_populated overview_and_summary) SECTION_ORDER
  /\ headings
       [ Title "SAS Macro Documentation"; Subtitle "SAS Macro Documentation";
         Heading "Overview"; Body "Loads a table.";
         Heading "Summary"; Body "It loads." ]
     = filter (is_populated overview_and_summary) SECTION_ORDER
  /\ headings
       [ Title "load User Manual"; Heading "Overview";
         Normal "Loads a table."; Heading "Summary"; Normal "It loads." ]
     = filter (is_populated_rtf overview_and_summary) SECTION_ORDER.
Proof.
  split; [| split].
  - apply (proj1 (produced_documents_carry_the_populated_headings no_repr
                    overview_and_summary (VStr "load"))).
    reflexivity.
  - apply (proj1 (proj2 (produced_documents_carry_the_populated_headings
                           no_repr overview_and_summary (VStr "load")))).
    reflexivity.
  - apply (proj2 (proj2 (produced_documents_carry_the_populated_headings
                           no_repr overview_and_summary (VStr "load")))).
    reflexivity.
Defined.

Lemma parameters_that_are_no_mapping_witness :
  (forall doc,
      _create_pdf no_repr [("Parameters", VStr "none")] VNone <> Ok doc)
  /\ (forall doc,
         create_presentation no_repr [("Parameters", VStr "none")] = Ok doc ->
         In (Heading "Parameters") doc /\ forall g, ~ In (Grid g) doc).
Proof.
  apply (parameters_that_are_no_mapping no_repr
           [("Parameters", VStr "none")] VNone (VStr "none"));
    [reflexivity | reflexivity | discriminate].
Defined.

Lemma create_manual_title_witness :
  match
    fst (create_manual no_repr Mapping "html" (VStr "load")
           overview_and_summary)
  with
  | Ok doc => exists rest, doc = Title ("load" ++ " User Manual") :: rest
  | Raise e => exists cause, e = Wrapped "Failed to generate document: " cause
  end.
Proof.
  apply (create_manual_title_or_wrapped_error no_repr "load" "html"
           overview_and_summary); reflexivity.
Defined.

Lemma blank_macro_name_witness :
  match
    fst (create_manual no_repr Mapping "pdf" (VStr " ") overview_and_summary)
  with
  | Ok doc => exists rest, doc = Title (" " ++ " User Manual") :: rest
  | Raise _ => True
  end
  /\ match
       fst (create_manual no_repr Mapping "pptx" (VStr " ")
              overview_and_summary)
     with
     | Ok doc => exists rest, doc = Title "SAS Macro Documentation" :: rest
     | Raise _ => True
     end.
Proof.
  apply (blank_macro_name_titles no_repr " " overview_and_summary);
    reflexivity.
Defined.

End RendererMoreFacts.

(** ** The download handler *)

Module DownloadFacts.

Import Py PyVal DocGen App Notions Download MacroFacts RendererFacts.

Section Answers.

Variable py_repr : value -> string.

Lemma holder_is_true (d : dict) (k : string) (v : value) :
  dict_get d k = Some v -> truthy (VDict d) = true.
Proof. now destruct d. Qed.

(** A request that passes the checks is answered by what the inner block
    gives. *)
Lemma download_of_request (body entry : dict) (more : list value)
  (macro_name content : value) (f : string) :
  dict_get body "content" = Some (VList (VDict entry :: more)) ->
  dict_get entry "macro_name" = Some macro_name ->
  dict_get entry "content" = Some content ->
  truthy macro_name = true ->
  truthy content = true ->
  get_or body "outputFormat" (VStr "rtf") = VStr f ->
  download_documentation py_repr (VDict body)
  = match generate py_repr content macro_name (lower f) with
    | Ok (output_filename, doc) =>
        Attachment output_filename (mime_type (lower f)) doc
    | Raise e => Error500 (Failed (lower f) e)
    end.
Proof.
  intros Hlist Hname Hcontent Hn Hc Hf.
  assert (Hl : get_or body "content" VNone = VList (VDict entry :: more))
    by (unfold get_or; now rewrite Hlist).
  assert (Hm : get_or entry "macro_name" VNone = macro_name)
    by (unfold get_or; now rewrite Hname).
  assert (Hk : get_or entry "content" VNone = content)
    by (unfold get_or; now rewrite Hcontent).
  unfold download_documentation.
  rewrite (holder_is_true _ _ _ Hlist).
  cbn [negb get_method bind]. rewrite Hl.
  cbn [first_item bind]. rewrite (holder_is_true _ _ _ Hname).
  cbn [negb get_method bind]. rewrite Hm, Hk, Hn, Hc, Hf.
  reflexivity.
Qed.

(** The slides are made from the content alone: when the content holds no
    macro name of its own, the presentation that is sent has the general
    title, whatever macro name the request gives, and its file is named
    after that macro name. *)
Theorem pptx_download_has_the_general_title
  (body entry c : dict) (more : list value) (macro_name : value)
  (f : string) :
  dict_get body "content" = Some (VList (VDict entry :: more)) ->
  dict_get entry "macro_name" = Some macro_name ->
  dict_get entry "content" = Some (VDict c) ->
  truthy macro_name = true ->
  truthy (VDict c) = true ->
  get_or body "outputFormat" (VStr "rtf") = VStr f ->
  lower f = "pptx" ->
  dict_get c "macro_name" = None ->
  match download_documentation py_repr (VDict body) with
  | Attachment download_name _ doc =>
      download_name = (py_str py_repr macro_name ++ "_User_Manual.pptx")%string
      /\ exists slides,
           doc = Title "SAS Macro Documentation"
                 :: Subtitle "SAS Macro Documentation" :: slides
  | Error500 (Failed output_format _) => output_format = "pptx"
  | _ => False
  end.
Proof.
  intros Hlist Hname Hcontent Hn Hc Hf Hlow Hnone.
  rewrite (download_of_request _ _ _ _ _ _ Hlist Hname Hcontent Hn Hc Hf).
  rewrite Hlow. unfold generate. cbn [String.eqb Ascii.eqb Bool.eqb].
  unfold presentation_of, create_presentation. rewrite Hnone.
  cbn [truthy andb].
  destruct (concat_results _) as [slides |]; cbn [bind]; [| reflexivity].
  split; [now rewrite append_assoc | now exists slides].
Qed.

(** A format that is none of pdf, pptx and html, in any letter case, is
    served as the editable document: a file that is sent holds the
    document of [_create_rtf], carries the format as its extension, and
    has the general type unless the format is rtf. *)
Theorem other_formats_are_served_as_rtf
  (body entry c : dict) (more : list value) (macro_name : value)
  (f : string) :
  dict_get body "content" = Some (VList (VDict entry :: more)) ->
  dict_get entry "macro_name" = Some macro_name ->
  dict_get entry "content" = Some (VDict c) ->
  truthy macro_name = true ->
  truthy (VDict c) = true ->
  get_or body "outputFormat" (VStr "rtf") = VStr f ->
  lower f <> "pdf" -> lower f <> "pptx" -> lower f <> "html" ->
  forall (download_name mimetype : string) (doc : list elem),
    download_documentation py_repr (VDict body)
    = Attachment download_name mimetype doc ->
    download_name
    = (py_str py_repr macro_name ++ "_User_Manual" ++ "." ++ lower f)%string
    /\ mimetype
       = (if String.eqb (lower f) "rtf" then "application/rtf"
          else "application/octet-stream")
    /\ _create_rtf py_repr (dict_set c "macro_name" macro_name) macro_name
       = Ok doc.
Proof.
  intros Hlist Hname Hcontent Hn Hc Hf Hpdf Hpptx Hhtml
         download_name mimetype doc.
  rewrite (download_of_request _ _ _ _ _ _ Hlist Hname Hcontent Hn Hc Hf).
  apply String.eqb_neq in Hpdf, Hpptx, Hhtml.
  unfold generate, manual_of, create_manual, mime_type.
  rewrite Hpptx, Hpdf, Hhtml.
  unfold rewrap, pbind, store, reading.
  destruct (_create_rtf _ _ _) as [made | e]; cbn [fst bind];
    [| discriminate].
  intros H. injection H as <- <- <-.
  split; [now rewrite !append_assoc | split; reflexivity].
Qed.

(** *** Requests that are answered with a server error *)

(** An empty list of documents is not rejected as a bad request: taking
    its first entry fails, and the answer is a server error. *)
Theorem empty_content_list_is_a_server_error (body : dict) :
  dict_get body "content" = Some (VList []) ->
  download_documentation py_repr (VDict body)
  = Error500 (Unexpected IndexError).
Proof.
  intros Hlist. unfold download_documentation.
  rewrite (holder_is_true _ _ _ Hlist).
  cbn [negb get_method bind]. unfold get_or. now rewrite Hlist.
Qed.

(** A content that is true but no mapping, such as a text, is a server
    error in every format: the slides fail on its missing method, the
    other formats on the check of [create_manual]. *)
Theorem content_that_is_no_mapping
  (body entry : dict) (more : list value) (macro_name content : value)
  (f : string) :
  dict_get body "content" = Some (VList (VDict entry :: more)) ->
  dict_get entry "macro_name" = Some macro_name ->
  dict_get entry "content" = Some content ->
  truthy macro_name = true ->
  truthy content = true ->
  get_or body "outputFormat" (VStr "rtf") = VStr f ->
  (forall d, content <> VDict d) ->
  download_documentation py_repr (VDict body)
  = Error500
      (Failed (lower f)
         (if String.eqb (lower f) "pptx" then AttributeError
          else Wrapped "Failed to generate document: "
                 (ValueError "Invalid or empty content provided"))).
Proof.
  intros Hlist Hname Hcontent Hn Hc Hf Hno.
  rewrite (download_of_request _ _ _ _ _ _ Hlist Hname Hcontent Hn Hc Hf).
  unfold generate, presentation_of, manual_of.
  destruct (String.eqb (lower f) "pptx");
    destruct content; try reflexivity; now elim (Hno d).
Qed.

End Answers.

Lemma pptx_download_witness :
  match
    download_documentation no_repr
      (VDict (request_for (VStr "load") (VDict overview_and_summary) "PPTX"))
  with
  | Attachment download_name _ doc =>
      download_name
      = (py_str no_repr (VStr "load") ++ "_User_Manual.pptx")%string
      /\ exists slides,
           doc = Title "SAS Macro Documentation"
                 :: Subtitle "SAS Macro Documentation" :: slides
  | Error500 (Failed output_format _) => output_format = "pptx"
  | _ => False
  end.
Proof.
  apply (pptx_download_has_the_general_title no_repr
           (request_for (VStr "load") (VDict overview_and_summary) "PPTX")
           (document_entry (VStr "load") (VDict overview_and_summary))
           overview_and_summary [] (VStr "load") "PPTX"); reflexivity.
Defined.

Lemma other_formats_witness :
  exists (download_name mimetype : string) (doc : list elem),
    download_documentation no_repr
      (VDict (request_for (VStr "load") (VDict overview_and_summary) "Docx"))
    = Attachment download_name mimetype doc
    /\ download_name
       = (py_str no_repr (VStr "load") ++ "_User_Manual" ++ "."
          ++ lower "Docx")%string
    /\ mimetype
       = (if String.eqb (lower "Docx") "rtf" then "application/rtf"
          else "application/octet-stream")
    /\ _create_rtf no_repr
         (dict_set overview_and_summary "macro_name" (VStr "load"))
         (VStr "load")
       = Ok doc.
Proof.
  do 3 eexists. split; [reflexivity |].
  apply (other_formats_are_served_as_rtf no_repr
           (request_for (VStr "load") (VDict overview_and_summary) "Docx")
           (document_entry (VStr "load") (VDict overview_and_summary))
           overview_and_summary [] (VStr "load") "Docx");
    try reflexivity; discriminate.
Defined.

Lemma empty_content_list_witness :
  download_documentation no_repr
    (VDict [("outputFormat", VStr "pdf"); ("content", VList [])])
  = Error500 (Unexpected IndexError).
Proof.
  apply (empty_content_list_is_a_server_error no_repr
           [("outputFormat", VStr "pdf"); ("content", VList [])]).
  reflexivity.
Defined.

Lemma content_that_is_no_mapping_witness :
  download_documentation no_repr
    (VDict (request_for (VStr "load") (VStr "Loads a table.") "pdf"))
  = Error500
      (Failed (lower "pdf")
         (if String.eqb (lower "pdf") "pptx" then AttributeError
          else Wrapped "Failed to generate document: "
                 (ValueError "Invalid or empty content provided"))).
Proof.
  apply (content_that_is_no_mapping no_repr
           (request_for (VStr "load") (VStr "Loads a table.") "pdf")
           (document_entry (VStr "load") (VStr "Loads a table."))
           [] (VStr "load") (VStr "Loads a table.") "pdf");
    try reflexivity; discriminate.
Defined.

End DownloadFacts.

(** ** Descriptors of the declared parameters *)

Module DescriptionFacts.

Import Py PyFacts Re PyVal DocGen App Notions MoreNotions MacroFacts
       TextFacts ReFacts ParameterFacts FormatterMoreFacts ReMoreFacts.

(** *** The declaration is found *)

Lemma declaration_search (pre kw ws name params post : string) :
  contains "%macro" (lower pre) = false ->
  lower kw = "%macro" ->
  ws <> EmptyString -> all_chars is_space ws = true ->
  name <> EmptyString -> all_chars is_word name = true ->
  all_chars is_dot params = true -> contains ");" params = false ->
  search true macro_def_pattern
    (pre ++ kw ++ ws ++ name ++ "(" ++ params ++ ");" ++ post)
  = Some [params].
Proof.
  intros Hpre Hkw Hws Hsp Hname Hw Hdot Hclose.
  rewrite (search_at_keyword _ _ _ Hpre Hkw).
  assert (Hhere :
            match_here true macro_def_pattern
              (kw ++ ws ++ name ++ "(" ++ params ++ ");" ++ post)
            = Some ([params], post)).
  { rewrite (after_keyword_and_name kw ws name _ Hkw Hws Hsp Hname Hw);
      [| reflexivity].
    change ("(" ++ params ++ ");" ++ post)%string
      with (String "("%char (params ++ ");" ++ post)).
    rewrite list_pattern_unfolded.
    apply lazy_rep_first; [exact Hdot | | reflexivity].
    intros a b E Hb. cbv beta.
    rewrite close_needs_text; [reflexivity |].
    apply (no_close_inside params (");" ++ post)%string a b Hclose);
      [reflexivity | exact E | exact Hb]. }
  destruct kw as [| c0 kw]; [discriminate |].
  cbn [append search] in *. now rewrite Hhere.
Qed.

(** *** The entries of a well-formed list *)

Lemma word_is_default_char (c : ascii) :
  is_word c = true -> default_char c = true.
Proof. unfold default_char. each_ascii c. Qed.

Lemma default_char_no_comma (c : ascii) :
  default_char c = true -> negb (Ascii.eqb c ","%char) = true.
Proof. unfold default_char. each_ascii c. Qed.

Lemma default_char_no_equals (c : ascii) :
  default_char c = true -> negb (Ascii.eqb c "="%char) = true.
Proof. unfold default_char. each_ascii c. Qed.

Lemma default_char_is_dot (c : ascii) :
  default_char c = true -> is_dot c = true.
Proof. unfold default_char. each_ascii c. Qed.

Lemma word_no_equals (c : ascii) :
  is_word c = true -> negb (Ascii.eqb c "="%char) = true.
Proof. each_ascii c. Qed.

Lemma entry_chars (q : ascii -> bool) (p : parameter) :
  (forall c, default_char c = true -> q c = true) ->
  q "="%char = true ->
  well_formed p = true -> all_chars q (entry_text p) = true.
Proof.
  intros Hq Heq H. unfold well_formed, is_name in H.
  apply andb_prop in H as [Hn Hd]. apply andb_prop in Hn as [_ Hn].
  assert (Hn' : all_chars q (fst p) = true).
  { apply (all_chars_weaken is_word); [| exact Hn].
    intros c Hc. now apply Hq, word_is_default_char. }
  unfold entry_text. destruct (snd p) as [d |]; [| exact Hn'].
  rewrite !all_chars_app, Hn'. cbn [all_chars]. rewrite Heq.
  cbn [andb]. now apply (all_chars_weaken default_char).
Qed.

Lemma entry_lacks_comma (p : parameter) :
  well_formed p = true -> lacks ","%char (entry_text p) = true.
Proof.
  intros H. unfold lacks.
  apply (entry_chars (fun c => negb (Ascii.eqb c ","%char)));
    [exact default_char_no_comma | reflexivity | exact H].
Qed.

Lemma split_joined_entries (es : list string) :
  forall e,
    lacks ","%char e = true ->
    Forall (fun x => lacks ","%char x = true) es ->
    split ","%char (join ", " (e :: es)) = e :: map (String " "%char) es.
Proof.
  induction es as [| e2 es IH]; intros e He Hes.
  - cbn [join map]. now apply split_without_separator.
  - inversion Hes as [| ? ? He2 Hes']; subst.
    change (join ", " (e :: e2 :: es))
      with (e ++ String ","%char (String " "%char (join ", " (e2 :: es))))%string.
    rewrite (split_at_first_separator _ _ _ He).
    cbn [split]. change (Ascii.eqb " " ",") with false. cbv iota.
    now rewrite (IH e2 He2 Hes').
Qed.

Lemma rstrip_words (n : string) :
  all_chars is_word n = true -> rstrip n = n.
Proof.
  induction n as [| c n IH]; intros H; [reflexivity |].
  cbn [all_chars] in H. apply andb_prop in H as [Hc H].
  now rewrite (rstrip_cons c n (word_not_space c Hc)), (IH H).
Qed.

Lemma rstrip_after_words (n : string) (c : ascii) (x : string) :
  all_chars is_word n = true -> is_space c = false ->
  rstrip (n ++ String c x) = (n ++ String c (rstrip x))%string.
Proof.
  intros Hn Hc. induction n as [| a n IH].
  - cbn [append]. now apply rstrip_cons.
  - cbn [all_chars] in Hn. apply andb_prop in Hn as [Ha Hn].
    cbn [append].
    now rewrite (rstrip_cons a _ (word_not_space a Ha)), (IH Hn).
Qed.

Lemma lstrip_name (n x : string) :
  is_name n = true -> lstrip (n ++ x) = (n ++ x)%string.
Proof.
  unfold is_name. destruct n as [| c n]; [discriminate |].
  cbn [negb is_empty andb all_chars]. intros H.
  apply andb_prop in H as [Hc _]. cbn [append lstrip].
  now rewrite (word_not_space c Hc).
Qed.

Lemma lstrip_rstrip (d : string) : lstrip (rstrip d) = rstrip (lstrip d).
Proof.
  induction d as [| c d IH]; [reflexivity |].
  destruct (is_space c) eqn:Hc.
  - cbn [lstrip]. rewrite Hc, <- IH. unfold rstrip. cbn [rstrip_with].
    rewrite Hc. cbn [andb].
    destruct (is_empty (rstrip_with is_space d)) eqn:E.
    + apply is_empty_true in E. now rewrite E.
    + cbn [lstrip]. now rewrite Hc.
  - cbn [lstrip]. rewrite Hc, (rstrip_cons c d Hc). cbn [lstrip].
    now rewrite Hc.
Qed.

Lemma strip_of_rstrip (d : string) : strip (rstrip d) = strip d.
Proof.
  unfold strip. rewrite lstrip_rstrip. unfold rstrip.
  apply rstrip_with_idempotent.
Qed.

Lemma rstrip_lacks (c : ascii) (d : string) :
  lacks c d = true -> lacks c (rstrip d) = true.
Proof.
  intros H. destruct (rstrip_is_prefix is_space d) as [b E].
  unfold lacks, rstrip in *. rewrite E, all_chars_app in H.
  now apply andb_prop in H as [H _].
Qed.

(** The trimmed text of an entry. *)
Lemma strip_entry (p : parameter) :
  well_formed p = true ->
  strip (entry_text p)
  = match snd p with
    | Some d => (fst p ++ String "="%char (rstrip d))%string
    | None => fst p
    end.
Proof.
  intros H. unfold well_formed in H. apply andb_prop in H as [Hn _].
  pose proof Hn as Hn'. unfold is_name in Hn'.
  apply andb_prop in Hn' as [_ Hw].
  unfold strip, entry_text. destruct (snd p) as [d |].
  - rewrite (lstrip_name _ _ Hn).
    now apply (rstrip_after_words (fst p) "="%char d).
  - rewrite <- (append_nil_r (fst p)) at 1.
    rewrite (lstrip_name _ _ Hn), append_nil_r. now apply rstrip_words.
Qed.

Lemma strip_entry_not_empty (p : parameter) :
  well_formed p = true -> is_empty (strip (entry_text p)) = false.
Proof.
  intros H. rewrite (strip_entry p H).
  unfold well_formed, is_name in H. apply andb_prop in H as [Hn _].
  apply andb_prop in Hn as [Hn _].
  destruct (fst p) as [| c n]; [discriminate |]. now destruct (snd p).
Qed.

Lemma strip_name (n : string) : is_name n = true -> strip n = n.
Proof.
  intros Hn. unfold strip. rewrite <- (append_nil_r n) at 1.
  rewrite (lstrip_name _ _ Hn), append_nil_r.
  unfold is_name in Hn. apply andb_prop in Hn as [_ Hw].
  now apply rstrip_words.
Qed.

Lemma name_lacks_equals (n : string) :
  is_name n = true -> lacks "="%char n = true.
Proof.
  unfold is_name, lacks. intros H. apply andb_prop in H as [_ H].
  apply (all_chars_weaken is_word); [exact word_no_equals | exact H].
Qed.

(** Name and default read off the trimmed entry. *)
Lemma entry_name_and_default (p : parameter) :
  well_formed p = true ->
  param_name_of (strip (entry_text p)) = declared_name p
  /\ default_value_of (strip (entry_text p)) = declared_default p.
Proof.
  intros H. rewrite (strip_entry p H).
  unfold well_formed in H. apply andb_prop in H as [Hn Hd].
  unfold declared_name, declared_default.
  destruct (snd p) as [d |].
  - assert (Hl : lacks "="%char (rstrip d) = true).
    { apply rstrip_lacks. unfold lacks.
      apply (all_chars_weaken default_char);
        [exact default_char_no_equals | exact Hd]. }
    destruct (entry_with_one_equals (fst p) (rstrip d)
                (name_lacks_equals _ Hn) Hl) as [E1 E2].
    change (fst p ++ "=" ++ rstrip d)%string
      with (fst p ++ String "="%char (rstrip d))%string in E1, E2.
    now rewrite E1, E2, (strip_name _ Hn), strip_of_rstrip.
  - destruct (entry_without_equals (fst p) (name_lacks_equals _ Hn))
      as [E1 E2].
    now rewrite E1, E2, (strip_name _ Hn).
Qed.

Lemma strip_after_space (e : string) :
  strip (String " "%char e) = strip e.
Proof. reflexivity. Qed.

(** The entries the code works on are the trimmed texts of the declared
    parameters, one for each, in order. *)
Lemma split_params_of_list (ps : list parameter) :
  forallb well_formed ps = true ->
  split_params (list_text ps) = map (fun p => strip (entry_text p)) ps.
Proof.
  intros H. unfold split_params, list_text.
  destruct ps as [| p ps]; [reflexivity |].
  cbn [forallb] in H. apply andb_prop in H as [Hp Hps].
  cbn [map]. rewrite split_joined_entries.
  - cbn [map filter]. rewrite (strip_entry_not_empty p Hp). cbn [negb].
    f_equal. clear p Hp.
    induction ps as [| q ps IH]; [reflexivity |].
    cbn [forallb] in Hps. apply andb_prop in Hps as [Hq Hps].
    cbn [map filter]. rewrite strip_after_space.
    rewrite (strip_entry_not_empty q Hq). cbn [negb].
    now rewrite (IH Hps).
  - now apply entry_lacks_comma.
  - clear p Hp. induction ps as [| q ps IH]; [constructor |].
    cbn [forallb] in Hps. apply andb_prop in Hps as [Hq Hps].
    cbn [map]. constructor; [now apply entry_lacks_comma | now apply IH].
Qed.

Lemma list_text_is_dot (ps : list parameter) :
  forallb well_formed ps = true -> all_chars is_dot (list_text ps) = true.
Proof.
  unfold list_text. induction ps as [| p ps IH]; intros H; [reflexivity |].
  cbn [forallb] in H. apply andb_prop in H as [Hp Hps].
  assert (He : all_chars is_dot (entry_text p) = true)
    by (apply entry_chars; [exact default_char_is_dot | reflexivity
                           | exact Hp]).
  destruct ps as [| q ps]; [exact He |].
  change (join ", " (map entry_text (p :: q :: ps)))
    with (entry_text p ++ ", " ++ join ", " (map entry_text (q :: ps)))%string.
  rewrite !all_chars_app, He, (IH Hps). reflexivity.
Qed.

(** *** Whatever the description calls do *)

Lemma describe_params_inversion (chat : collaborator) (sas_code : string)
  (params : list string) :
  forall call i d,
    nth_error (describe_params chat sas_code call params) i = Some d ->
    exists e, nth_error params i = Some e.
Proof.
  induction params as [| p ps IH]; intros call i d H.
  - destruct i; discriminate.
  - destruct i as [| i]; [now exists p |].
    cbn [describe_params nth_error] in H. cbn [nth_error]. eauto.
Qed.

(** C8 (the claim fails): the list is cut at every comma, also inside a
    default.  A declaration of three parameters, the second with the
    default [%str(x,y)], gives four descriptors. *)
Lemma C8_comma_in_default_counterexample :
  extract_macro_parameters silent "%macro m(a, b=%str(x,y), c);"
  = [ [VStr "a"; VStr "None"; VStr "Parameter a for the macro"];
      [VStr "b"; VStr "%str(x"; VStr "Parameter b for the macro"];
      [VStr "y)"; VStr "None"; VStr "Parameter y) for the macro"];
      [VStr "c"; VStr "None"; VStr "Parameter c for the macro"] ]
  /\ List.length
       (extract_macro_parameters silent "%macro m(a, b=%str(x,y), c);")
     <> 3.
Proof. split; vm_compute; [reflexivity | discriminate]. Qed.

(** C8 (amended): whatever the description calls do, the names and the
    defaults of the descriptors, and so their number, are the same; every
    descriptor has a name, a default and a description; and a descriptor
    whose description call fails has the description
    "Parameter <name> for the macro", with its own name.  When the first
    [%macro] of the source, in any case, opens a declaration that lists N
    parameters separated by commas, each an identifier that may be
    followed by an equals sign and a default with no comma, no equals
    sign and no line feed in it, and the list holds no [);], there are
    exactly N descriptors, in order: the i-th has the i-th declared name,
    the declared default trimmed (or "None" when there is none or it is
    blank), and the generic description with that name when its call
    fails. *)
Theorem C8_description_failures_are_absorbed :
  (forall (chat chat' : collaborator) (sas_code : string),
      map name_and_default (extract_macro_parameters chat sas_code)
      = map name_and_default (extract_macro_parameters chat' sas_code)
      /\ List.length (extract_macro_parameters chat sas_code)
         = List.length (extract_macro_parameters chat' sas_code)
      /\ forall (i : nat) (descriptor : list value),
           nth_error (extract_macro_parameters chat sas_code) i
           = Some descriptor ->
           exists (n dflt : string) (description : value),
             descriptor = [VStr n; VStr dflt; description]
             /\ (call_fails (chat i n sas_code) = true ->
                 description
                 = VStr ("Parameter " ++ n ++ " for the macro")
                 /\ is_empty ("Parameter " ++ n ++ " for the macro")
                    = false))
  /\ (forall (chat : collaborator) (pre kw ws name post : string)
             (ps : list parameter),
         contains "%macro" (lower pre) = false ->
         lower kw = "%macro" ->
         ws <> EmptyString -> all_chars is_space ws = true ->
         name <> EmptyString -> all_chars is_word name = true ->
         forallb well_formed ps = true ->
         contains ");" (list_text ps) = false ->
         let sas_code :=
           (pre ++ kw ++ ws ++ name ++ "(" ++ list_text ps ++ ");"
                ++ post)%string in
         List.length (extract_macro_parameters chat sas_code)
         = List.length ps
         /\ forall (i : nat) (p : parameter),
              nth_error ps i = Some p ->
              exists description : value,
                nth_error (extract_macro_parameters chat sas_code) i
                = Some [ VStr (declared_name p); VStr (declared_default p);
                         description ]
                /\ (call_fails (chat i (declared_name p) sas_code) = true ->
                    description
                    = VStr ("Parameter " ++ declared_name p
                                         ++ " for the macro")
                    /\ is_empty ("Parameter " ++ declared_name p
                                              ++ " for the macro")
                       = false)).
Proof.
  split.
  - intros chat chat' sas_code. rewrite !extract_is_describe.
    split; [| split].
    + now rewrite !describe_params_names.
    + now rewrite !describe_params_length.
    + intros i descriptor H.
      destruct (describe_params_inversion _ _ _ _ _ _ H) as [e He].
      rewrite (describe_params_nth chat sas_code _ 0 i e He) in H.
      injection H as <-.
      exists (param_name_of e), (default_value_of e). eexists.
      split; [reflexivity |]. intros Hfail. split; [| reflexivity].
      now apply failed_call_falls_back.
  - intros chat pre kw ws name post ps Hpre Hkw Hws Hsp Hname Hw Hps Hclose
           sas_code.
    assert (E : extract_macro_parameters chat sas_code
                = describe_params chat sas_code 0
                    (map (fun p => strip (entry_text p)) ps)).
    { unfold extract_macro_parameters. subst sas_code.
      rewrite (declaration_search pre kw ws name (list_text ps) post
                 Hpre Hkw Hws Hsp Hname Hw (list_text_is_dot ps Hps) Hclose).
      cbn [group1]. now rewrite (split_params_of_list ps Hps). }
    rewrite E. split.
    + now rewrite describe_params_length, length_map.
    + intros i p Hp.
      assert (Hwf : well_formed p = true).
      { rewrite forallb_forall in Hps. apply Hps.
        now apply nth_error_In with i. }
      destruct (entry_name_and_default p Hwf) as [En Ed].
      eexists. split.
      * rewrite (describe_params_nth chat sas_code _ 0 i
                   (strip (entry_text p))).
        -- now rewrite En, Ed.
        -- now rewrite nth_error_map, Hp.
      * intros Hfail. split; [| reflexivity].
        now apply failed_call_falls_back.
Qed.

(** A declaration of three parameters whose second description call
    fails: the number of descriptors, the second descriptor with the
    declared name, and the same descriptor read off the result alone. *)
Lemma C8_description_failures_witness :
  List.length
    (extract_macro_parameters flaky
       ("* loads;" ++ "%Macro" ++ " " ++ "load" ++ "("
          ++ list_text [("lib", Some "work "); ("out", None);
                        ("n", Some "")]
          ++ ");" ++ " %mend;"))
  = 3
  /\ (exists description : value,
         nth_error
           (extract_macro_parameters flaky
              ("* loads;" ++ "%Macro" ++ " " ++ "load" ++ "("
                 ++ list_text [("lib", Some "work "); ("out", None);
                               ("n", Some "")]
                 ++ ");" ++ " %mend;")) 1
         = Some [VStr "out"; VStr "None"; description]
         /\ description = VStr "Parameter out for the macro")
  /\ (exists (n dflt : string) (description : value),
         [VStr "p2"; VStr "None"; VStr "Parameter p2 for the macro"]
         = [VStr n; VStr dflt; description]
         /\ description = VStr ("Parameter " ++ n ++ " for the macro")).
Proof.
  destruct (proj2 C8_description_failures_are_absorbed flaky
              "* loads;" "%Macro" " " "load" " %mend;"
              [("lib", Some "work "); ("out", None); ("n", Some "")])
    as [Hlen Hnth];
    [ reflexivity | reflexivity | discriminate | reflexivity | discriminate
    | reflexivity | reflexivity | reflexivity | ].
  split; [exact Hlen | split].
  - destruct (Hnth 1 ("out", None) eq_refl) as (description & Hd & Hfail).
    exists description. split; [exact Hd |].
    exact (proj1 (Hfail eq_refl)).
  - destruct (proj2 (proj2 (proj1 C8_description_failures_are_absorbed
                              flaky silent "%macro m(p1=a, p2, p3=c);"))
                1 [VStr "p2"; VStr "None"; VStr "Parameter p2 for the macro"]
                eq_refl)
      as (n & dflt & description & Hd & Hfail).
    exists n, dflt, description. split; [exact Hd |].
    injection Hd as Hn _ _. subst n.
    exact (proj1 (Hfail eq_refl)).
Defined.

End DescriptionFacts.

(** ** The parameters table in every format *)

Module TableFacts.

Import Py PyVal DocGen App Notions MoreNotions RendererFacts
       RendererMoreFacts.



Section Tables.

Variable py_repr : value -> string.







End Tables.


End TableFacts.
